(** * Digital Wallet System: wallet ledger, transaction processing and fraud rules

    A shallow embedding of
      - [models/Transaction.js] and [models/Wallet.js] (schemas and [pre('save')] hooks),
      - [services/fraudDetection.js] ([checkFraudRules], [fraudDetectionJob]),
      - [services/emailService.js] ([sendAlertEmail]),
      - [middleware/validation.js] ([validateTransaction]),
      - [routes/wallet.js] (the balance, deposit, withdraw and transfer handlers),
      - [routes/transactions.js] (the history) and the flagged list of [routes/admin.js],
    followed by the properties of the specification stated over it.

    Conventions of the embedding.
      - A JavaScript [Number] is an IEEE 754 binary64 value, a primitive [float]:
        [+], [-], [*] and [/] round to nearest, ties to even, and the comparisons
        are those of the standard ([NaN] compares false with everything).
      - The [amount] of a request body is a JSON number. (Joi also lets a JSON
        string through that reads as a number; the handlers then work on the
        string itself. Such bodies are outside the model.)
      - A [Date] is its number of milliseconds since the epoch, a [Z].
      - An [ObjectId] is its canonical hexadecimal string, 24 lower-case digits;
        [toString()] is the identity on it. A string of a request is turned into
        an [ObjectId] by [castObjectId].
      - [package.json] asks for mongoose 7: a [null] in a string path with an
        [enum] fails validation ([undefined] alone is skipped).
      - The [wallets] collection carries a unique index on [userId]; it is a
        finite map from [userId] to the rest of the document.
      - The [transactions] collection is the list of its documents in insertion
        order.
      - An [async] function is a computation in the monad [M]: it threads the
        database (durable state and the writes staged in the open session), may
        throw, and records what it did in a list of [Event]s, the most recent
        first. *)

From Stdlib Require Import Floats QArith ZArith List Bool String Ascii Lia.
From stdpp Require Import gmap strings list fin_maps sorting.
Import ListNotations.

#[local] Set Warnings "-inexact-float".

Local Open Scope string_scope.
Local Open Scope list_scope.

(** ** Numbers *)

(** [Math.round]: the nearest integer, halves towards [+Infinity]; a result
    that is zero keeps the sign of the argument. A number whose binary exponent
    is not negative is an integer already. The integer [floor (x + 1/2)] is
    computed exactly; below [2^53] it is a double. *)
Definition Math_round (x : float) : float :=
  match Prim2SF x with
  | S754_finite s m e =>
      if (0 <=? e)%Z then x
      else
        let n := ((2 * cond_Zopp s (Zpos m) + 2 ^ (- e)) / 2 ^ (1 - e))%Z in
        if (0 <? n)%Z then of_uint63 (Uint63.of_Z n)
        else if (n =? 0)%Z then (if s then (-0)%float else 0%float)
        else (- of_uint63 (Uint63.of_Z (- n)))%float
  | _ => x
  end.

(** [x || 0] on a number: zero and [NaN] are falsy. *)
Definition or_zero (x : float) : float :=
  if (x =? 0)%float || is_nan x then 0%float else x.

(** The rational a finite double stands for (zero for the others). *)
Definition valueOf (x : float) : Q :=
  match Prim2SF x with
  | S754_finite s m e =>
      let v := if (0 <=? e)%Z then inject_Z (Zpos m * 2 ^ e) else Zpos m # Z.to_pos (2 ^ (- e)) in
      if s then (- v)%Q else v
  | _ => 0%Q
  end.

(** *** Signs of doubles, on their specification *)

(** Zero or above: what [0 <= x] says of a double. *)
Definition sfNonneg (x : spec_float) : Prop :=
  match x with
  | S754_zero _ | S754_infinity false | S754_finite false _ _ => True
  | _ => False
  end.

(** Above zero: what [0 < x] says. *)
Definition sfPositive (x : spec_float) : Prop :=
  match x with
  | S754_infinity false | S754_finite false _ _ => True
  | _ => False
  end.

(** The sign of a rounded result is the sign given. *)
Variant sfSigned (s : bool) : spec_float -> Prop :=
| signed_zero : sfSigned s (S754_zero s)
| signed_finite m e : sfSigned s (S754_finite s m e)
| signed_infinity : sfSigned s (S754_infinity s).

(** Not above zero. *)
Definition sfNonpos (x : spec_float) : Prop := ~ sfPositive x.

(** ** ObjectIds *)

Definition between (lo hi : nat) (c : ascii) : bool :=
  Nat.leb lo (nat_of_ascii c) && Nat.leb (nat_of_ascii c) hi.

(** [/^[0-9a-fA-F]$/] *)
Definition isHexDigit (c : ascii) : bool :=
  between 48 57 c || between 65 70 c || between 97 102 c.

Definition isAscii (c : ascii) : bool := Nat.ltb (nat_of_ascii c) 128.

Definition lowerHexDigit (c : ascii) : ascii :=
  if between 65 70 c then ascii_of_nat (nat_of_ascii c + 32) else c.

Definition hexDigit (n : nat) : ascii :=
  ascii_of_nat (if Nat.ltb n 10 then 48 + n else 87 + n).

Fixpoint allChars (p : ascii -> bool) (s : string) : bool :=
  match s with
  | EmptyString => true
  | String c r => p c && allChars p r
  end.

Fixpoint mapChars (f : ascii -> ascii) (s : string) : string :=
  match s with
  | EmptyString => EmptyString
  | String c r => String (f c) (mapChars f r)
  end.

(** [toHexString()] of the identifier made of the bytes of [s]. *)
Fixpoint hexOfBytes (s : string) : string :=
  match s with
  | EmptyString => EmptyString
  | String c r =>
      String (hexDigit (nat_of_ascii c / 16))
             (String (hexDigit (nat_of_ascii c mod 16)) (hexOfBytes r))
  end.

(** [new ObjectId(s)] as mongoose 7 (bson 5) casts a string: 24 hexadecimal
    digits of either case name the identifier they spell; 12 characters of one
    byte each name the identifier made of these bytes; every other string is
    refused ([None]: the caller sees a [CastError]). The result is the
    canonical string of the identifier. *)
Definition castObjectId (s : string) : option string :=
  if Nat.eqb (String.length s) 24 && allChars isHexDigit s then Some (mapChars lowerHexDigit s)
  else if Nat.eqb (String.length s) 12 && allChars isAscii s then Some (hexOfBytes s)
  else None.

(** ** Enumerations of [models/Transaction.js] *)

Inductive TxType := deposit | withdrawal | transfer.
Inductive TxStatus := pending | completed | failed | cancelled.
Inductive FlagReason := high_frequency | large_amount | suspicious_pattern | manual_review.

#[global] Instance TxType_eq_dec : EqDecision TxType.
Proof. solve_decision. Defined.

Definition TxType_eqb (a b : TxType) : bool :=
  match a, b with
  | deposit, deposit | withdrawal, withdrawal | transfer, transfer => true
  | _, _ => false
  end.

(** Exceptions a handler can observe. *)
Inductive Exn :=
| TypeError (what : string)          (* property access on [null] *)
| ValidationError (path : string)    (* schema validators failed, [path] the first *)
| CastError (path : string)          (* a value could not be cast to the schema type *)
| MongoError (what : string).        (* the store rejected or could not serve a query *)

(** ** [models/Transaction.js] *)
Module Transaction.

Record t := mk {
  fromUserId : option string;
  toUserId : option string;
  type : TxType;
  amount : float;
  currency : string;
  description : option string;
  status : TxStatus;
  isFlagged : bool;
  flagReason : option FlagReason;
  isDeleted : bool;
  deletedAt : option Z;
  createdAt : Z;
  updatedAt : Z
}.

(** [required: function() { return this.type === 'transfer' || this.type === 'withdrawal' }] *)
Definition fromUserId_required (d : t) : bool :=
  TxType_eqb (type d) transfer || TxType_eqb (type d) withdrawal.

(** [required: function() { return this.type === 'transfer' || this.type === 'deposit' }] *)
Definition toUserId_required (d : t) : bool :=
  TxType_eqb (type d) transfer || TxType_eqb (type d) deposit.

Definition present {A} (o : option A) : bool :=
  match o with Some _ => true | None => false end.

(** The schema validators run by [save] on a new document built by a handler,
    in the order of the schema; [None] when the document is valid, otherwise
    the first failing path. The handlers always set [flagReason], to a reason
    or to [null] ([None]), and [null] is no member of the [enum]. *)
Definition validate (d : t) : option string :=
  if fromUserId_required d && negb (present (fromUserId d)) then Some "fromUserId"
  else if toUserId_required d && negb (present (toUserId d)) then Some "toUserId"
  else if negb (0.01 <=? amount d)%float then Some "amount"            (* min: 0.01 *)
  else if String.eqb (currency d) "" then Some "currency"             (* required *)
  else if match description d with
          | Some s => Nat.ltb 500 (String.length s)                   (* maxlength: 500 *)
          | None => false
          end then Some "description"
  else if negb (present (flagReason d)) then Some "flagReason"        (* enum *)
  else None.

(** [transactionSchema.pre('save')]: [this.updatedAt = Date.now()]. *)
Definition preSave (now : Z) (d : t) : t :=
  mk (fromUserId d) (toUserId d) (type d) (amount d) (currency d) (description d)
     (status d) (isFlagged d) (flagReason d) (isDeleted d) (deletedAt d)
     (createdAt d) now.

(** [transaction.status = 'completed'] *)
Definition set_status (s : TxStatus) (d : t) : t :=
  mk (fromUserId d) (toUserId d) (type d) (amount d) (currency d) (description d)
     s (isFlagged d) (flagReason d) (isDeleted d) (deletedAt d)
     (createdAt d) (updatedAt d).

End Transaction.

(** ** [models/Wallet.js] *)

(** One element of [balances]. *)
Record Balance := mkBalance { b_currency : string; b_amount : float }.

Module Wallet.

Record t := mk {
  balances : list Balance;
  isActive : bool;
  isDeleted : bool;
  deletedAt : option Z;
  createdAt : Z;
  updatedAt : Z
}.

Definition with_balances (bs : list Balance) (w : t) : t :=
  mk bs (isActive w) (isDeleted w) (deletedAt w) (createdAt w) (updatedAt w).

(** A document built from the schema defaults alone: [new Wallet({ userId })]. *)
Definition fresh (now : Z) : t := mk [] true false None now now.

(** [walletSchema.pre('save')]: seed the USD entry of a new wallet without
    balances, then [this.updatedAt = Date.now()]. *)
Definition preSave (isNew : bool) (now : Z) (w : t) : t :=
  let bs := if isNew && Nat.eqb (length (balances w)) 0
            then balances w ++ [mkBalance "USD" 0]
            else balances w in
  mk bs (isActive w) (isDeleted w) (deletedAt w) (createdAt w) now.

(** Validators of one [balances] element: [currency] required, [amount] with
    [min: 0] ([NaN] is refused). *)
Definition validate_balance (b : Balance) : bool :=
  negb (String.eqb (b_currency b) "") && (0 <=? b_amount b)%float.

(** The validators [save] runs on a wallet a handler changed. Mongoose is
    bound to validate the entries that were modified; all entries are validated
    here, which is the same for a wallet whose entries were valid when it was
    loaded. *)
Definition validate (w : t) : bool := forallb validate_balance (balances w).

End Wallet.

(** ** Array helpers on [balances] *)

(** [arr.findIndex(p)]: the first index whose element satisfies [p]. *)
Fixpoint findIndex {A} (p : A -> bool) (l : list A) : option nat :=
  match l with
  | [] => None
  | x :: r => if p x then Some O else option_map S (findIndex p r)
  end.

(** [arr.find(p)] on an array of objects: a reference to the first element
    satisfying [p], that is, its index together with the element read there. *)
Fixpoint find_ref {A} (p : A -> bool) (l : list A) : option (nat * A) :=
  match l with
  | [] => None
  | x :: r => if p x then Some (O, x)
              else match find_ref p r with
                   | Some (i, y) => Some (S i, y)
                   | None => None
                   end
  end.

(** [b => b.currency === currency] *)
Definition hasCurrency (currency : string) (b : Balance) : bool :=
  String.eqb (b_currency b) currency.

(** [balances[i].amount = f(balances[i].amount)] *)
Definition updateAt (i : nat) (f : float -> float) (bs : list Balance) : list Balance :=
  match bs !! i with
  | Some b => <[ i := mkBalance (b_currency b) (f (b_amount b)) ]> bs
  | None => bs
  end.

(** [balances[i].amount += delta] *)
Definition addAt (i : nat) (delta : float) (bs : list Balance) : list Balance :=
  updateAt i (fun x => x + delta)%float bs.

(** [balance.amount -= delta], where [balance] is the element [balances[i]]
    that [find] returned: the same object, so the array is updated. *)
Definition subAt (i : nat) (delta : float) (bs : list Balance) : list Balance :=
  updateAt i (fun x => x - delta)%float bs.

(** The amount a wallet holds in [currency]: that of the first entry of the
    currency, zero when there is none. *)
Definition balanceOf (w : Wallet.t) (currency : string) : float :=
  match List.find (hasCurrency currency) (Wallet.balances w) with
  | Some b => b_amount b
  | None => 0
  end.

(** ** The store and the monad of handlers *)

Record Db := mkDb {
  wallets : gmap string Wallet.t;
  transactions : list Transaction.t
}.

Inductive Event :=
| QueriedTransactions                       (* a read of the transactions collection *)
| QueriedWallet (userId : string)           (* [Wallet.findOne] *)
| SavedWallet (userId : string)             (* [wallet.save({ session })] *)
| SavedTransaction                          (* [transaction.save({ session })] *)
| Committed
| Aborted
| AlertEmail (userId : string) (alertType : string)   (* [sendAlertEmail] *)
| LoggedError (e : Exn).                    (* [console.error] *)

(** [durable] is what every reader sees; [staged] holds the writes of the
    open multi-document transaction of the session, if one was started;
    [events] is the history of effects, the most recent first. *)
Record St := mkSt {
  durable : Db;
  staged : option Db;
  events : list Event
}.

Inductive Res (A : Type) :=
| Ok (a : A)
| Throw (e : Exn).
Arguments Ok {A} a.
Arguments Throw {A} e.

Definition M (A : Type) : Type := St -> Res A * St.

Definition ret {A} (a : A) : M A := fun st => (Ok a, st).

Definition bind {A B} (m : M A) (k : A -> M B) : M B :=
  fun st => match m st with
            | (Ok a, st') => k a st'
            | (Throw e, st') => (Throw e, st')
            end.

Definition throw {A} (e : Exn) : M A := fun st => (Throw e, st).

(** [try { m } catch (error) { h error }] *)
Definition try_catch {A} (m : M A) (h : Exn -> M A) : M A :=
  fun st => match m st with
            | (Ok a, st') => (Ok a, st')
            | (Throw e, st') => h e st'
            end.

(** [try { m } finally { f }] *)
Definition finally {A} (m : M A) (f : M unit) : M A :=
  fun st => match m st with
            | (r, st') => match f st' with
                          | (Ok _, st'') => (r, st'')
                          | (Throw e, st'') => (Throw e, st'')
                          end
            end.

Declare Scope js_scope.
Delimit Scope js_scope with js.
Notation "'await' x <- m ;;; k" := (bind m (fun x => k))
  (at level 10, x name, m at level 99, k at level 200,
   format "'[v' 'await'  x  <-  m  ;;; '/' k ']'") : js_scope.
Notation "m ;;; k" := (bind m (fun _ => k))
  (at level 100, k at level 200, format "'[v' m  ;;; '/' k ']'") : js_scope.
Local Open Scope js_scope.

Definition emit (e : Event) : M unit :=
  fun st => (Ok tt, mkSt (durable st) (staged st) (e :: events st)).

(** *** The session *)

(** [session.startTransaction()] *)
Definition startTransaction : M unit :=
  fun st => (Ok tt, mkSt (durable st) (Some (durable st)) (events st)).

(** [session.commitTransaction()] *)
Definition commitTransaction : M unit :=
  fun st => match staged st with
            | Some db => (Ok tt, mkSt db None (Committed :: events st))
            | None => (Throw (MongoError "no transaction started"), st)
            end.

(** [session.abortTransaction()] *)
Definition abortTransaction : M unit :=
  fun st => (Ok tt, mkSt (durable st) None (Aborted :: events st)).

(** [session.endSession()]: an open transaction is discarded. *)
Definition endSession : M unit :=
  fun st => (Ok tt, mkSt (durable st) None (events st)).

(** Writes made with [{ session }] go to the staged copy. *)
Definition write (f : Db -> Db) : M unit :=
  fun st => match staged st with
            | Some db => (Ok tt, mkSt (durable st) (Some (f db)) (events st))
            | None => (Ok tt, mkSt (f (durable st)) None (events st))
            end.

(** *** The environment of one request *)

(** [now] is the clock read by [new Date()] and [Date.now()]. [countError] and
    [findError] say whether the awaited [Transaction.countDocuments] and
    [Transaction.find] reject (the history store cannot be read) and with what. *)
Record Env := mkEnv {
  now : Z;
  countError : option Exn;
  findError : option Exn
}.

(** *** Model methods *)

(** [await Transaction.countDocuments(filter)] *)
Definition Transaction_countDocuments (env : Env) (filter : Transaction.t -> bool) : M nat :=
  emit QueriedTransactions ;;;
  match countError env with
  | Some e => throw e
  | None => fun st => (Ok (length (List.filter filter (transactions (durable st)))), st)
  end.

(** [await Transaction.find(filter)] *)
Definition Transaction_find (env : Env) (filter : Transaction.t -> bool) : M (list Transaction.t) :=
  emit QueriedTransactions ;;;
  match findError env with
  | Some e => throw e
  | None => fun st => (Ok (List.filter filter (transactions (durable st))), st)
  end.

(** [await transaction.save({ session })] of a new document. *)
Definition Transaction_save (env : Env) (d : Transaction.t) : M Transaction.t :=
  match Transaction.validate d with
  | Some path => throw (ValidationError path)
  | None =>
      let d' := Transaction.preSave (now env) d in
      write (fun db => mkDb (wallets db) (transactions db ++ [d'])) ;;;
      emit SavedTransaction ;;;
      ret d'
  end.

(** [await Wallet.findOne({ userId })]: no [isDeleted] condition, no session. *)
Definition Wallet_findOne (userId : string) : M (option Wallet.t) :=
  emit (QueriedWallet userId) ;;;
  fun st => (Ok (wallets (durable st) !! userId), st).

(** [await wallet.save({ session })] of a document loaded from the store. *)
Definition Wallet_save (env : Env) (userId : string) (w : Wallet.t) : M Wallet.t :=
  if Wallet.validate w then
    let w' := Wallet.preSave false (now env) w in
    write (fun db => mkDb (<[ userId := w' ]> (wallets db)) (transactions db)) ;;;
    emit (SavedWallet userId) ;;;
    ret w'
  else throw (ValidationError "balances").

(** Run a computation from a store with no session open. *)
Definition run {A} (m : M A) (db : Db) : Res A * Db * list Event :=
  match m (mkSt db None []) with
  | (r, st) => (r, durable st, events st)
  end.

(** ** [services/emailService.js] *)

(** [sendAlertEmail]: logs the alert; its own [try]/[catch] keeps it from throwing. *)
Definition sendAlertEmail (userId : string) (alertType : string) : M unit :=
  emit (AlertEmail userId alertType).

(** ** [services/fraudDetection.js] *)

Module FRAUD_RULES.
Definition HIGH_FREQUENCY_LIMIT : nat := 5.
Definition LARGE_AMOUNT_THRESHOLD : float := 10000.
Definition SUSPICIOUS_PATTERN_TIME_WINDOW : Z := 3600000.
End FRAUD_RULES.

Record FraudCheck := mkFraudCheck { isFlagged : bool; flagReason : option FlagReason }.

Definition opt_string_eqb (o : option string) (s : string) : bool :=
  match o with Some x => String.eqb x s | None => false end.

(** [{ $or: [{ fromUserId: userId }, { toUserId: userId }],
       createdAt: { $gte: oneHourAgo }, isDeleted: false }] *)
Definition recentTransactionsFilter (userId : string) (oneHourAgo : Z) (tx : Transaction.t) : bool :=
  (opt_string_eqb (Transaction.fromUserId tx) userId || opt_string_eqb (Transaction.toUserId tx) userId)
  && (oneHourAgo <=? Transaction.createdAt tx)%Z
  && negb (Transaction.isDeleted tx).

(** [{ fromUserId: userId, type: 'withdrawal',
       createdAt: { $gte: oneHourAgo }, isDeleted: false }] *)
Definition recentWithdrawalsFilter (userId : string) (oneHourAgo : Z) (tx : Transaction.t) : bool :=
  opt_string_eqb (Transaction.fromUserId tx) userId
  && TxType_eqb (Transaction.type tx) withdrawal
  && (oneHourAgo <=? Transaction.createdAt tx)%Z
  && negb (Transaction.isDeleted tx).

(** [recentWithdrawals.reduce((sum, tx) => sum + tx.amount, 0)] *)
Definition totalAmount (txs : list Transaction.t) : float :=
  fold_left (fun sum tx => (sum + Transaction.amount tx)%float) txs 0%float.

Definition notFlagged : FraudCheck := mkFraudCheck false None.

Definition checkFraudRules (env : Env) (userId : string) (transactionType : TxType) (amount : float)
  : M FraudCheck :=
  let oneHourAgo := (now env - FRAUD_RULES.SUSPICIOUS_PATTERN_TIME_WINDOW)%Z in
  try_catch
    ((* Rule 1: High frequency transactions *)
     await recentTransactions <- Transaction_countDocuments env (recentTransactionsFilter userId oneHourAgo) ;;;
     if Nat.leb FRAUD_RULES.HIGH_FREQUENCY_LIMIT recentTransactions then
       sendAlertEmail userId "High frequency transactions detected" ;;;
       ret (mkFraudCheck true (Some high_frequency))
     (* Rule 2: Large amount transactions *)
     else if (FRAUD_RULES.LARGE_AMOUNT_THRESHOLD <=? amount)%float then
       sendAlertEmail userId "Large transaction detected" ;;;
       ret (mkFraudCheck true (Some large_amount))
     (* Rule 3: Suspicious pattern - multiple large withdrawals *)
     else if TxType_eqb transactionType withdrawal then
       await recentWithdrawals <- Transaction_find env (recentWithdrawalsFilter userId oneHourAgo) ;;;
       let totalWithdrawn := totalAmount recentWithdrawals in
       if Nat.leb 3 (length recentWithdrawals) && (5000 <=? totalWithdrawn)%float then
         sendAlertEmail userId "Suspicious withdrawal pattern detected" ;;;
         ret (mkFraudCheck true (Some suspicious_pattern))
       else ret notFlagged
     else ret notFlagged)
    (fun error =>
       emit (LoggedError error) ;;;
       ret notFlagged).

(** *** The daily job *)

(** A plain object used as a dictionary, as the list of its entries in
    insertion order (the keys are [ObjectId] strings, never array indices, so
    [Object.entries] enumerates them in that order). *)
Definition Obj := list (string * nat).

Fixpoint obj_get (o : Obj) (k : string) : option nat :=
  match o with
  | [] => None
  | (k', v) :: r => if String.eqb k' k then Some v else obj_get r k
  end.

Fixpoint obj_set (o : Obj) (k : string) (v : nat) : Obj :=
  match o with
  | [] => [(k, v)]
  | (k', v') :: r => if String.eqb k' k then (k', v) :: r else (k', v') :: obj_set r k v
  end.

(** [tx.fromUserId?._id || tx.toUserId?._id] on a populated record. Users are
    only ever soft-deleted, so [populate] finds the document of every
    reference and [_id] gives the reference back. *)
Definition countedUser (tx : Transaction.t) : option string :=
  match Transaction.fromUserId tx with
  | Some u => Some u
  | None => Transaction.toUserId tx
  end.

(** The body of [yesterdayTransactions.forEach(tx => ...)]. *)
Definition countOne (userTransactionCount : Obj) (tx : Transaction.t) : Obj :=
  match countedUser tx with
  | Some userId =>
      obj_set userTransactionCount userId
        (match obj_get userTransactionCount userId with Some c => c | None => 0 end + 1)
  | None => userTransactionCount
  end.

Record SuspiciousUser := mkSuspiciousUser {
  su_userId : string;
  su_transactionCount : nat;
  su_reason : string
}.

(** The body of [Object.entries(userTransactionCount).forEach(...)], collected. *)
Definition flagExcessive (entries : Obj) : list SuspiciousUser :=
  flat_map (fun '(userId, count) =>
              if Nat.ltb 20 count
              then [mkSuspiciousUser userId count "excessive_daily_transactions"]
              else [])
           entries.

Inductive JobResult :=
| JobReport (scannedTransactions : nat) (suspiciousUsers : nat) (details : list SuspiciousUser)
| JobError (error : Exn).

(** [{ createdAt: { $gte: yesterday, $lt: today }, isDeleted: false }] *)
Definition yesterdayFilter (yesterday today : Z) (tx : Transaction.t) : bool :=
  (yesterday <=? Transaction.createdAt tx)%Z
  && (Transaction.createdAt tx <? today)%Z
  && negb (Transaction.isDeleted tx).

(** [fraudDetectionJob]; [yesterday] and [today] are the two local midnights
    the function computes from the clock. *)
Definition fraudDetectionJob (env : Env) (yesterday today : Z) : M JobResult :=
  try_catch
    (await yesterdayTransactions <- Transaction_find env (yesterdayFilter yesterday today) ;;;
     let userTransactionCount := fold_left countOne yesterdayTransactions [] in
     let suspiciousUsers := flagExcessive userTransactionCount in
     ret (JobReport (length yesterdayTransactions) (length suspiciousUsers) suspiciousUsers))
    (fun error =>
       emit (LoggedError error) ;;;
       ret (JobError error)).

(** ** [middleware/validation.js] *)

Module Body.
(** The JSON body of a wallet request. *)
Record t := mk {
  amount : float;
  currency : option string;
  description : option string;
  toUserId : option string
}.
End Body.

Definition MAX_SAFE_INTEGER : float := 9007199254740991.

Definition validCurrencies : list string := ["USD"; "EUR"; "BTC"; "ETH"].

(** [Joi.number().positive().precision(2).required()] on a number:
    [Infinity] and [NaN] are refused; in the default converting mode the
    number is rounded to two decimals, [Math.round(value * 100) / 100], and the
    sign is tested on the rounded value; numbers beyond the safe integers are
    refused. The rounded value is Joi's own: the handlers read [req.body],
    which is left as sent. *)
Definition joi_amount (a : float) : bool :=
  negb (is_infinity a) && negb (is_nan a)
  && negb ((MAX_SAFE_INTEGER <? a)%float || (a <? - MAX_SAFE_INTEGER)%float)
  && (0 <? Math_round (a * 100) / 100)%float.

(** [Joi.string().valid('USD', 'EUR', 'BTC', 'ETH').default('USD')] *)
Definition joi_currency (c : option string) : bool :=
  match c with
  | Some s => existsb (String.eqb s) validCurrencies
  | None => true
  end.

(** [Joi.string().max(500).optional()]; a Joi string is not empty. *)
Definition joi_description (d : option string) : bool :=
  match d with
  | Some s => negb (String.eqb s "") && Nat.leb (String.length s) 500
  | None => true
  end.

(** [Joi.string().when('type', ...)]: the body has no [type] key, so the
    [otherwise] branch applies and the key is optional. *)
Definition joi_toUserId (u : option string) : bool :=
  match u with
  | Some s => negb (String.eqb s "")
  | None => true
  end.

(** [validateTransaction]: [None] when [next()] is called, otherwise the key
    whose message is sent with status 400. *)
Definition validateTransaction (body : Body.t) : option string :=
  if negb (joi_amount (Body.amount body)) then Some "amount"
  else if negb (joi_currency (Body.currency body)) then Some "currency"
  else if negb (joi_description (Body.description body)) then Some "description"
  else if negb (joi_toUserId (Body.toUserId body)) then Some "toUserId"
  else None.

(** ** [routes/wallet.js] *)

(** The [transaction] object of a success response. *)
Record TxView := mkTxView {
  v_amount : float;
  v_currency : string;
  v_toUserId : option string;
  v_status : TxStatus;
  v_isFlagged : bool
}.

Inductive ErrorBody :=
| Message (text : string)        (* a literal of the handler *)
| ExnMessage (error : Exn)       (* [error.message] *)
| JoiMessage (key : string).     (* [error.details[0].message] *)

Inductive Response :=
| Json (message : string) (transaction : TxView) (newBalance : float)   (* [res.json], status 200 *)
| Status (code : nat) (error : ErrorBody).                          (* [res.status(code).json({ error })] *)

(** [currency = 'USD'] in the destructuring of [req.body]. *)
Definition currencyOf (body : Body.t) : string :=
  match Body.currency body with Some c => c | None => "USD" end.

(** [new Transaction({ ... })] with the schema defaults; [fromUserId] and
    [toUserId] are given as the document holds them, cast to [ObjectId]. *)
Definition new_Transaction (env : Env) (fromUserId toUserId : option string) (type : TxType)
    (amount : float) (currency : string) (description : option string) (fraudCheck : FraudCheck)
  : Transaction.t :=
  Transaction.mk fromUserId toUserId type amount currency description
    pending (isFlagged fraudCheck) (flagReason fraudCheck) false None (now env) (now env).

(** [balances.push({ currency, amount })] or [balances[balanceIndex].amount += amount]. *)
Definition credit (currency : string) (amount : float) (bs : list Balance) : list Balance :=
  match findIndex (hasCurrency currency) bs with
  | Some balanceIndex => addAt balanceIndex amount bs
  | None => bs ++ [mkBalance currency amount]
  end.

(** [session.startTransaction(); try { body } catch (error) { abort; 500 } finally { endSession }] *)
Definition inSession (body : M Response) : M Response :=
  startTransaction ;;;
  finally
    (try_catch body
       (fun error =>
          abortTransaction ;;;
          ret (Status 500 (ExnMessage error))))
    endSession.

(** Reading a property of [null]. *)
Definition nonNull {A} (what : string) (o : option A) : M A :=
  match o with
  | Some a => ret a
  | None => throw (TypeError what)
  end.

(** The handler of [POST /deposit], for the authenticated user [user]. *)
Definition depositHandler (env : Env) (user : string) (body : Body.t) : M Response :=
  inSession
    (let amount := Body.amount body in
     let currency := currencyOf body in
     let description := Body.description body in
     await fraudCheck <- checkFraudRules env user deposit amount ;;;
     let transaction :=
       new_Transaction env None (Some user) deposit amount currency description fraudCheck in
     await wallet <- Wallet_findOne user ;;;
     await wallet <- nonNull "wallet.balances" wallet ;;;
     let wallet := Wallet.with_balances (credit currency amount (Wallet.balances wallet)) wallet in
     await wallet <- Wallet_save env user wallet ;;;
     let transaction := Transaction.set_status completed transaction in
     await transaction <- Transaction_save env transaction ;;;
     commitTransaction ;;;
     await newBalance <- nonNull "find(...).amount"
                           (List.find (hasCurrency currency) (Wallet.balances wallet)) ;;;
     ret (Json "Deposit successful"
            (mkTxView amount currency None (Transaction.status transaction)
                      (Transaction.isFlagged transaction))
            (b_amount newBalance))).

(** The handler of [POST /withdraw]. [balance] is a reference into
    [wallet.balances], so [balance.amount -= amount] updates the array. *)
Definition withdrawHandler (env : Env) (user : string) (body : Body.t) : M Response :=
  inSession
    (let amount := Body.amount body in
     let currency := currencyOf body in
     let description := Body.description body in
     await fraudCheck <- checkFraudRules env user withdrawal amount ;;;
     await wallet <- Wallet_findOne user ;;;
     await wallet <- nonNull "wallet.balances" wallet ;;;
     match find_ref (hasCurrency currency) (Wallet.balances wallet) with
     | None => ret (Status 400 (Message "Insufficient funds"))
     | Some (balanceIndex, balance) =>
         if (b_amount balance <? amount)%float then
           ret (Status 400 (Message "Insufficient funds"))
         else
           let transaction :=
             new_Transaction env (Some user) None withdrawal amount currency description fraudCheck in
           let wallet :=
             Wallet.with_balances (subAt balanceIndex amount (Wallet.balances wallet)) wallet in
           await wallet <- Wallet_save env user wallet ;;;
           let transaction := Transaction.set_status completed transaction in
           await transaction <- Transaction_save env transaction ;;;
           commitTransaction ;;;
           ret (Json "Withdrawal successful"
                  (mkTxView amount currency None (Transaction.status transaction)
                            (Transaction.isFlagged transaction))
                  (b_amount balance - amount)%float)
     end).

(** [Wallet.findOne({ userId: toUserId })] for a value of the body. Mongoose
    casts the condition to the type of the path before the query is sent: a
    string is read by [castObjectId], and one that is no [ObjectId] rejects the
    query with a [CastError]. A missing [toUserId] makes a condition that no
    document satisfies ([userId] is required). The document found comes with
    its [userId], the key it is saved under. *)
Definition Wallet_findOne_opt (userId : option string) : M (option (string * Wallet.t)) :=
  match userId with
  | Some s =>
      match castObjectId s with
      | Some id =>
          await wallet <- Wallet_findOne id ;;;
          ret (option_map (pair id) wallet)
      | None => throw (CastError "userId")
      end
  | None => ret None
  end.

(** The handler of [POST /transfer]. The two wallets are loaded by two
    queries, so they are two documents even when they are the same wallet; the
    record holds [toUserId] cast to the [ObjectId] the query found. *)
Definition transferHandler (env : Env) (user : string) (body : Body.t) : M Response :=
  inSession
    (let amount := Body.amount body in
     let toUserId := Body.toUserId body in
     let currency := currencyOf body in
     let description := Body.description body in
     if opt_string_eqb toUserId user then
       ret (Status 400 (Message "Cannot transfer to yourself"))
     else
       await fraudCheck <- checkFraudRules env user transfer amount ;;;
       await senderWallet <- Wallet_findOne user ;;;
       await receiverWallet <- Wallet_findOne_opt toUserId ;;;
       match receiverWallet with
       | Some (receiver, receiverWallet) =>
           await senderWallet <- nonNull "senderWallet.balances" senderWallet ;;;
           match find_ref (hasCurrency currency) (Wallet.balances senderWallet) with
           | None => ret (Status 400 (Message "Insufficient funds"))
           | Some (senderIndex, senderBalance) =>
               if (b_amount senderBalance <? amount)%float then
                 ret (Status 400 (Message "Insufficient funds"))
               else
                 let transaction :=
                   new_Transaction env (Some user) (Some receiver) transfer amount currency
                                   description fraudCheck in
                 let senderWallet :=
                   Wallet.with_balances
                     (subAt senderIndex amount (Wallet.balances senderWallet)) senderWallet in
                 let receiverWallet :=
                   Wallet.with_balances
                     (credit currency amount (Wallet.balances receiverWallet)) receiverWallet in
                 await senderWallet <- Wallet_save env user senderWallet ;;;
                 await receiverWallet <- Wallet_save env receiver receiverWallet ;;;
                 let transaction := Transaction.set_status completed transaction in
                 await transaction <- Transaction_save env transaction ;;;
                 commitTransaction ;;;
                 ret (Json "Transfer successful"
                        (mkTxView amount currency toUserId (Transaction.status transaction)
                                  (Transaction.isFlagged transaction))
                        (b_amount senderBalance - amount)%float)
           end
       | None => ret (Status 404 (Message "Recipient wallet not found"))
       end).

(** The routes: [router.post(path, authenticateToken, validateTransaction, handler)],
    for a request that [authenticateToken] let through as [user]. *)
Definition route (handler : Env -> string -> Body.t -> M Response)
    (env : Env) (user : string) (body : Body.t) : M Response :=
  match validateTransaction body with
  | Some key => ret (Status 400 (JoiMessage key))
  | None => handler env user body
  end.

Definition POST_deposit := route depositHandler.
Definition POST_withdraw := route withdrawHandler.
Definition POST_transfer := route transferHandler.

(** ** Sequences of requests *)

Inductive Op := Deposit | Withdraw | Transfer.

Record Request := mkRequest {
  r_env : Env;
  r_op : Op;
  r_user : string;
  r_body : Body.t
}.

Definition serve (r : Request) : M Response :=
  match r_op r with
  | Deposit => POST_deposit (r_env r) (r_user r) (r_body r)
  | Withdraw => POST_withdraw (r_env r) (r_user r) (r_body r)
  | Transfer => POST_transfer (r_env r) (r_user r) (r_body r)
  end.

(** The store left by one request. *)
Definition after (db : Db) (r : Request) : Db := snd (fst (run (serve r) db)).

(** The stores observed after each request of a sequence, in order. *)
Fixpoint replay (db : Db) (rs : list Request) : list Db :=
  match rs with
  | [] => []
  | r :: rest => after db r :: replay (after db r) rest
  end.

(** ** Notions used by the statements *)

(** What rule 1 counts for [userId] at time [now]. *)
Definition recentCount (db : Db) (userId : string) (now : Z) : nat :=
  length (List.filter
            (recentTransactionsFilter userId (now - FRAUD_RULES.SUSPICIOUS_PATTERN_TIME_WINDOW)%Z)
            (transactions db)).

(** What rule 3 reads for [userId] at time [now]. *)
Definition recentWithdrawals (db : Db) (userId : string) (now : Z) : list Transaction.t :=
  List.filter
    (recentWithdrawalsFilter userId (now - FRAUD_RULES.SUSPICIOUS_PATTERN_TIME_WINDOW)%Z)
    (transactions db).

Definition flagged (reason : FlagReason) : FraudCheck := mkFraudCheck true (Some reason).

(** The decision table of the specification (4.3): rules in strict order, the
    first match wins; the total of rule 3 is the sum the code computes. *)
Definition evaluate (count : nat) (withdrawals : list Transaction.t) (kind : TxType) (amount : float)
  : FraudCheck :=
  if Nat.leb 5 count then flagged high_frequency
  else if (10000 <=? amount)%float then flagged large_amount
  else if TxType_eqb kind withdrawal
          && Nat.leb 3 (length withdrawals) && (5000 <=? totalAmount withdrawals)%float
       then flagged suspicious_pattern
  else notFlagged.

(** The evaluation fails: a query it issues is rejected. The count query is
    always issued; the query of rule 3 is issued for a withdrawal that rules 1
    and 2 did not flag. *)
Definition evaluationFails (env : Env) (db : Db) (userId : string) (kind : TxType) (amount : float)
  : Prop :=
  (exists e, countError env = Some e)
  \/ (countError env = None /\ (exists e, findError env = Some e)
      /\ kind = withdrawal
      /\ (recentCount db userId (now env) < 5)%nat /\ (10000 <=? amount)%float = false).

(** The evaluation flags the request: it returns a flag with a reason. *)
Definition flagsRequest (env : Env) (db : Db) (userId : string) (kind : TxType) (amount : float)
  : Prop :=
  exists reason evs,
    run (checkFraudRules env userId kind amount) db = (Ok (flagged reason), db, evs).

(** No entry of any wallet is negative. *)
Definition NonNegative (db : Db) : Prop :=
  forall (u : string) (w : Wallet.t),
    wallets db !! u = Some w ->
    Forall (fun b => (0 <=? b_amount b)%float = true) (Wallet.balances w).

(** The user of a record: source or destination. *)
Definition participant (userId : string) (tx : Transaction.t) : Prop :=
  Transaction.fromUserId tx = Some userId \/ Transaction.toUserId tx = Some userId.

(** ** Outcomes of the handlers, validity of wallets, counts of the job *)

Definition isJson (r : Response) : Prop :=
  match r with Json _ _ _ => True | Status _ _ => False end.

Definition validBalance (b : Balance) : Prop :=
  b_currency b <> "" /\ (0 <=? b_amount b)%float = true.

(** The records of the scan window. *)
Definition scanned (db : Db) (yesterday today : Z) : list Transaction.t :=
  List.filter (yesterdayFilter yesterday today) (transactions db).

(** Records the job counts for [userId]: those whose [countedUser] it is. *)
Definition countedFor (userId : string) (txs : list Transaction.t) : nat :=
  length (List.filter (fun tx => opt_string_eqb (countedUser tx) userId) txs).

(** Records in which [userId] takes part, as source or as destination. *)
Definition recordsOf (userId : string) (txs : list Transaction.t) : nat :=
  length (List.filter
            (fun tx => opt_string_eqb (Transaction.fromUserId tx) userId
                       || opt_string_eqb (Transaction.toUserId tx) userId) txs).

Definition readCount (o : Obj) (k : string) : nat :=
  match obj_get o k with Some c => c | None => 0 end.

(** ** [GET /api/wallet/balance] *)




(** ** [routes/transactions.js] and the flagged list of [routes/admin.js] *)

(** The [page], [limit] and [type] query parameters. [parseInt] gives an
    integer, of either sign, or [NaN] ([None]). The integers are taken exact;
    the statements about pages keep them within the safe integers. *)
Record PageQuery := mkPageQuery {
  q_page : option Z;
  q_limit : option Z;
  q_type : option string
}.

(** [parseInt(x) || d]: [NaN] and [0] are falsy, a negative integer is not. *)
Definition parseIntOr (d : Z) (x : option Z) : Z :=
  match x with
  | Some n => if (n =? 0)%Z then d else n
  | None => d
  end.

Definition TxType_name (t : TxType) : string :=
  match t with
  | deposit => "deposit"
  | withdrawal => "withdrawal"
  | transfer => "transfer"
  end.

(** [.sort({ createdAt: -1 })]: newest first, by insertion. *)
Fixpoint insertNewest (tx : Transaction.t) (l : list Transaction.t) : list Transaction.t :=
  match l with
  | [] => [tx]
  | y :: r => if (Transaction.createdAt y <=? Transaction.createdAt tx)%Z
              then tx :: y :: r
              else y :: insertNewest tx r
  end.

Definition sortNewestFirst (l : list Transaction.t) : list Transaction.t :=
  fold_right insertNewest [] l.

(** [Math.ceil(total / limit)] for an integer [limit] other than zero. *)
Definition ceilDiv (total : nat) (limit : Z) : Z := (- ((- Z.of_nat total) / limit))%Z.

Record Pagination := mkPagination {
  p_page : Z;
  p_limit : Z;
  p_total : nat;
  p_pages : Z
}.

Inductive ListResponse :=
| ListJson (transactions : list Transaction.t) (pagination : Pagination)
| ListStatus (code : nat) (error : ErrorBody).

(** How many documents [.limit(limit)] lets through: a negative limit asks
    for one batch of at most [-limit] documents, and a batch whose size was
    not set holds at most 101. *)
Definition limitCount (limit : Z) : nat :=
  if (limit <? 0)%Z then Nat.min (Z.to_nat (- limit)) 101 else Z.to_nat limit.

(** [find(query).sort({ createdAt: -1 }).limit(limit * 1).skip((page - 1) * limit)]
    followed by [countDocuments(query)]. The store refuses a negative [skip].
    The statements keep [skip] and [limit] within the 32-bit integers, where
    driver and store take them as they are. *)
Definition listPage (env : Env) (query : Transaction.t -> bool) (page limit : Z)
  : M ListResponse :=
  try_catch
    (let skip := ((page - 1) * limit)%Z in
     await found <- (if (skip <? 0)%Z
                     then emit QueriedTransactions ;;; throw (MongoError "skip")
                     else Transaction_find env query) ;;;
     let transactions :=
       firstn (limitCount limit) (skipn (Z.to_nat skip) (sortNewestFirst found)) in
     await total <- Transaction_countDocuments env query ;;;
     ret (ListJson transactions (mkPagination page limit total (ceilDiv total limit))))
    (fun error => ret (ListStatus 500 (ExnMessage error))).

(** [{ $or: [{ fromUserId }, { toUserId }], isDeleted: false }], with
    [query.type = type] when [type] is truthy. *)
Definition historyQuery (user : string) (type : option string) (tx : Transaction.t) : bool :=
  (opt_string_eqb (Transaction.fromUserId tx) user
   || opt_string_eqb (Transaction.toUserId tx) user)
  && negb (Transaction.isDeleted tx)
  && match type with
     | Some t => if String.eqb t "" then true
                 else String.eqb (TxType_name (Transaction.type tx)) t
     | None => true
     end.

(** The handler of [GET /api/transactions/history]. *)
Definition historyHandler (env : Env) (user : string) (q : PageQuery) : M ListResponse :=
  listPage env (historyQuery user (q_type q)) (parseIntOr 1 (q_page q)) (parseIntOr 10 (q_limit q)).

(** [{ isFlagged: true, isDeleted: false }] *)
Definition flaggedQuery (tx : Transaction.t) : bool :=
  Transaction.isFlagged tx && negb (Transaction.isDeleted tx).

(** The handler of [GET /api/admin/flagged-transactions], for a request the
    admin middleware let through. *)
Definition flaggedHandler (env : Env) (q : PageQuery) : M ListResponse :=
  listPage env flaggedQuery (parseIntOr 1 (q_page q)) (parseIntOr 10 (q_limit q)).

(** ** Further notions used by the statements *)

(** The balance of [userId] in [currency], zero without a wallet or an entry. *)
Definition balanceIn (db : Db) (userId : string) (currency : string) : float :=
  match wallets db !! userId with
  | Some w => balanceOf w currency
  | None => 0%float
  end.

Definition kindOf (op : Op) : TxType :=
  match op with
  | Deposit => deposit
  | Withdraw => withdrawal
  | Transfer => transfer
  end.

Definition handlerOf (op : Op) : Env -> string -> Body.t -> M Response :=
  match op with
  | Deposit => depositHandler
  | Withdraw => withdrawHandler
  | Transfer => transferHandler
  end.

(** The [ObjectId] a body names as recipient, if it names one. *)
Definition recipientOf (body : Body.t) : option string :=
  match Body.toUserId body with
  | Some s => castObjectId s
  | None => None
  end.

(** The record a request writes when it commits, given the fraud verdict. *)
Definition recordOf (r : Request) (fc : FraudCheck) : Transaction.t :=
  Transaction.preSave (now (r_env r))
    (Transaction.set_status completed
       (new_Transaction (r_env r)
          (match r_op r with Deposit => None | _ => Some (r_user r) end)
          (match r_op r with
           | Deposit => Some (r_user r)
           | Withdraw => None
           | Transfer => recipientOf (r_body r)
           end)
          (kindOf (r_op r)) (Body.amount (r_body r)) (currencyOf (r_body r))
          (Body.description (r_body r)) fc)).

(** The shape the schema and the handlers give to a record of the log. *)
Definition wellFormedRecord (tx : Transaction.t) : Prop :=
  Transaction.status tx = completed /\
  (0.01 <=? Transaction.amount tx)%float = true /\
  In (Transaction.currency tx) validCurrencies /\
  Transaction.flagReason tx <> None /\
  match Transaction.type tx with
  | deposit => Transaction.fromUserId tx = None /\ Transaction.toUserId tx <> None
  | withdrawal => Transaction.fromUserId tx <> None /\ Transaction.toUserId tx = None
  | transfer => Transaction.fromUserId tx <> None /\ Transaction.toUserId tx <> None
  end.

(** What a handler that commits with verdict [fc] does to the store, and
    what it answers: the wallets involved are saved with the new balances, the
    record of the request is appended, the answer is the success response. In
    a transfer the recipient's wallet is saved after the sender's. *)
Definition applies (r : Request) (fc : FraudCheck) (db db' : Db) (resp : Response) : Prop :=
  let user := r_user r in
  let amount := Body.amount (r_body r) in
  let currency := currencyOf (r_body r) in
  let t := now (r_env r) in
  (0.01 <=? amount)%float = true /\
  flagReason fc <> None /\
  transactions db' = transactions db ++ [recordOf r fc] /\
  match r_op r with
  | Deposit =>
      exists w,
        let w' := Wallet.with_balances (credit currency amount (Wallet.balances w)) w in
        wallets db !! user = Some w /\ Wallet.validate w' = true /\
        wallets db' = <[ user := Wallet.preSave false t w' ]> (wallets db) /\
        resp = Json "Deposit successful"
                 (mkTxView amount currency None completed (isFlagged fc))
                 (balanceOf w' currency)
  | Withdraw =>
      exists w i b,
        let w' := Wallet.with_balances (subAt i amount (Wallet.balances w)) w in
        wallets db !! user = Some w /\ Wallet.validate w' = true /\
        find_ref (hasCurrency currency) (Wallet.balances w) = Some (i, b) /\
        (b_amount b <? amount)%float = false /\
        wallets db' = <[ user := Wallet.preSave false t w' ]> (wallets db) /\
        resp = Json "Withdrawal successful"
                 (mkTxView amount currency None completed (isFlagged fc))
                 (b_amount b - amount)%float
  | Transfer =>
      exists s receiver sw rw i b,
        let sw' := Wallet.with_balances (subAt i amount (Wallet.balances sw)) sw in
        let rw' := Wallet.with_balances (credit currency amount (Wallet.balances rw)) rw in
        Body.toUserId (r_body r) = Some s /\ s <> user /\ castObjectId s = Some receiver /\
        wallets db !! user = Some sw /\ wallets db !! receiver = Some rw /\
        Wallet.validate sw' = true /\ Wallet.validate rw' = true /\
        find_ref (hasCurrency currency) (Wallet.balances sw) = Some (i, b) /\
        (b_amount b <? amount)%float = false /\
        wallets db' = <[ receiver := Wallet.preSave false t rw' ]>
                        (<[ user := Wallet.preSave false t sw' ]> (wallets db)) /\
        resp = Json "Transfer successful"
                 (mkTxView amount currency (Some s) completed (isFlagged fc))
                 (b_amount b - amount)%float
  end.

(** The same for a request that came through its route. *)
Definition commits (r : Request) (fc : FraudCheck) (db db' : Db) (resp : Response) : Prop :=
  validateTransaction (r_body r) = None /\ applies r fc db db' resp.

(** No wallet holds two entries of one currency. *)
Definition CurrenciesDistinct (db : Db) : Prop :=
  forall (u : string) (w : Wallet.t),
    wallets db !! u = Some w -> List.NoDup (map b_currency (Wallet.balances w)).

(** Every wallet passes the schema validators. *)
Definition WalletsValid (db : Db) : Prop :=
  forall (u : string) (w : Wallet.t), wallets db !! u = Some w -> Wallet.validate w = true.

(** Newest first: every record is at least as recent as those after it. *)
Definition newestFirst (l : list Transaction.t) : Prop :=
  StronglySorted (fun x y => (Transaction.createdAt y <= Transaction.createdAt x)%Z) l.

(** The pages [1 .. n] of a query, one after the other. *)
Definition pagesUpTo (n limit : nat) (sorted : list Transaction.t) : list Transaction.t :=
  concat (map (fun page => firstn limit (skipn ((page - 1) * limit) sorted)) (seq 1 n)).

Definition isAlert (e : Event) : bool :=
  match e with AlertEmail _ _ => true | _ => false end.

(** The records listed by an answer. *)
Definition listed (x : Res ListResponse * Db * list Event) : list Transaction.t :=
  match x with
  | (Ok (ListJson txs _), _, _) => txs
  | _ => []
  end.

(** The total an answer reports. *)
Definition listedTotal (x : Res ListResponse * Db * list Event) : nat :=
  match x with
  | (Ok (ListJson _ pg), _, _) => p_total pg
  | _ => 0
  end.

(** ** Sample data *)

(** Four users, by their [ObjectId]s, and alice's written in upper case. *)
Abbreviation alice := "64f0a1b2c3d4e5f6a7b8c901".
Abbreviation bob := "64f0a1b2c3d4e5f6a7b8c902".
Abbreviation carol := "64f0a1b2c3d4e5f6a7b8c903".
Abbreviation dave := "64f0a1b2c3d4e5f6a7b8c904".
Abbreviation aliceUpper := "64F0A1B2C3D4E5F6A7B8C901".

(** An environment whose history store answers. *)
Definition quiet (t : Z) : Env := mkEnv t None None.

(** An environment whose history store rejects every query. *)
Definition unreachable (t : Z) : Env :=
  mkEnv t (Some (MongoError "unreachable")) (Some (MongoError "unreachable")).

Definition noon : Z := 1700000000000%Z.

(** A completed, unflagged USD record, as the store may hold from elsewhere. *)
Definition record (from to : option string) (kind : TxType) (amount : float) (created : Z)
  : Transaction.t :=
  Transaction.mk from to kind amount "USD" None completed false None false None created created.

Definition usdWallet (a : float) : Wallet.t :=
  Wallet.mk [mkBalance "USD" a] true false None 0%Z 0%Z.

(** A wallet soft-deleted by the admin route. *)
Definition closedWallet (a : float) : Wallet.t :=
  Wallet.mk [mkBalance "USD" a] true true (Some 1%Z) 0%Z 1%Z.

(** alice withdrew 2000, 2000 and 1000 within the last hour. *)
Definition threeWithdrawals : Db :=
  mkDb {[ alice := usdWallet 20000 ]}
       [ record (Some alice) None withdrawal 2000 (noon - 3000)%Z;
         record (Some alice) None withdrawal 2000 (noon - 2000)%Z;
         record (Some alice) None withdrawal 1000 (noon - 1000)%Z ].

(** The same, after two deposits in the same hour. *)
Definition threeWithdrawalsTwoDeposits : Db :=
  mkDb {[ alice := usdWallet 20000 ]}
       (transactions threeWithdrawals
        ++ [ record None (Some alice) deposit 10 (noon - 900)%Z;
             record None (Some alice) deposit 10 (noon - 800)%Z ]).

(** alice withdrew 4728.49, 145.44 and 126.07 within the last hour: 5,000 in
    decimal. *)
Definition decimalWithdrawals : Db :=
  mkDb {[ alice := usdWallet 20000 ]}
       [ record (Some alice) None withdrawal 4728.49 (noon - 3000)%Z;
         record (Some alice) None withdrawal 145.44 (noon - 2000)%Z;
         record (Some alice) None withdrawal 126.07 (noon - 1000)%Z ].

(** alice holds 100 USD, bob 5 USD, carol has no wallet, dave's wallet is
    soft-deleted; no history. *)
Definition smallBank : Db :=
  mkDb (<[ dave := closedWallet 7 ]>
          (<[ bob := usdWallet 5 ]> {[ alice := usdWallet 100 ]})) [].

Definition usd (a : float) : Body.t := Body.mk a (Some "USD") None None.
Definition usdTo (a : float) (to : string) : Body.t := Body.mk a (Some "USD") None (Some to).

(** [n] transfers from [from] to [to] at time [t]. *)
Definition transfers (n : nat) (from to : string) (t : Z) : list Transaction.t :=
  repeat (record (Some from) (Some to) transfer 1 t) n.

(** [n] deposits of [to] at time [t]. *)
Definition deposits (n : nat) (to : string) (t : Z) : list Transaction.t :=
  repeat (record None (Some to) deposit 1 t) n.

(** The same wallets after five deposits of alice within the last hour: rule 1
    flags whatever alice asks for next. *)
Definition busyBank : Db :=
  mkDb (wallets smallBank) (deposits 5 alice (noon - 1000)).

(** alice holds 0.3 USD and bob 0.7 USD, after the same five deposits. *)
Definition centsBank : Db :=
  mkDb (<[ bob := usdWallet 0.7 ]> {[ alice := usdWallet 0.3 ]}) (deposits 5 alice (noon - 1000)).

(** alice sends bob a tenth of a dollar. *)
Definition aTenthToBob : Request := mkRequest (quiet noon) Transfer alice (usdTo 0.1 bob).

(** Seven records of alice, two of them flagged, one of those deleted. *)
Definition mixedLog : Db :=
  mkDb {[ alice := usdWallet 100 ]}
       [ record None (Some alice) deposit 10 100;
         Transaction.mk None (Some alice) deposit 20000 "USD" None completed true
                        (Some large_amount) false None 300%Z 300%Z;
         record (Some alice) None withdrawal 5 200;
         record (Some bob) (Some alice) transfer 1 400;
         record None (Some bob) deposit 7 500;
         Transaction.mk None (Some alice) deposit 30000 "USD" None completed true
                        (Some large_amount) true (Some 600%Z) 350%Z 600%Z;
         record (Some alice) (Some bob) transfer 2 50 ].

(** * Properties *)

(** ** Arithmetic of doubles *)

Lemma SFleb_zero x : SFleb (S754_zero false) x = true <-> sfNonneg x.
Proof. destruct x as [s|[|]| |[|] m e]; simpl; unfold SFleb; simpl; intuition discriminate. Qed.

Lemma SFltb_zero x : SFltb (S754_zero false) x = true <-> sfPositive x.
Proof. destruct x as [s|[|]| |[|] m e]; simpl; unfold SFltb; simpl; intuition discriminate. Qed.

Lemma leb_zero x : (0 <=? x)%float = true <-> sfNonneg (Prim2SF x).
Proof. rewrite FloatAxioms.leb_spec. change (Prim2SF 0) with (S754_zero false). apply SFleb_zero. Qed.

Lemma ltb_zero x : (0 <? x)%float = true <-> sfPositive (Prim2SF x).
Proof. rewrite FloatAxioms.ltb_spec. change (Prim2SF 0) with (S754_zero false). apply SFltb_zero. Qed.

(** shifting keeps a mantissa non-negative *)
Lemma shr_1_nonneg mrs : (0 <= shr_m mrs)%Z -> (0 <= shr_m (shr_1 mrs))%Z.
Proof.
  destruct mrs as [m r s]. simpl. intros H.
  destruct m as [|p|p]; simpl; [lia| |lia].
  destruct p; simpl; lia.
Qed.

Lemma iter_shr_1_nonneg p mrs :
  (0 <= shr_m mrs)%Z -> (0 <= shr_m (SpecFloat.iter_pos shr_1 p mrs))%Z.
Proof.
  revert mrs. induction p as [p IH|p IH|]; intros mrs H; simpl.
  - apply IH, IH, shr_1_nonneg, H.
  - apply IH, IH, H.
  - apply shr_1_nonneg, H.
Qed.

Lemma shr_fexp_nonneg m e l :
  (0 <= m)%Z -> (0 <= shr_m (fst (shr_fexp prec emax m e l)))%Z.
Proof.
  intros H. unfold shr_fexp, shr.
  assert (H0 : (0 <= shr_m (shr_record_of_loc m l))%Z).
  { destruct l as [|[| |]]; exact H. }
  destruct (fexp prec emax (Zdigits2 m + e) - e)%Z; simpl; auto.
  apply iter_shr_1_nonneg, H0.
Qed.

Lemma round_nearest_even_nonneg m l : (0 <= m)%Z -> (0 <= round_nearest_even m l)%Z.
Proof.
  intros H. unfold round_nearest_even.
  destruct l as [|[| |]]; try lia. destruct (Z.even m); lia.
Qed.


Lemma binary_round_aux_signed s m e l :
  (0 <= m)%Z -> sfSigned s (binary_round_aux prec emax s m e l).
Proof.
  intros H. unfold binary_round_aux.
  pose proof (shr_fexp_nonneg m e l H) as H1.
  destruct (shr_fexp prec emax m e l) as [mrs' e'] eqn:E1. simpl in H1.
  pose proof (shr_fexp_nonneg _ e' loc_Exact
                (round_nearest_even_nonneg _ (loc_of_shr_record mrs') H1)) as H2.
  destruct (shr_fexp prec emax (round_nearest_even (shr_m mrs') (loc_of_shr_record mrs')) e' loc_Exact)
    as [mrs'' e''] eqn:E2. simpl in H2.
  destruct (shr_m mrs'') as [|p|p]; [constructor | | lia].
  destruct (e'' <=? emax - prec)%Z; constructor.
Qed.

Lemma binary_round_signed s m e : sfSigned s (binary_round prec emax s m e).
Proof.
  unfold binary_round. destruct (shl_align _ _ _) as [mz ez].
  apply binary_round_aux_signed. lia.
Qed.

Lemma binary_normalize_nonneg m e : (0 <= m)%Z -> sfNonneg (binary_normalize prec emax m e false).
Proof.
  intros H. destruct m as [|p|p]; simpl; [exact I | | lia].
  destruct (binary_round_signed false p e); exact I.
Qed.

Lemma signed_false_nonneg x : sfSigned false x -> sfNonneg x.
Proof. intros []; exact I. Qed.

Lemma signed_true_not_positive x : sfSigned true x -> ~ sfPositive x.
Proof. intros [] H; exact H. Qed.

(** addition *)
Lemma SFadd_nonneg x y : sfNonneg x -> sfNonneg y -> sfNonneg (SFadd prec emax x y).
Proof.
  destruct x as [sx|[|]| |[|] mx ex], y as [sy|[|]| |[|] my ey]; simpl; try tauto.
  - destruct sx, sy; simpl; tauto.
  - intros _ _. apply signed_false_nonneg, binary_round_signed.
Qed.

Lemma add_nonneg x y :
  (0 <=? x)%float = true -> (0 <=? y)%float = true -> (0 <=? x + y)%float = true.
Proof.
  rewrite !leb_zero, FloatAxioms.add_spec. apply SFadd_nonneg.
Qed.

(** comparison *)
Lemma SFcompare_antisym x y c :
  SFcompare x y = Some c -> SFcompare y x = Some (CompOpp c).
Proof.
  destruct x as [sx|[|]| |[|] mx ex], y as [sy|[|]| |[|] my ey]; simpl;
    try discriminate; try (intros [= <-]; reflexivity).
  - intros [= <-]. f_equal. rewrite (Z.compare_antisym ex ey).
    destruct (ex ?= ey)%Z; simpl; try reflexivity.
    rewrite CompOpp_involutive. apply (Pos.compare_cont_antisym my mx Eq).
  - intros [= <-]. f_equal. rewrite (Z.compare_antisym ex ey).
    destruct (ex ?= ey)%Z; simpl; try reflexivity.
    symmetry. apply (Pos.compare_cont_antisym mx my Eq).
Qed.

Lemma SFcompare_defined x y :
  x <> S754_nan -> y <> S754_nan -> exists c, SFcompare x y = Some c.
Proof.
  destruct x as [sx|[|]| |[|] mx ex], y as [sy|[|]| |[|] my ey]; simpl;
    intros Hx Hy; try congruence; eauto.
Qed.

Lemma SFsub_nan_l y : SFsub prec emax S754_nan y = S754_nan.
Proof. reflexivity. Qed.

Lemma SFsub_nan_r x : SFsub prec emax x S754_nan = S754_nan.
Proof. destruct x as [sx|[|]| |[|] mx ex]; reflexivity. Qed.

(** [b - a >= 0] and not [b < a] give [a <= b]. *)
Lemma sub_nonneg_leb a b :
  (0 <=? b - a)%float = true -> (b <? a)%float = false -> (a <=? b)%float = true.
Proof.
  rewrite leb_zero, FloatAxioms.sub_spec, FloatAxioms.ltb_spec, FloatAxioms.leb_spec.
  intros Hsub Hlt.
  assert (Hb : Prim2SF b <> S754_nan).
  { intros E. rewrite E in Hsub. exact Hsub. }
  assert (Ha : Prim2SF a <> S754_nan).
  { intros E. rewrite E, SFsub_nan_r in Hsub. exact Hsub. }
  destruct (SFcompare_defined _ _ Hb Ha) as [c Hc].
  unfold SFltb in Hlt. rewrite Hc in Hlt.
  unfold SFleb. rewrite (SFcompare_antisym _ _ _ Hc).
  destruct c; simpl; congruence.
Qed.

Lemma leb_not_ltb a b : (a <=? b)%float = true -> (b <? a)%float = false.
Proof.
  rewrite FloatAxioms.ltb_spec, FloatAxioms.leb_spec. unfold SFleb, SFltb.
  destruct (SFcompare (Prim2SF a) (Prim2SF b)) as [c|] eqn:Hc; [|discriminate].
  rewrite (SFcompare_antisym _ _ _ Hc). destruct c; simpl; congruence.
Qed.

(** subtraction *)
Lemma iter_xO_pow m d : Zpos (Pos.iter xO m d) = (Zpos m * 2 ^ Zpos d)%Z.
Proof.
  induction d as [|d IH] using Pos.peano_ind.
  - simpl. lia.
  - rewrite Pos.iter_succ, Pos2Z.inj_succ, Z.pow_succ_r by lia.
    rewrite Pos2Z.inj_xO, IH. lia.
Qed.

Lemma shl_align_value m e e' :
  (e' <= e)%Z -> Zpos (fst (shl_align m e e')) = (Zpos m * 2 ^ (e - e'))%Z.
Proof.
  intros H. unfold shl_align.
  destruct (e' - e)%Z as [|d|d] eqn:E; cbn [fst].
  - replace (e - e')%Z with 0%Z by lia. rewrite Z.pow_0_r. lia.
  - lia.
  - rewrite iter_xO_pow. f_equal. f_equal. lia.
Qed.

Lemma digits2_pos_bounds m :
  (2 ^ (Zpos (digits2_pos m) - 1) <= Zpos m < 2 ^ Zpos (digits2_pos m))%Z.
Proof.
  assert (Hpow : forall d, (2 ^ Zpos d = 2 * 2 ^ (Zpos d - 1))%Z).
  { intros d. rewrite <- Z.pow_succ_r by lia. f_equal. lia. }
  induction m as [m IH|m IH|]; simpl digits2_pos.
  - rewrite Pos2Z.inj_succ, Z.pow_succ_r by lia.
    replace (Z.succ (Zpos (digits2_pos m)) - 1)%Z with (Zpos (digits2_pos m)) by lia.
    rewrite (Hpow (digits2_pos m)) in *. lia.
  - rewrite Pos2Z.inj_succ, Z.pow_succ_r by lia.
    replace (Z.succ (Zpos (digits2_pos m)) - 1)%Z with (Zpos (digits2_pos m)) by lia.
    rewrite (Hpow (digits2_pos m)) in *. lia.
  - simpl. lia.
Qed.

Lemma bounded_exponent m e :
  bounded prec emax m e = true ->
  (-1074 <= e)%Z /\ (Zpos (digits2_pos m) <= 53)%Z /\ ((-1074 < e)%Z -> Zpos (digits2_pos m) = 53%Z).
Proof.
  unfold bounded, canonical_mantissa, fexp, SpecFloat.emin.
  change prec with 53%Z. change emax with 1024%Z.
  intros H. apply andb_true_iff in H as [H _]. apply Z.eqb_eq in H. lia.
Qed.

Lemma SFsub_nonneg x y my ey :
  valid_binary x = true -> valid_binary y = true ->
  y = S754_finite false my ey ->
  sfNonneg x -> SFltb x y = false -> sfNonneg (SFsub prec emax x y).
Proof.
  intros Hvx Hvy -> Hx Hlt.
  destruct x as [sx|[|]| |[|] mx ex]; simpl in Hx; try contradiction.
  - discriminate Hlt.
  - exact I.
  - unfold SFsub. apply binary_normalize_nonneg. unfold cond_Zopp.
    simpl in Hvx, Hvy.
    destruct (bounded_exponent _ _ Hvx) as (Hex & Hdx & Hnx).
    destruct (bounded_exponent _ _ Hvy) as (Hey & Hdy & Hny).
    pose proof (digits2_pos_bounds mx) as Bx.
    pose proof (digits2_pos_bounds my) as By.
    rewrite !shl_align_value by lia.
    unfold SFltb in Hlt. simpl in Hlt.
    destruct (Z.compare_spec ex ey) as [E|E|E].
    + subst ey. replace (Z.min ex ex) with ex by lia.
      replace (ex - ex)%Z with 0%Z by lia. simpl Z.pow.
      destruct (Pos.compare_cont Eq mx my) eqn:C; try discriminate.
      * apply Pos.compare_eq in C. subst. lia.
      * change (Pos.compare_cont Eq mx my) with (Pos.compare mx my) in C.
        apply Pos.compare_gt_iff in C. lia.
    + discriminate.
    + replace (Z.min ex ey) with ey by lia.
      replace (ey - ey)%Z with 0%Z by lia. simpl (2 ^ 0)%Z.
      rewrite (Hnx ltac:(lia)) in Bx.
      assert (2 ^ 1 <= 2 ^ (ex - ey))%Z by (apply Z.pow_le_mono_r; lia).
      assert (Zpos my < 2 ^ 53)%Z.
      { eapply Z.lt_le_trans; [apply By|]. apply Z.pow_le_mono_r; lia. }
      change (2 ^ (53 - 1))%Z with 4503599627370496%Z in Bx.
      change (2 ^ 53)%Z with 9007199254740992%Z in *.
      change (2 ^ 1)%Z with 2%Z in *. nia.
Qed.

(** Finite positive numbers. *)
Lemma positive_finite a m :
  (0 <? a)%float = true -> (a <=? m)%float = true -> (m <? infinity)%float = true ->
  exists ma ea, Prim2SF a = S754_finite false ma ea.
Proof.
  rewrite ltb_zero, FloatAxioms.leb_spec, FloatAxioms.ltb_spec.
  destruct (Prim2SF a) as [sx|[|]| |[|] mx ex]; simpl; try tauto; eauto.
  intros _. change (Prim2SF infinity) with (S754_infinity false).
  destruct (Prim2SF m) as [s|[|]| |[|] mm em]; simpl; unfold SFleb, SFltb; simpl; discriminate.
Qed.

Lemma sub_nonneg b a m :
  (0 <=? b)%float = true -> (0 <? a)%float = true ->
  (a <=? m)%float = true -> (m <? infinity)%float = true ->
  (b <? a)%float = false -> (0 <=? b - a)%float = true.
Proof.
  intros Hb Ha Hm Hinf Hlt.
  destruct (positive_finite a m Ha Hm Hinf) as (ma & ea & Ea).
  rewrite leb_zero, FloatAxioms.sub_spec. rewrite leb_zero in Hb. rewrite FloatAxioms.ltb_spec in Hlt.
  apply (SFsub_nonneg _ _ ma ea); auto using Prim2SF_valid.
Qed.







Lemma SFmul_nonpos x m e :
  sfNonpos x -> sfNonpos (SFmul prec emax x (S754_finite false m e)).
Proof.
  unfold sfNonpos. destruct x as [sx|[|]| |[|] mx ex]; simpl; try tauto.
  intros _. apply signed_true_not_positive, binary_round_aux_signed. lia.
Qed.

Lemma SFdiv_nonpos x m e :
  sfNonpos x -> sfNonpos (SFdiv prec emax x (S754_finite false m e)).
Proof.
  unfold sfNonpos. destruct x as [sx|[|]| |[|] mx ex]; try (simpl; tauto).
  intros _. unfold SFdiv.
  destruct (SFdiv_core_binary prec emax (Zpos mx) ex (Zpos m) e) as [[mz ez] lz] eqn:E.
  apply signed_true_not_positive, binary_round_aux_signed.
  unfold SFdiv_core_binary in E.
  destruct (Z.div_eucl _ (Zpos m)) as [q r] eqn:D in E.
  injection E as <- _ _.
  match type of D with Z.div_eucl ?a _ = _ =>
    assert (Ha : (0 <= a)%Z) end.
  { destruct (_ - _ - _)%Z; try lia. rewrite Z.shiftl_mul_pow2 by lia.
    apply Z.mul_nonneg_nonneg; [lia|]. apply Z.pow_nonneg. lia. }
  match type of D with Z.div_eucl ?a ?b = _ =>
    pose proof (Z_div_mod a b ltac:(lia)) as Hd; rewrite D in Hd end.
  nia.
Qed.

Lemma SFopp_nonneg_nonpos x : sfNonneg x -> sfNonpos (SFopp x).
Proof. unfold sfNonpos. destruct x as [sx|[|]| |[|] mx ex]; simpl; tauto. Qed.

Lemma of_uint63_nonneg n : sfNonneg (Prim2SF (of_uint63 n)).
Proof.
  rewrite FloatAxioms.of_uint63_spec. apply binary_normalize_nonneg.
  pose proof (Uint63.to_Z_bounded n). lia.
Qed.

Lemma Math_round_nonpos x : sfNonpos (Prim2SF x) -> sfNonpos (Prim2SF (Math_round x)).
Proof.
  unfold Math_round. intros Hx.
  destruct (Prim2SF x) as [sx|[|]| |[|] mx ex] eqn:E; cbv iota;
    try (rewrite E; exact Hx); try (exfalso; apply Hx; exact I).
  destruct (Z.leb_spec 0 ex) as [Hle|Hneg]; [rewrite E; exact Hx|].
  cbv zeta. unfold cond_Zopp.
  set (n := ((2 * - Zpos mx + 2 ^ (- ex)) / 2 ^ (1 - ex))%Z).
  assert (Hn : (n < 1)%Z).
  { assert (Hpow : (2 ^ (1 - ex) = 2 * 2 ^ (- ex))%Z).
    { rewrite <- Z.pow_succ_r by lia. f_equal. lia. }
    assert (0 < 2 ^ (- ex))%Z by (apply Z.pow_pos_nonneg; lia).
    apply Z.div_lt_upper_bound; lia. }
  destruct (Z.ltb_spec 0 n) as [Hpos|_]; [lia|].
  destruct (n =? 0)%Z.
  - change (Prim2SF (-0)) with (S754_zero true). exact (fun H => H).
  - rewrite FloatAxioms.opp_spec. apply SFopp_nonneg_nonpos, of_uint63_nonneg.
Qed.

Lemma mul_div_100 :
  exists m e, Prim2SF 100 = S754_finite false m e.
Proof. eexists _, _. vm_compute. reflexivity. Qed.

Lemma joi_rounded_positive a :
  (0 <? Math_round (a * 100) / 100)%float = true -> (0 <? a)%float = true.
Proof.
  intros H. destruct (0 <? a)%float eqn:Ha; [reflexivity|]. exfalso.
  apply ltb_zero in H. revert H.
  destruct mul_div_100 as (m & e & E).
  rewrite FloatAxioms.div_spec, E. apply SFdiv_nonpos, Math_round_nonpos.
  rewrite FloatAxioms.mul_spec, E. apply SFmul_nonpos.
  intros Hp. apply ltb_zero in Hp. congruence.
Qed.

Lemma joi_amount_positive a : joi_amount a = true -> (0 <? a)%float = true.
Proof.
  unfold joi_amount. rewrite !andb_true_iff. intros [_ H]. apply joi_rounded_positive, H.
Qed.

Lemma joi_amount_safe a : joi_amount a = true -> (a <=? MAX_SAFE_INTEGER)%float = true.
Proof.
  unfold joi_amount. rewrite !andb_true_iff, !negb_true_iff, orb_false_iff.
  intros [[[_ Hnan] [Hmax _]] _].
  unfold is_nan in Hnan. rewrite FloatAxioms.eqb_spec in Hnan.
  rewrite FloatAxioms.ltb_spec in Hmax. rewrite FloatAxioms.leb_spec.
  unfold SFeqb in Hnan. unfold SFltb in Hmax. unfold SFleb.
  assert (Ha : Prim2SF a <> S754_nan).
  { intros E. rewrite E in Hnan. discriminate. }
  destruct (SFcompare_defined (Prim2SF MAX_SAFE_INTEGER) (Prim2SF a)) as [c Hc];
    [vm_compute; discriminate | exact Ha |].
  rewrite Hc in Hmax. rewrite (SFcompare_antisym _ _ _ Hc).
  destruct c; simpl; congruence.
Qed.

Lemma ltb_leb_zero a : (0 <? a)%float = true -> (0 <=? a)%float = true.
Proof.
  rewrite ltb_zero, leb_zero.
  destruct (Prim2SF a) as [s|[|]| |[|] m e]; simpl; tauto.
Qed.

(** An amount of at least 0.01 is above zero. *)
Lemma cent_positive a : (0.01 <=? a)%float = true -> (0 <? a)%float = true.
Proof.
  rewrite FloatAxioms.leb_spec, ltb_zero.
  assert (exists m e, Prim2SF 0.01 = S754_finite false m e) as (m & e & ->).
  { eexists _, _. vm_compute. reflexivity. }
  destruct (Prim2SF a) as [s|[|]| |[|] ma ea]; unfold SFleb; simpl; try discriminate; auto.
Qed.

Lemma or_zero_positive a : (0 <? a)%float = true -> or_zero a = a.
Proof.
  intros H. unfold or_zero, is_nan. rewrite !FloatAxioms.eqb_spec.
  apply ltb_zero in H. change (Prim2SF 0) with (S754_zero false).
  destruct (Prim2SF a) as [s|[|]| |[|] m e] eqn:E; simpl in H; try contradiction.
  - reflexivity.
  - unfold SFeqb. simpl. rewrite Z.compare_refl, Pos.compare_cont_refl. reflexivity.
Qed.


(** zero is neutral for the amounts a record may hold *)
Lemma add_zero_l a : (0.01 <=? a)%float = true -> (0 + a)%float = a.
Proof.
  intros H. apply FloatAxioms.Prim2SF_inj. rewrite FloatAxioms.add_spec.
  rewrite FloatAxioms.leb_spec in H.
  change (Prim2SF 0) with (S754_zero false).
  destruct (Prim2SF a) as [s| | |s m e]; try reflexivity.
  vm_compute in H. discriminate.
Qed.
(** ** Fraud rules *)

Local Arguments Nat.leb : simpl never.
Local Arguments Nat.ltb : simpl never.
Local Arguments List.filter : simpl never.
Local Arguments String.eqb : simpl never.
Local Arguments castObjectId : simpl never.

Ltac unfold_fraud :=
  unfold checkFraudRules, try_catch, bind, Transaction_countDocuments, Transaction_find,
    sendAlertEmail, emit, throw, ret.

Ltac case_if :=
  match goal with
  | |- context [if ?c then _ else _] => destruct c eqn:?
  end.

(** The evaluation always returns, reads only, and leaves the session alone;
    what it returns and what it does depend on the durable store alone. *)
Lemma checkFraudRules_run env userId kind amount st :
  exists r evs,
    run (checkFraudRules env userId kind amount) (durable st) = (Ok r, durable st, evs) /\
    checkFraudRules env userId kind amount st
    = (Ok r, mkSt (durable st) (staged st) (evs ++ events st)).
Proof.
  unfold run. unfold_fraud. cbn.
  destruct (countError env) as [e|]; cbn.
  { eexists _, [_; _]. split; reflexivity. }
  case_if; cbn. { eexists _, [_; _]. split; reflexivity. }
  case_if; cbn. { eexists _, [_; _]. split; reflexivity. }
  case_if; cbn; [| eexists _, [_]; split; reflexivity ].
  destruct (findError env) as [e|]; cbn.
  { eexists _, [_; _; _]. split; reflexivity. }
  case_if; cbn.
  - eexists _, [_; _; _]. split; reflexivity.
  - eexists _, [_; _]. split; reflexivity.
Qed.

Lemma checkFraudRules_returns env userId kind amount st :
  exists r evs,
    checkFraudRules env userId kind amount st
    = (Ok r, mkSt (durable st) (staged st) (evs ++ events st)).
Proof.
  destruct (checkFraudRules_run env userId kind amount st) as (r & evs & _ & H). eauto.
Qed.

(** With a readable history the evaluation computes the decision table on
    what the two queries return. *)
Lemma checkFraudRules_evaluate env userId kind amount st :
  countError env = None -> findError env = None ->
  exists evs,
    checkFraudRules env userId kind amount st
    = (Ok (evaluate (recentCount (durable st) userId (now env))
                    (recentWithdrawals (durable st) userId (now env)) kind amount),
       mkSt (durable st) (staged st) (evs ++ events st)).
Proof.
  intros Hc Hf. unfold evaluate, recentCount, recentWithdrawals.
  unfold_fraud. rewrite Hc, Hf. cbn.
  change FRAUD_RULES.HIGH_FREQUENCY_LIMIT with 5%nat.
  change FRAUD_RULES.LARGE_AMOUNT_THRESHOLD with 10000%float.
  case_if; cbn. { eexists [_; _]. reflexivity. }
  case_if; cbn. { eexists [_; _]. reflexivity. }
  destruct (TxType_eqb kind withdrawal); cbn; [| eexists [_]; reflexivity ].
  case_if; cbn.
  - eexists [_; _; _]. reflexivity.
  - eexists [_; _]. reflexivity.
Qed.

(** When the count query rejects, the [catch] logs and answers "not flagged". *)
Lemma checkFraudRules_count_rejects env userId kind amount st e :
  countError env = Some e ->
  checkFraudRules env userId kind amount st
  = (Ok notFlagged,
     mkSt (durable st) (staged st) (LoggedError e :: QueriedTransactions :: events st)).
Proof. intros Hc. unfold_fraud. rewrite Hc. reflexivity. Qed.

(** When rule 3 is reached and its query rejects, likewise. *)
Lemma checkFraudRules_find_rejects env userId amount st e :
  countError env = None -> findError env = Some e ->
  (recentCount (durable st) userId (now env) < 5)%nat ->
  (10000 <=? amount)%float = false ->
  checkFraudRules env userId withdrawal amount st
  = (Ok notFlagged,
     mkSt (durable st) (staged st)
          (LoggedError e :: QueriedTransactions :: QueriedTransactions :: events st)).
Proof.
  intros Hc Hf Hn Ha. unfold_fraud. rewrite Hc, Hf. cbn.
  change FRAUD_RULES.HIGH_FREQUENCY_LIMIT with 5%nat.
  change FRAUD_RULES.LARGE_AMOUNT_THRESHOLD with 10000%float.
  unfold recentCount in Hn.
  destruct (Nat.leb_spec 5 (length (List.filter
              (recentTransactionsFilter userId
                 (now env - FRAUD_RULES.SUSPICIOUS_PATTERN_TIME_WINDOW)%Z)
              (transactions (durable st))))) as [H|H]; [lia|].
  rewrite Ha. reflexivity.
Qed.

(** The evaluation returns a reason exactly when it flags, and sends one
    alert when it flags and none otherwise. *)
Lemma checkFraudRules_verdict env userId kind amount db r evs :
  run (checkFraudRules env userId kind amount) db = (Ok r, db, evs) ->
  ((exists reason, r = flagged reason) \/ r = notFlagged) /\
  length (List.filter isAlert evs) = (if isFlagged r then 1 else 0)%nat /\
  (forall u a, In (AlertEmail u a) evs -> u = userId).
Proof.
  unfold run. unfold_fraud. cbn.
  destruct (countError env) as [e|]; cbn.
  { intros [= <- <-]. split; [right; reflexivity|]. split; [reflexivity|].
    intros u a [H|[H|[]]]; discriminate. }
  case_if; cbn.
  { intros [= <- <-]. split; [left; eexists; reflexivity|]. split; [reflexivity|].
    intros u a [H|[H|[]]]; [injection H as <- _; reflexivity | discriminate]. }
  case_if; cbn.
  { intros [= <- <-]. split; [left; eexists; reflexivity|]. split; [reflexivity|].
    intros u a [H|[H|[]]]; [injection H as <- _; reflexivity | discriminate]. }
  case_if; cbn.
  2:{ intros [= <- <-]. split; [right; reflexivity|]. split; [reflexivity|].
      intros u a [H|[]]; discriminate. }
  destruct (findError env) as [e|]; cbn.
  { intros [= <- <-]. split; [right; reflexivity|]. split; [reflexivity|].
    intros u a [H|[H|[H|[]]]]; discriminate. }
  case_if; cbn.
  - intros [= <- <-]. split; [left; eexists; reflexivity|]. split; [reflexivity|].
    intros u a [H|[H|[H|[]]]]; [injection H as <- _; reflexivity | discriminate | discriminate].
  - intros [= <- <-]. split; [right; reflexivity|]. split; [reflexivity|].
    intros u a [H|[H|[]]]; discriminate.
Qed.

(** ** Arrays of balances *)

Lemma find_ref_find {A} (p : A -> bool) l :
  List.find p l = option_map snd (find_ref p l).
Proof.
  induction l as [|x r IH]; cbn; [reflexivity|].
  destruct (p x); [reflexivity|]. rewrite IH.
  destruct (find_ref p r) as [[i y]|]; reflexivity.
Qed.

Lemma find_ref_findIndex {A} (p : A -> bool) l :
  findIndex p l = option_map fst (find_ref p l).
Proof.
  induction l as [|x r IH]; cbn; [reflexivity|].
  destruct (p x); [reflexivity|]. rewrite IH.
  destruct (find_ref p r) as [[i y]|]; reflexivity.
Qed.

Lemma find_ref_lookup {A} (p : A -> bool) (l : list A) i x :
  find_ref p l = Some (i, x) -> l !! i = Some x /\ p x = true.
Proof.
  revert i. induction l as [|y r IH]; cbn; intros i H; [discriminate|].
  destruct (p y) eqn:Hp.
  - injection H as <- <-. auto.
  - destruct (find_ref p r) as [[j z]|]; [|discriminate].
    injection H as <- <-. apply IH. reflexivity.
Qed.

(** Updating the element a reference points to keeps the reference valid as
    long as the update keeps [p] true there. *)
Lemma find_ref_insert {A} (p : A -> bool) (l : list A) i x y :
  find_ref p l = Some (i, x) -> p y = true ->
  find_ref p (<[ i := y ]> l) = Some (i, y).
Proof.
  revert i. induction l as [|z r IH]; cbn; intros i H Hy; [discriminate|].
  destruct (p z) eqn:Hp.
  - injection H as <- <-. cbn. rewrite Hy. reflexivity.
  - destruct (find_ref p r) as [[j t]|] eqn:Hr; [|discriminate].
    injection H as <- <-. specialize (IH j eq_refl Hy).
    simpl. rewrite Hp. rewrite IH. reflexivity.
Qed.

Lemma find_ref_app_None {A} (p : A -> bool) (l : list A) y :
  find_ref p l = None -> p y = true ->
  find_ref p (l ++ [y]) = Some (length l, y).
Proof.
  induction l as [|z r IH]; cbn; intros H Hy.
  - rewrite Hy. reflexivity.
  - destruct (p z); [discriminate|].
    destruct (find_ref p r) as [[j t]|]; [discriminate|].
    rewrite IH; auto.
Qed.

Lemma find_find_ref {A} (p : A -> bool) l x :
  List.find p l = Some x -> exists i, find_ref p l = Some (i, x).
Proof.
  rewrite find_ref_find. destruct (find_ref p l) as [[i y]|]; simpl; [|discriminate].
  intros [= ->]. eauto.
Qed.

Lemma hasCurrency_refl c a : hasCurrency c (mkBalance c a) = true.
Proof. unfold hasCurrency. cbn. apply String.eqb_refl. Qed.

Lemma hasCurrency_eq c b : hasCurrency c b = true -> b_currency b = c.
Proof. unfold hasCurrency. apply String.eqb_eq. Qed.

(** Updating the entry a reference points to. *)
Lemma find_ref_updateAt c bs i b f :
  find_ref (hasCurrency c) bs = Some (i, b) ->
  find_ref (hasCurrency c) (updateAt i f bs) = Some (i, mkBalance c (f (b_amount b))).
Proof.
  intros H. destruct (find_ref_lookup _ _ _ _ H) as [Hl Hp].
  unfold updateAt. rewrite Hl. rewrite (hasCurrency_eq _ _ Hp).
  apply (find_ref_insert _ _ _ _ _ H), hasCurrency_refl.
Qed.

(** [credit] adds [amount] to what [find] reads; without an entry it pushes
    one that holds [amount]. *)
Lemma find_ref_credit c a bs :
  exists i,
    find_ref (hasCurrency c) (credit c a bs)
    = Some (i, mkBalance c (match find_ref (hasCurrency c) bs with
                            | Some (_, b) => (b_amount b + a)%float
                            | None => a
                            end)).
Proof.
  unfold credit. rewrite find_ref_findIndex.
  destruct (find_ref (hasCurrency c) bs) as [[i b]|] eqn:H; cbn.
  - exists i. unfold addAt. apply (find_ref_updateAt c bs i b (fun x => x + a)%float H).
  - exists (length bs). apply find_ref_app_None; [exact H | apply hasCurrency_refl].
Qed.

Lemma balanceOf_find_ref w c :
  balanceOf w c = match find_ref (hasCurrency c) (Wallet.balances w) with
                  | Some (_, b) => b_amount b
                  | None => 0%float
                  end.
Proof.
  unfold balanceOf. rewrite find_ref_find.
  destruct (find_ref _ _) as [[i b]|]; reflexivity.
Qed.

(** The balance after a credit: the sum the code computes, or the amount
    itself when the entry is new. *)
Lemma balanceOf_credit w c a :
  balanceOf (Wallet.with_balances (credit c a (Wallet.balances w)) w) c
  = match List.find (hasCurrency c) (Wallet.balances w) with
    | Some b => (b_amount b + a)%float
    | None => a
    end.
Proof.
  rewrite balanceOf_find_ref, find_ref_find. cbn.
  destruct (find_ref_credit c a (Wallet.balances w)) as [i ->]. cbn.
  destruct (find_ref _ _) as [[j b]|]; reflexivity.
Qed.

(** The balance after a debit: the difference the code computes. *)
Lemma balanceOf_debit w c a i b :
  find_ref (hasCurrency c) (Wallet.balances w) = Some (i, b) ->
  balanceOf (Wallet.with_balances (subAt i a (Wallet.balances w)) w) c
  = (b_amount b - a)%float.
Proof.
  intros H. rewrite balanceOf_find_ref. cbn. unfold subAt.
  rewrite (find_ref_updateAt _ _ _ _ _ H). reflexivity.
Qed.

Lemma balanceOf_preSave now w c : balanceOf (Wallet.preSave false now w) c = balanceOf w c.
Proof. reflexivity. Qed.

(** ** Schema validators *)

Local Arguments checkFraudRules : simpl never.
Local Arguments Wallet.validate : simpl never.
Local Arguments Transaction.validate : simpl never.
Local Arguments credit : simpl never.
Local Arguments addAt : simpl never.
Local Arguments subAt : simpl never.
Local Arguments updateAt : simpl never.
Local Arguments find_ref : simpl never.
Local Arguments List.find : simpl never.

Lemma validate_balance_iff b : Wallet.validate_balance b = true <-> validBalance b.
Proof.
  unfold Wallet.validate_balance, validBalance.
  rewrite andb_true_iff, negb_true_iff, String.eqb_neq. reflexivity.
Qed.

Lemma Wallet_validate_iff w :
  Wallet.validate w = true <-> Forall validBalance (Wallet.balances w).
Proof.
  unfold Wallet.validate. rewrite forallb_forall, Forall_forall.
  split; intros H b Hb; apply validate_balance_iff, H.
  - apply list_elem_of_In, Hb.
  - apply list_elem_of_In, Hb.
Qed.

Lemma validate_updateAt w i b f :
  Wallet.validate w = true ->
  Wallet.balances w !! i = Some b ->
  (0 <=? f (b_amount b))%float = true ->
  Wallet.validate (Wallet.with_balances (updateAt i f (Wallet.balances w)) w) = true.
Proof.
  rewrite !Wallet_validate_iff. simpl. intros Hw Hi Hd.
  unfold updateAt. rewrite Hi. apply Forall_insert; [exact Hw|].
  split; [|exact Hd]. simpl.
  rewrite Forall_lookup in Hw. apply (Hw i b Hi).
Qed.

(** A credit of an amount that is not negative keeps a valid wallet valid. *)
Lemma validate_credit w c a :
  Wallet.validate w = true -> c <> "" -> (0 <=? a)%float = true ->
  Wallet.validate (Wallet.with_balances (credit c a (Wallet.balances w)) w) = true.
Proof.
  intros Hw Hc Ha. unfold credit. rewrite find_ref_findIndex.
  destruct (find_ref (hasCurrency c) (Wallet.balances w)) as [[i b]|] eqn:Hf; simpl.
  - destruct (find_ref_lookup _ _ _ _ Hf) as [Hi _].
    apply (validate_updateAt w i b _ Hw Hi).
    apply Wallet_validate_iff in Hw. rewrite Forall_lookup in Hw.
    destruct (Hw i b Hi) as [_ Hb]. apply add_nonneg; assumption.
  - apply Wallet_validate_iff. simpl. apply Forall_app. split.
    + apply Wallet_validate_iff, Hw.
    + constructor; [|constructor]. split; assumption.
Qed.

(** A debit that the guard lets through keeps a valid wallet valid, for a
    positive amount within the safe integers. *)
Lemma validate_debit w c i b a :
  Wallet.validate w = true ->
  find_ref (hasCurrency c) (Wallet.balances w) = Some (i, b) ->
  (0 <? a)%float = true -> (a <=? MAX_SAFE_INTEGER)%float = true ->
  (b_amount b <? a)%float = false ->
  Wallet.validate (Wallet.with_balances (subAt i a (Wallet.balances w)) w) = true.
Proof.
  intros Hw Hf Ha Hmax Hlt. destruct (find_ref_lookup _ _ _ _ Hf) as [Hi _].
  apply (validate_updateAt w i b _ Hw Hi).
  apply Wallet_validate_iff in Hw. rewrite Forall_lookup in Hw.
  destruct (Hw i b Hi) as [_ Hb].
  apply (sub_nonneg _ _ MAX_SAFE_INTEGER); auto.
Qed.

Lemma Transaction_validate_ok env from to kind amount currency description fc :
  (kind = deposit -> to <> None) ->
  (kind = withdrawal -> from <> None) ->
  (kind = transfer -> from <> None /\ to <> None) ->
  (0.01 <=? amount)%float = true ->
  currency <> "" ->
  joi_description description = true ->
  flagReason fc <> None ->
  Transaction.validate
    (Transaction.set_status completed
       (new_Transaction env from to kind amount currency description fc)) = None.
Proof.
  intros Hd Hw Ht Ha Hc Hdesc Hfc. unfold Transaction.validate, new_Transaction. simpl.
  unfold Transaction.fromUserId_required, Transaction.toUserId_required. simpl.
  assert (Hfrom : (TxType_eqb kind transfer || TxType_eqb kind withdrawal)
                  && negb (Transaction.present from) = false).
  { destruct kind, from; simpl; try reflexivity.
    - destruct Hw; reflexivity.
    - destruct Ht as [Ht _]; auto. destruct Ht; reflexivity. }
  assert (Hto : (TxType_eqb kind transfer || TxType_eqb kind deposit)
                && negb (Transaction.present to) = false).
  { destruct kind, to; simpl; try reflexivity.
    - destruct Hd; reflexivity.
    - destruct Ht as [_ Ht]; auto. destruct Ht; reflexivity. }
  rewrite Hfrom, Hto, Ha. simpl.
  apply String.eqb_neq in Hc. rewrite Hc.
  assert (Hlen : match description with
                 | Some s => Nat.ltb 500 (String.length s)
                 | None => false
                 end = false).
  { destruct description as [s|]; [|reflexivity].
    unfold joi_description in Hdesc. apply andb_true_iff in Hdesc as [_ Hlen].
    apply Nat.leb_le in Hlen.
    destruct (Nat.ltb_spec 500 (String.length s)); [lia | reflexivity]. }
  rewrite Hlen. destruct (flagReason fc); [reflexivity | contradiction].
Qed.

(** A record that passed the validators holds at least 0.01 and a reason. *)
Lemma Transaction_validate_inv env from to kind amount currency description fc :
  Transaction.validate
    (Transaction.set_status completed
       (new_Transaction env from to kind amount currency description fc)) = None ->
  (0.01 <=? amount)%float = true /\ flagReason fc <> None.
Proof.
  unfold Transaction.validate, new_Transaction. simpl.
  destruct (_ && _); [discriminate|]. destruct (_ && _); [discriminate|].
  destruct (0.01 <=? amount)%float; [|discriminate]. simpl.
  destruct (String.eqb currency ""); [discriminate|].
  destruct (match description with Some _ => _ | None => _ end); [discriminate|].
  destruct (flagReason fc); [|discriminate]. intros _. split; [reflexivity | discriminate].
Qed.

(** Without a reason the record is refused, whatever else it holds. *)
Lemma Transaction_validate_unflagged env from to kind amount currency description fc :
  flagReason fc = None ->
  Transaction.validate
    (Transaction.set_status completed
       (new_Transaction env from to kind amount currency description fc)) <> None.
Proof.
  intros Hfc Hv. apply Transaction_validate_inv in Hv as [_ H]. contradiction.
Qed.

(** What a request that passed [validateTransaction] satisfies. *)
Lemma validateTransaction_passes body :
  validateTransaction body = None ->
  joi_amount (Body.amount body) = true /\
  In (currencyOf body) validCurrencies /\
  joi_description (Body.description body) = true /\
  joi_toUserId (Body.toUserId body) = true.
Proof.
  unfold validateTransaction. intros H.
  destruct (joi_amount _); [|discriminate].
  destruct (joi_currency _) eqn:Hc; [|discriminate].
  destruct (joi_description _); [|discriminate].
  destruct (joi_toUserId _); [|discriminate].
  repeat split; try reflexivity.
  unfold currencyOf, joi_currency in *.
  destruct (Body.currency body) as [c|].
  - apply existsb_exists in Hc as (x & Hin & Hx).
    apply String.eqb_eq in Hx. subst x. exact Hin.
  - simpl. auto.
Qed.

Lemma validCurrencies_nonempty c : In c validCurrencies -> c <> "".
Proof.
  unfold validCurrencies. simpl.
  intros [<-|[<-|[<-|[<-|[]]]]]; discriminate.
Qed.

(** ** Handlers *)

Ltac unfold_handler :=
  unfold run, depositHandler, withdrawHandler, transferHandler, inSession,
    startTransaction, endSession, abortTransaction, commitTransaction, nonNull,
    Wallet_findOne_opt, Wallet_findOne, Wallet_save, Transaction_save, write, emit,
    finally, try_catch, bind, throw, ret.

(** The evaluation as a handler sees it, inside the session just opened: the
    verdict and the effects are those of the evaluation run on its own. *)
Lemma checkFraudRules_in_session env user kind amount db :
  exists fc evs,
    run (checkFraudRules env user kind amount) db = (Ok fc, db, evs) /\
    checkFraudRules env user kind amount (mkSt db (Some db) [])
    = (Ok fc, mkSt db (Some db) evs).
Proof.
  destruct (checkFraudRules_run env user kind amount (mkSt db (Some db) []))
    as (fc & evs & Hrun & H).
  exists fc, evs. split; [exact Hrun|]. rewrite H, app_nil_r. reflexivity.
Qed.

Lemma run_in_session env user kind amount db fc evs :
  run (checkFraudRules env user kind amount) db = (Ok fc, db, evs) ->
  checkFraudRules env user kind amount (mkSt db (Some db) [])
  = (Ok fc, mkSt db (Some db) evs).
Proof.
  intros Hrun.
  destruct (checkFraudRules_in_session env user kind amount db) as (fc' & evs' & Hrun' & H).
  rewrite Hrun in Hrun'. injection Hrun' as <- <-. exact H.
Qed.

Ltac refused :=
  eexists _, _, _; split; [reflexivity|]; left; split; [reflexivity | exact id].

Ltac committed :=
  eexists _, _, _; split; [reflexivity|]; right.

(** A handler leaves the store as it found it, or commits; when it commits
    it has sent no alert of its own. *)
Lemma handler_cases r db fc evs0 :
  checkFraudRules (r_env r) (r_user r) (kindOf (r_op r)) (Body.amount (r_body r))
                  (mkSt db (Some db) [])
  = (Ok fc, mkSt db (Some db) evs0) ->
  exists resp db' evs,
    run (handlerOf (r_op r) (r_env r) (r_user r) (r_body r)) db = (Ok resp, db', evs) /\
    ((db' = db /\ ~ isJson resp)
     \/ (applies r fc db db' resp /\
         exists pre, evs = pre ++ evs0 /\ Forall (fun e => isAlert e = false) pre)).
Proof.
  destruct r as [env op user body]. simpl. intros Hfc.
  destruct op; simpl in Hfc |- *.
  - (* deposit *)
    unfold_handler. simpl. rewrite Hfc. simpl.
    destruct (wallets db !! user) as [w|] eqn:Hw; simpl; [|refused].
    destruct (Wallet.validate _) eqn:Hv; simpl; [|refused].
    destruct (Transaction.validate _) as [path|] eqn:Ht; simpl; [refused|].
    destruct (Transaction_validate_inv _ _ _ _ _ _ _ _ Ht) as [Hmin Hreason].
    destruct (find_ref_credit (currencyOf body) (Body.amount body) (Wallet.balances w))
      as [j Hj].
    rewrite find_ref_find, Hj. simpl.
    committed. split.
    + unfold applies. simpl. split; [exact Hmin|]. split; [exact Hreason|].
      split; [reflexivity|]. exists w. rewrite Hv.
      split; [exact Hw|]. split; [reflexivity|]. split; [reflexivity|].
      rewrite balanceOf_find_ref. simpl. rewrite Hj. reflexivity.
    + exists [Committed; SavedTransaction; SavedWallet user; QueriedWallet user].
      split; [reflexivity|]. repeat constructor.
  - (* withdrawal *)
    unfold_handler. simpl. rewrite Hfc. simpl.
    destruct (wallets db !! user) as [w|] eqn:Hw; simpl; [|refused].
    destruct (find_ref (hasCurrency (currencyOf body)) (Wallet.balances w)) as [[i b]|] eqn:Hb;
      simpl; [|refused].
    destruct (b_amount b <? Body.amount body)%float eqn:Hlt; simpl; [refused|].
    destruct (Wallet.validate _) eqn:Hv; simpl; [|refused].
    destruct (Transaction.validate _) as [path|] eqn:Ht; simpl; [refused|].
    destruct (Transaction_validate_inv _ _ _ _ _ _ _ _ Ht) as [Hmin Hreason].
    committed. split.
    + unfold applies. simpl. split; [exact Hmin|]. split; [exact Hreason|].
      split; [reflexivity|]. exists w, i, b. rewrite Hv. auto 10.
    + exists [Committed; SavedTransaction; SavedWallet user; QueriedWallet user].
      split; [reflexivity|]. repeat constructor.
  - (* transfer *)
    unfold_handler. simpl.
    destruct (Body.toUserId body) as [s|] eqn:Hto; simpl.
    2:{ rewrite Hfc. simpl. refused. }
    destruct (String.eqb s user) eqn:Hself; simpl; [refused|].
    apply String.eqb_neq in Hself.
    rewrite Hfc. simpl.
    destruct (castObjectId s) as [receiver|] eqn:Hcast; simpl; [|refused].
    destruct (wallets db !! receiver) as [rw|] eqn:Hrw; simpl; [|refused].
    destruct (wallets db !! user) as [sw|] eqn:Hsw; simpl; [|refused].
    destruct (find_ref (hasCurrency (currencyOf body)) (Wallet.balances sw)) as [[i b]|] eqn:Hb;
      simpl; [|refused].
    destruct (b_amount b <? Body.amount body)%float eqn:Hlt; simpl; [refused|].
    destruct (Wallet.validate (Wallet.with_balances (subAt _ _ _) sw)) eqn:Hvs; simpl;
      [|refused].
    destruct (Wallet.validate (Wallet.with_balances (credit _ _ _) rw)) eqn:Hvr; simpl;
      [|refused].
    destruct (Transaction.validate _) as [path|] eqn:Ht; simpl; [refused|].
    destruct (Transaction_validate_inv _ _ _ _ _ _ _ _ Ht) as [Hmin Hreason].
    committed. split.
    + unfold applies. simpl. split; [exact Hmin|]. split; [exact Hreason|].
      split; [unfold recordOf, recipientOf; simpl; rewrite Hto, Hcast; reflexivity|].
      exists s, receiver, sw, rw, i, b. rewrite Hvs, Hvr. auto 15.
    + exists [Committed; SavedTransaction; SavedWallet receiver; SavedWallet user;
              QueriedWallet receiver; QueriedWallet user].
      split; [reflexivity|]. repeat constructor.
Qed.

(** The routes run the handler exactly when the body is accepted. *)
Lemma route_accepted handler env user body :
  validateTransaction body = None ->
  route handler env user body = handler env user body.
Proof. unfold route. intros ->. reflexivity. Qed.

Lemma route_refused handler env user body key db :
  validateTransaction body = Some key ->
  run (route handler env user body) db = (Ok (Status 400 (JoiMessage key)), db, []).
Proof. unfold route. intros ->. reflexivity. Qed.

Lemma serve_route r :
  serve r = route (handlerOf (r_op r)) (r_env r) (r_user r) (r_body r).
Proof. unfold serve. destruct (r_op r); reflexivity. Qed.

(** A success answer of the route is a success answer of the handler. *)
Lemma route_Json handler env user body db message view newBalance db' evs :
  run (route handler env user body) db = (Ok (Json message view newBalance), db', evs) ->
  validateTransaction body = None /\
  run (handler env user body) db = (Ok (Json message view newBalance), db', evs).
Proof.
  unfold route. destruct (validateTransaction body); [discriminate | auto].
Qed.

Lemma after_run r db x db' evs : run (serve r) db = (x, db', evs) -> after db r = db'.
Proof. unfold after. intros ->. reflexivity. Qed.

(** A request leaves the store as it found it, or commits. *)
Lemma serve_cases r db fc evs0 :
  checkFraudRules (r_env r) (r_user r) (kindOf (r_op r)) (Body.amount (r_body r))
                  (mkSt db (Some db) [])
  = (Ok fc, mkSt db (Some db) evs0) ->
  exists resp db' evs,
    run (serve r) db = (Ok resp, db', evs) /\
    ((db' = db /\ ~ isJson resp)
     \/ (commits r fc db db' resp /\
         exists pre, evs = pre ++ evs0 /\ Forall (fun e => isAlert e = false) pre)).
Proof.
  intros Hfc. rewrite serve_route. unfold route.
  destruct (validateTransaction (r_body r)) as [key|] eqn:Hval; [refused|].
  destruct (handler_cases r db fc evs0 Hfc) as (resp & db' & evs & Hrun & Hcase).
  exists resp, db', evs. split; [exact Hrun|].
  destruct Hcase as [Hsame | [Happ Hevs]]; [left; exact Hsame|].
  right. split; [split; assumption | exact Hevs].
Qed.

(** The same, with the verdict given by the evaluation run on its own. *)
Lemma serve_outcome r db :
  exists resp evs fc evs0,
    run (checkFraudRules (r_env r) (r_user r) (kindOf (r_op r)) (Body.amount (r_body r))) db
    = (Ok fc, db, evs0) /\
    run (serve r) db = (Ok resp, after db r, evs) /\
    ((after db r = db /\ ~ isJson resp)
     \/ (commits r fc db (after db r) resp /\
         exists pre, evs = pre ++ evs0 /\ Forall (fun e => isAlert e = false) pre)).
Proof.
  destruct (checkFraudRules_in_session (r_env r) (r_user r) (kindOf (r_op r))
              (Body.amount (r_body r)) db) as (fc & evs0 & Hrun0 & Hfc).
  destruct (serve_cases r db fc evs0 Hfc) as (resp & db' & evs & Hrun & Hcase).
  pose proof (after_run _ _ _ _ _ Hrun) as Hafter. subst db'.
  exists resp, evs, fc, evs0. auto.
Qed.

(** *** Requests that commit *)

Lemma MAX_SAFE_INTEGER_finite : (MAX_SAFE_INTEGER <? infinity)%float = true.
Proof. reflexivity. Qed.

(** What the validation and the schema minimum give for the amount. *)
Lemma accepted_amount body :
  validateTransaction body = None ->
  (0 <? Body.amount body)%float = true /\
  (0 <=? Body.amount body)%float = true /\
  (Body.amount body <=? MAX_SAFE_INTEGER)%float = true /\
  currencyOf body <> "" /\
  joi_description (Body.description body) = true.
Proof.
  intros Hval. destruct (validateTransaction_passes body Hval) as (Hamt & Hcur & Hdesc & _).
  pose proof (joi_amount_positive _ Hamt) as Hpos.
  split; [exact Hpos|]. split; [apply ltb_leb_zero, Hpos|].
  split; [apply joi_amount_safe, Hamt|].
  split; [apply validCurrencies_nonempty, Hcur | exact Hdesc].
Qed.

(** A deposit that is accepted, holds at least 0.01 and is flagged commits. *)
Lemma POST_deposit_commits env user body db w fc evs0 :
  run (checkFraudRules env user deposit (Body.amount body)) db = (Ok fc, db, evs0) ->
  flagReason fc <> None ->
  validateTransaction body = None -> (0.01 <=? Body.amount body)%float = true ->
  wallets db !! user = Some w -> Wallet.validate w = true ->
  let w' := Wallet.with_balances
              (credit (currencyOf body) (Body.amount body) (Wallet.balances w)) w in
  run (POST_deposit env user body) db
  = (Ok (Json "Deposit successful"
           (mkTxView (Body.amount body) (currencyOf body) None completed (isFlagged fc))
           (balanceOf w' (currencyOf body))),
     mkDb (<[ user := Wallet.preSave false (now env) w' ]> (wallets db))
          (transactions db ++ [recordOf (mkRequest env Deposit user body) fc]),
     Committed :: SavedTransaction :: SavedWallet user :: QueriedWallet user :: evs0).
Proof.
  intros Hrun Hreason Hval Hmin Hw Hvw w'.
  destruct (accepted_amount body Hval) as (Hpos & Hnn & Hmax & Hcur & Hdesc).
  apply run_in_session in Hrun.
  unfold POST_deposit. rewrite (route_accepted _ _ _ _ Hval).
  assert (Hv : Wallet.validate w' = true) by (apply validate_credit; assumption).
  unfold_handler. simpl. rewrite Hrun. simpl. rewrite Hw. simpl. fold w'.
  rewrite Hv. simpl.
  match goal with
  | |- context [Transaction.validate ?t] => assert (Ht : Transaction.validate t = None)
  end.
  { apply Transaction_validate_ok; try congruence; try discriminate;
      try (intros; split; discriminate); assumption. }
  rewrite Ht.
  simpl. unfold balanceOf. subst w'. simpl.
  destruct (find_ref_credit (currencyOf body) (Body.amount body) (Wallet.balances w))
    as [i Hi].
  rewrite find_ref_find, Hi. reflexivity.
Qed.

(** A withdrawal that is accepted, covered and flagged commits. *)
Lemma POST_withdraw_commits env user body db w i b fc evs0 :
  run (checkFraudRules env user withdrawal (Body.amount body)) db = (Ok fc, db, evs0) ->
  flagReason fc <> None ->
  validateTransaction body = None -> (0.01 <=? Body.amount body)%float = true ->
  wallets db !! user = Some w -> Wallet.validate w = true ->
  find_ref (hasCurrency (currencyOf body)) (Wallet.balances w) = Some (i, b) ->
  (b_amount b <? Body.amount body)%float = false ->
  let w' := Wallet.with_balances (subAt i (Body.amount body) (Wallet.balances w)) w in
  run (POST_withdraw env user body) db
  = (Ok (Json "Withdrawal successful"
           (mkTxView (Body.amount body) (currencyOf body) None completed (isFlagged fc))
           (b_amount b - Body.amount body)%float),
     mkDb (<[ user := Wallet.preSave false (now env) w' ]> (wallets db))
          (transactions db ++ [recordOf (mkRequest env Withdraw user body) fc]),
     Committed :: SavedTransaction :: SavedWallet user :: QueriedWallet user :: evs0).
Proof.
  intros Hrun Hreason Hval Hmin Hw Hvw Hb Hlt w'.
  destruct (accepted_amount body Hval) as (Hpos & Hnn & Hmax & Hcur & Hdesc).
  apply run_in_session in Hrun.
  unfold POST_withdraw. rewrite (route_accepted _ _ _ _ Hval).
  assert (Hv : Wallet.validate w' = true)
    by apply (validate_debit w _ i b _ Hvw Hb Hpos Hmax Hlt).
  unfold_handler. simpl. rewrite Hrun. simpl. rewrite Hw. simpl. rewrite Hb. simpl.
  rewrite Hlt. simpl. fold w'.
  rewrite Hv. simpl.
  match goal with
  | |- context [Transaction.validate ?t] => assert (Ht : Transaction.validate t = None)
  end.
  { apply Transaction_validate_ok; try congruence; try discriminate;
      try (intros; split; discriminate); assumption. }
  rewrite Ht.
  reflexivity.
Qed.

(** A transfer that is accepted, addressed to an existing wallet, covered and
    flagged commits. The recipient may be the sender under another spelling. *)
Lemma POST_transfer_commits env user body db s receiver sw rw i b fc evs0 :
  run (checkFraudRules env user transfer (Body.amount body)) db = (Ok fc, db, evs0) ->
  flagReason fc <> None ->
  validateTransaction body = None -> (0.01 <=? Body.amount body)%float = true ->
  Body.toUserId body = Some s -> s <> user -> castObjectId s = Some receiver ->
  wallets db !! user = Some sw -> Wallet.validate sw = true ->
  wallets db !! receiver = Some rw -> Wallet.validate rw = true ->
  find_ref (hasCurrency (currencyOf body)) (Wallet.balances sw) = Some (i, b) ->
  (b_amount b <? Body.amount body)%float = false ->
  let sw' := Wallet.with_balances (subAt i (Body.amount body) (Wallet.balances sw)) sw in
  let rw' := Wallet.with_balances
               (credit (currencyOf body) (Body.amount body) (Wallet.balances rw)) rw in
  run (POST_transfer env user body) db
  = (Ok (Json "Transfer successful"
           (mkTxView (Body.amount body) (currencyOf body) (Some s) completed (isFlagged fc))
           (b_amount b - Body.amount body)%float),
     mkDb (<[ receiver := Wallet.preSave false (now env) rw' ]>
             (<[ user := Wallet.preSave false (now env) sw' ]> (wallets db)))
          (transactions db ++ [recordOf (mkRequest env Transfer user body) fc]),
     Committed :: SavedTransaction :: SavedWallet receiver :: SavedWallet user
       :: QueriedWallet receiver :: QueriedWallet user :: evs0).
Proof.
  intros Hrun Hreason Hval Hmin Hto Hne Hcast Hsw Hvs Hrw Hvr Hb Hlt sw' rw'.
  destruct (accepted_amount body Hval) as (Hpos & Hnn & Hmax & Hcur & Hdesc).
  apply run_in_session in Hrun.
  assert (Hvs' : Wallet.validate sw' = true)
    by apply (validate_debit sw _ i b _ Hvs Hb Hpos Hmax Hlt).
  assert (Hvr' : Wallet.validate rw' = true) by (apply validate_credit; assumption).
  unfold POST_transfer. rewrite (route_accepted _ _ _ _ Hval).
  unfold_handler. simpl. rewrite Hto. simpl.
  apply String.eqb_neq in Hne. rewrite Hne. simpl.
  rewrite Hrun. simpl. rewrite Hcast. simpl. rewrite Hrw, Hsw. simpl.
  rewrite Hb. simpl. rewrite Hlt. simpl. fold sw'.
  rewrite Hvs'. simpl. fold rw'.
  rewrite Hvr'. simpl.
  match goal with
  | |- context [Transaction.validate ?t] => assert (Ht : Transaction.validate t = None)
  end.
  { apply Transaction_validate_ok; try congruence; try discriminate;
      try (intros; split; discriminate); assumption. }
  rewrite Ht.
  unfold recordOf, recipientOf. simpl. rewrite Hto, Hcast. reflexivity.
Qed.

(** A request whose verdict carries no reason changes nothing. *)
Lemma unflagged_changes_nothing r db evs0 fc :
  run (checkFraudRules (r_env r) (r_user r) (kindOf (r_op r)) (Body.amount (r_body r))) db
  = (Ok fc, db, evs0) ->
  flagReason fc = None ->
  exists resp evs, run (serve r) db = (Ok resp, db, evs) /\ ~ isJson resp.
Proof.
  intros Hrun Hnone. apply run_in_session in Hrun.
  destruct (serve_cases r db fc evs0 Hrun) as (resp & db' & evs & Hserve & Hcase).
  destruct Hcase as [[-> Hno] | [[_ (_ & Hreason & _)] _]]; [eauto | contradiction].
Qed.

(** ** The daily job *)

Lemma obj_get_set_eq o k v : obj_get (obj_set o k v) k = Some v.
Proof.
  induction o as [|[k' v'] r IH]; simpl.
  - rewrite String.eqb_refl. reflexivity.
  - destruct (String.eqb k' k) eqn:E; simpl; rewrite E; [reflexivity | exact IH].
Qed.

Lemma obj_get_set_ne o k k' v : k <> k' -> obj_get (obj_set o k v) k' = obj_get o k'.
Proof.
  intros Hne. induction o as [|[k0 v0] r IH]; simpl.
  - apply String.eqb_neq in Hne. rewrite Hne. reflexivity.
  - destruct (String.eqb k0 k) eqn:E; simpl.
    + apply String.eqb_eq in E. subst k0.
      apply String.eqb_neq in Hne. rewrite Hne. reflexivity.
    + rewrite IH. reflexivity.
Qed.

Lemma obj_set_keys o k v :
  map fst (obj_set o k v)
  = match obj_get o k with Some _ => map fst o | None => map fst o ++ [k] end.
Proof.
  induction o as [|[k0 v0] r IH]; simpl; [reflexivity|].
  destruct (String.eqb k0 k) eqn:E; simpl; [reflexivity|].
  rewrite IH. destruct (obj_get r k); reflexivity.
Qed.

Lemma obj_get_None o k : obj_get o k = None <-> ~ In k (map fst o).
Proof.
  induction o as [|[k0 v0] r IH]; simpl; [tauto|].
  destruct (String.eqb k0 k) eqn:E.
  - apply String.eqb_eq in E. split; [discriminate | tauto].
  - apply String.eqb_neq in E. rewrite IH. tauto.
Qed.

Lemma obj_set_NoDup o k v : List.NoDup (map fst o) -> List.NoDup (map fst (obj_set o k v)).
Proof.
  intros H. rewrite obj_set_keys. destruct (obj_get o k) eqn:E; [exact H|].
  apply obj_get_None in E.
  apply NoDup_ListNoDup. apply NoDup_app. repeat split.
  - apply NoDup_ListNoDup, H.
  - intros x Hx Hk. apply list_elem_of_In in Hx. apply list_elem_of_In in Hk.
    destruct Hk as [<-|[]]. contradiction.
  - apply NoDup_singleton.
Qed.

(** With distinct keys, the entries are exactly what [obj_get] reads. *)
Lemma obj_get_In o k v : List.NoDup (map fst o) -> In (k, v) o <-> obj_get o k = Some v.
Proof.
  induction o as [|[k0 v0] r IH]; simpl; intros Hnd.
  - split; [tauto | discriminate].
  - inversion Hnd as [|? ? Hnotin Hnd']; subst.
    destruct (String.eqb k0 k) eqn:E.
    + apply String.eqb_eq in E. subst k0. split.
      * intros [H|H]; [congruence|].
        exfalso. apply Hnotin. apply (in_map fst) in H. exact H.
      * intros H. left. congruence.
    + apply String.eqb_neq in E. rewrite <- (IH Hnd'). split.
      * intros [H|H]; [congruence | exact H].
      * auto.
Qed.

Lemma filter_cons_if {A} (f : A -> bool) x l :
  List.filter f (x :: l) = if f x then x :: List.filter f l else List.filter f l.
Proof. reflexivity. Qed.

Lemma countedFor_cons u tx txs :
  countedFor u (tx :: txs)
  = ((if opt_string_eqb (countedUser tx) u then 1 else 0) + countedFor u txs)%nat.
Proof.
  unfold countedFor. rewrite filter_cons_if.
  destruct (opt_string_eqb (countedUser tx) u); reflexivity.
Qed.

Lemma countOne_read o tx u :
  readCount (countOne o tx) u
  = ((if opt_string_eqb (countedUser tx) u then 1 else 0) + readCount o u)%nat.
Proof.
  unfold countOne, readCount, opt_string_eqb.
  destruct (countedUser tx) as [k|]; [|reflexivity].
  destruct (String.eqb k u) eqn:E.
  - apply String.eqb_eq in E. subst k. rewrite obj_get_set_eq. lia.
  - apply String.eqb_neq in E. rewrite obj_get_set_ne by exact E. reflexivity.
Qed.

Lemma countOne_positive o tx :
  (forall k c, obj_get o k = Some c -> 0 < c)%nat ->
  (forall k c, obj_get (countOne o tx) k = Some c -> 0 < c)%nat.
Proof.
  intros H k c. unfold countOne.
  destruct (countedUser tx) as [u|]; [|apply H].
  destruct (String.eqb_spec u k) as [->|Hne].
  - rewrite obj_get_set_eq. intros [= <-]. lia.
  - rewrite obj_get_set_ne by exact Hne. apply H.
Qed.

Lemma countOne_NoDup o tx : List.NoDup (map fst o) -> List.NoDup (map fst (countOne o tx)).
Proof.
  unfold countOne. destruct (countedUser tx); [apply obj_set_NoDup | auto].
Qed.

(** The dictionary built by the loop. *)
Lemma fold_countOne txs o :
  List.NoDup (map fst o) ->
  (forall k c, obj_get o k = Some c -> 0 < c)%nat ->
  let o' := fold_left countOne txs o in
  List.NoDup (map fst o') /\
  (forall k c, obj_get o' k = Some c -> 0 < c)%nat /\
  (forall u, readCount o' u = readCount o u + countedFor u txs)%nat.
Proof.
  revert o. induction txs as [|tx txs IH]; intros o Hnd Hpos; simpl.
  - repeat split; auto; intros u; unfold countedFor; simpl; lia.
  - destruct (IH (countOne o tx) (countOne_NoDup _ _ Hnd) (countOne_positive _ _ Hpos))
      as (H1 & H2 & H3).
    repeat split; auto.
    intros u. rewrite H3, countOne_read, countedFor_cons. lia.
Qed.

Lemma flagExcessive_In o s :
  In s (flagExcessive o) <->
  exists k c, In (k, c) o /\ (20 < c)%nat
              /\ s = mkSuspiciousUser k c "excessive_daily_transactions".
Proof.
  unfold flagExcessive. rewrite in_flat_map. split.
  - intros ([k c] & Hin & Hs). exists k, c.
    destruct (Nat.ltb_spec 20 c) as [Hlt|Hge]; simpl in Hs; [|contradiction].
    destruct Hs as [<-|[]]. auto.
  - intros (k & c & Hin & Hlt & ->). exists (k, c). split; [exact Hin|].
    apply Nat.ltb_lt in Hlt. rewrite Hlt. simpl. auto.
Qed.

Lemma flagExcessive_keys o u :
  In u (map su_userId (flagExcessive o)) -> In u (map fst o).
Proof.
  rewrite !in_map_iff. intros (s & <- & Hs).
  apply flagExcessive_In in Hs as (k & c & Hin & _ & ->).
  exists (k, c). auto.
Qed.

Lemma flagExcessive_NoDup o :
  List.NoDup (map fst o) -> List.NoDup (map su_userId (flagExcessive o)).
Proof.
  induction o as [|[k c] r IH]; simpl; intros Hnd; [constructor|].
  inversion Hnd as [|? ? Hnotin Hnd']; subst.
  rewrite map_app. destruct (Nat.ltb 20 c); simpl.
  - constructor; [|apply IH, Hnd'].
    intros Hin. apply Hnotin, flagExcessive_keys, Hin.
  - apply IH, Hnd'.
Qed.

(** What the job reports, once the records of the window are read. *)
Lemma fraudDetectionJob_report env db yesterday today :
  findError env = None ->
  let window := scanned db yesterday today in
  exists details evs,
    run (fraudDetectionJob env yesterday today) db
    = (Ok (JobReport (length window) (length details) details), db, evs) /\
    List.NoDup (map su_userId details) /\
    (forall s, In s details <->
               (20 < countedFor (su_userId s) window)%nat /\
               su_transactionCount s = countedFor (su_userId s) window /\
               su_reason s = "excessive_daily_transactions").
Proof.
  intros Hf window.
  unfold run, fraudDetectionJob, try_catch, bind, Transaction_find, emit, throw, ret.
  rewrite Hf. simpl. fold (scanned db yesterday today). fold window.
  destruct (fold_countOne window [] (List.NoDup_nil _)) as (Hnd & Hpos & Hread).
  { simpl. discriminate. }
  eexists _, _. split; [reflexivity|]. split; [apply flagExcessive_NoDup, Hnd|].
  intros s. rewrite flagExcessive_In. split.
  - intros (k & c & Hin & Hlt & ->). simpl.
    apply (obj_get_In _ _ _ Hnd) in Hin.
    specialize (Hread k). unfold readCount in Hread. rewrite Hin in Hread. simpl in Hread.
    subst c. auto.
  - intros (Hlt & Hc & Hr). destruct s as [k c r]. simpl in *. subst c r.
    exists k, (countedFor k window). repeat split; auto.
    apply (obj_get_In _ _ _ Hnd).
    specialize (Hread k). unfold readCount in Hread. simpl in Hread.
    destruct (obj_get (fold_left countOne window []) k) as [c|] eqn:E.
    + congruence.
    + lia.
Qed.

(** The record is counted for its source, and for its destination only when
    it has no source. *)
Lemma countedUser_cases tx :
  (exists u, Transaction.fromUserId tx = Some u /\ countedUser tx = Some u)
  \/ (Transaction.fromUserId tx = None /\ countedUser tx = Transaction.toUserId tx).
Proof.
  unfold countedUser. destruct (Transaction.fromUserId tx) as [u|]; eauto.
Qed.

Lemma countedFor_le_recordsOf u txs : (countedFor u txs <= recordsOf u txs)%nat.
Proof.
  unfold countedFor, recordsOf.
  induction txs as [|tx txs IH]; [reflexivity|].
  rewrite !filter_cons_if. unfold countedUser at 1.
  destruct (Transaction.fromUserId tx) as [f|]; simpl.
  - destruct (String.eqb f u); simpl; [lia|].
    destruct (opt_string_eqb (Transaction.toUserId tx) u); simpl; lia.
  - destruct (opt_string_eqb (Transaction.toUserId tx) u); simpl; lia.
Qed.

(** *** What one request does to one wallet *)

(** The entry a debit leaves passed the validator: it is not negative. *)
Lemma validate_subAt_inv w c i b a :
  find_ref (hasCurrency c) (Wallet.balances w) = Some (i, b) ->
  Wallet.validate (Wallet.with_balances (subAt i a (Wallet.balances w)) w) = true ->
  (0 <=? b_amount b - a)%float = true.
Proof.
  intros Hb Hv. apply Wallet_validate_iff in Hv. simpl in Hv.
  pose proof (find_ref_updateAt c _ i b (fun x => x - a)%float Hb) as Hnew.
  apply find_ref_lookup in Hnew as [Hi _].
  rewrite Forall_lookup in Hv. destruct (Hv i _ Hi) as [_ H]. exact H.
Qed.

(** A debit that was saved was covered: the balance was at least the amount. *)
Lemma saved_debit_covered w c i b a :
  find_ref (hasCurrency c) (Wallet.balances w) = Some (i, b) ->
  Wallet.validate (Wallet.with_balances (subAt i a (Wallet.balances w)) w) = true ->
  (b_amount b <? a)%float = false ->
  (a <=? balanceOf w c)%float = true.
Proof.
  intros Hb Hv Hlt. rewrite balanceOf_find_ref, Hb.
  apply sub_nonneg_leb; [apply (validate_subAt_inv w c i b a Hb Hv) | exact Hlt].
Qed.

(** Each wallet is either untouched, or saved with its balances credited or
    debited in the currency of the request, having passed the validators. *)
Lemma after_wallet db r u :
  wallets (after db r) !! u = wallets db !! u
  \/ exists w bs,
       wallets db !! u = Some w /\
       wallets (after db r) !! u
       = Some (Wallet.preSave false (now (r_env r)) (Wallet.with_balances bs w)) /\
       Wallet.validate (Wallet.with_balances bs w) = true /\
       In (currencyOf (r_body r)) validCurrencies /\
       (0 <? Body.amount (r_body r))%float = true /\
       (bs = credit (currencyOf (r_body r)) (Body.amount (r_body r)) (Wallet.balances w)
        \/ exists i b,
             find_ref (hasCurrency (currencyOf (r_body r))) (Wallet.balances w) = Some (i, b)
             /\ (b_amount b <? Body.amount (r_body r))%float = false
             /\ bs = subAt i (Body.amount (r_body r)) (Wallet.balances w)).
Proof.
  destruct (serve_outcome r db) as (resp & evs & fc & evs0 & _ & _ & [[-> _] | [Hcommit _]]);
    [left; reflexivity|].
  destruct Hcommit as (Hval & _ & _ & _ & Hop).
  destruct (validateTransaction_passes _ Hval) as (Hamt & Hcur & _).
  apply joi_amount_positive in Hamt.
  destruct (r_op r).
  - destruct Hop as (w & Hw & Hv & -> & _).
    rewrite lookup_insert. case_decide; [subst u|left; reflexivity].
    right. eexists w, _.
    split; [exact Hw|]. split; [reflexivity|]. split; [exact Hv|].
    split; [exact Hcur|]. split; [exact Hamt|]. left. reflexivity.
  - destruct Hop as (w & i & b & Hw & Hv & Hb & Hle & -> & _).
    rewrite lookup_insert. case_decide; [subst u|left; reflexivity].
    right. eexists w, _.
    split; [exact Hw|]. split; [reflexivity|]. split; [exact Hv|].
    split; [exact Hcur|]. split; [exact Hamt|]. right. eauto.
  - destruct Hop as (s & receiver & sw & rw & i & b & _ & _ & _ & Hsw & Hrw & Hvs & Hvr & Hb & Hle
                     & -> & _).
    rewrite lookup_insert. case_decide; [subst u|].
    { right. eexists rw, _.
      split; [exact Hrw|]. split; [reflexivity|]. split; [exact Hvr|].
      split; [exact Hcur|]. split; [exact Hamt|]. left. reflexivity. }
    rewrite lookup_insert. case_decide; [subst u|left; reflexivity].
    right. eexists sw, _.
    split; [exact Hsw|]. split; [reflexivity|]. split; [exact Hvs|].
    split; [exact Hcur|]. split; [exact Hamt|]. right. eauto.
Qed.

(** * The claims *)

(** ** Fraud rules *)

Lemma run_checkFraudRules_evaluate env db userId kind amount :
  countError env = None -> findError env = None ->
  exists evs,
    run (checkFraudRules env userId kind amount) db
    = (Ok (evaluate (recentCount db userId (now env))
                    (recentWithdrawals db userId (now env)) kind amount), db, evs).
Proof.
  intros Hc Hf. unfold run.
  destruct (checkFraudRules_evaluate env userId kind amount (mkSt db None []) Hc Hf)
    as (evs & ->).
  eexists. reflexivity.
Qed.

(** What the two queries select, in words. *)
Lemma recentTransactionsFilter_spec userId oneHourAgo tx :
  recentTransactionsFilter userId oneHourAgo tx = true <->
  participant userId tx /\ (oneHourAgo <= Transaction.createdAt tx)%Z
  /\ Transaction.isDeleted tx = false.
Proof.
  unfold recentTransactionsFilter, participant, opt_string_eqb.
  rewrite !andb_true_iff, orb_true_iff, negb_true_iff, Z.leb_le.
  destruct (Transaction.fromUserId tx) as [f|], (Transaction.toUserId tx) as [t|];
    rewrite ?String.eqb_eq; intuition congruence.
Qed.

Lemma recentWithdrawalsFilter_spec userId oneHourAgo tx :
  recentWithdrawalsFilter userId oneHourAgo tx = true <->
  Transaction.fromUserId tx = Some userId /\ Transaction.type tx = withdrawal
  /\ (oneHourAgo <= Transaction.createdAt tx)%Z /\ Transaction.isDeleted tx = false.
Proof.
  unfold recentWithdrawalsFilter, opt_string_eqb.
  rewrite !andb_true_iff, negb_true_iff, Z.leb_le.
  destruct (Transaction.fromUserId tx) as [f|], (Transaction.type tx);
    simpl; rewrite ?String.eqb_eq; intuition congruence.
Qed.

(** C4. With a readable history, [checkFraudRules] returns the verdict of the
    first rule that matches, in the order: (1) at least 5 non-deleted records of
    the last hour with the user as source or destination: [high_frequency];
    (2) otherwise an amount of at least 10,000: [large_amount] (10,000 itself is
    flagged, 9,999.99 is not); (3) otherwise, for a withdrawal, at least 3
    withdrawals of the last hour whose total is at least 5,000:
    [suspicious_pattern]; otherwise not flagged with no reason. The total is the
    one the code computes: the amounts added one after the other, as doubles,
    in the order of the query, starting from 0. The result carries one reason
    exactly when it is flagged. *)
Theorem fraud_rules_first_match_wins env db userId kind amount :
  countError env = None -> findError env = None ->
  let n := recentCount db userId (now env) in
  let ws := recentWithdrawals db userId (now env) in
  let total := fold_left (fun sum tx => (sum + Transaction.amount tx)%float) ws 0%float in
  exists r evs,
    run (checkFraudRules env userId kind amount) db = (Ok r, db, evs) /\
    ((5 <= n)%nat -> r = flagged high_frequency) /\
    ((n < 5)%nat -> (10000 <=? amount)%float = true -> r = flagged large_amount) /\
    ((n < 5)%nat -> (10000 <=? amount)%float = false -> kind = withdrawal ->
       (3 <= length ws)%nat -> (5000 <=? total)%float = true ->
       r = flagged suspicious_pattern) /\
    ((n < 5)%nat -> (10000 <=? amount)%float = false ->
       kind <> withdrawal \/ (length ws < 3)%nat \/ (5000 <=? total)%float = false ->
       r = notFlagged) /\
    ((n < 5)%nat -> amount = 10000%float -> r = flagged large_amount) /\
    ((n < 5)%nat -> kind = deposit -> amount = 9999.99%float -> r = notFlagged) /\
    ((exists reason, r = flagged reason) \/ r = notFlagged) /\
    n = length (List.filter
                  (fun tx => bool_decide
                     (participant userId tx
                      /\ (now env - 3600000 <= Transaction.createdAt tx)%Z
                      /\ Transaction.isDeleted tx = false))
                  (transactions db)) /\
    ws = List.filter
           (fun tx => bool_decide
              (Transaction.fromUserId tx = Some userId
               /\ Transaction.type tx = withdrawal
               /\ (now env - 3600000 <= Transaction.createdAt tx)%Z
               /\ Transaction.isDeleted tx = false))
           (transactions db).
Proof.
  intros Hc Hf n ws total.
  destruct (run_checkFraudRules_evaluate env db userId kind amount Hc Hf) as (evs & Hrun).
  eexists _, evs. split; [exact Hrun|].
  assert (Hn : n = length (List.filter
                  (fun tx => bool_decide
                     (participant userId tx
                      /\ (now env - 3600000 <= Transaction.createdAt tx)%Z
                      /\ Transaction.isDeleted tx = false))
                  (transactions db))).
  { unfold n, recentCount. f_equal. apply List.filter_ext. intros tx.
    apply eq_true_iff_eq. rewrite bool_decide_eq_true.
    apply recentTransactionsFilter_spec. }
  assert (Hws : ws = List.filter
           (fun tx => bool_decide
              (Transaction.fromUserId tx = Some userId
               /\ Transaction.type tx = withdrawal
               /\ (now env - 3600000 <= Transaction.createdAt tx)%Z
               /\ Transaction.isDeleted tx = false))
           (transactions db)).
  { unfold ws, recentWithdrawals. apply List.filter_ext. intros tx.
    apply eq_true_iff_eq. rewrite bool_decide_eq_true.
    apply recentWithdrawalsFilter_spec. }
  cut (let r := evaluate n ws kind amount in
       ((5 <= n)%nat -> r = flagged high_frequency) /\
       ((n < 5)%nat -> (10000 <=? amount)%float = true -> r = flagged large_amount) /\
       ((n < 5)%nat -> (10000 <=? amount)%float = false -> kind = withdrawal ->
          (3 <= length ws)%nat -> (5000 <=? total)%float = true ->
          r = flagged suspicious_pattern) /\
       ((n < 5)%nat -> (10000 <=? amount)%float = false ->
          kind <> withdrawal \/ (length ws < 3)%nat \/ (5000 <=? total)%float = false ->
          r = notFlagged) /\
       ((n < 5)%nat -> amount = 10000%float -> r = flagged large_amount) /\
       ((n < 5)%nat -> kind = deposit -> amount = 9999.99%float -> r = notFlagged) /\
       ((exists reason, r = flagged reason) \/ r = notFlagged)).
  { cbv zeta. fold n ws. intros (H1 & H2 & H3 & H4 & H5 & H6 & H7).
    split; [exact H1|]. split; [exact H2|]. split; [exact H3|]. split; [exact H4|].
    split; [exact H5|]. split; [exact H6|]. split; [exact H7|].
    split; [exact Hn | exact Hws]. }
  clear Hn Hws Hrun. cbv zeta. unfold evaluate. change (totalAmount ws) with total.
  assert (Hten : (10000 <=? 10000)%float = true) by reflexivity.
  assert (Hless : (10000 <=? 9999.99)%float = false) by reflexivity.
  destruct (Nat.leb_spec 5 n) as [Hn|Hn].
  { repeat split; intros; try lia; eauto. }
  destruct (10000 <=? amount)%float eqn:Ha.
  { repeat split; intros; subst; try lia; try congruence; eauto. }
  destruct (TxType_eqb kind withdrawal) eqn:Hk; simpl.
  - assert (kind = withdrawal) by (destruct kind; simpl in Hk; congruence).
    destruct (Nat.leb_spec 3 (length ws)) as [Hl|Hl]; simpl.
    + destruct (5000 <=? total)%float eqn:Ht;
        repeat split; intros; subst; try lia; try congruence; eauto;
        intuition (try congruence; try lia).
    + repeat split; intros; subst; try lia; try congruence; eauto.
  - assert (kind <> withdrawal) by (intros ->; discriminate).
    repeat split; intros; subst; try lia; try congruence; eauto.
Qed.

Lemma fraud_rules_first_match_wins_witness :
  countError (quiet noon) = None /\ findError (quiet noon) = None /\
  exists r evs,
    run (checkFraudRules (quiet noon) alice withdrawal 1) threeWithdrawals
    = (Ok r, threeWithdrawals, evs) /\ r = flagged suspicious_pattern.
Proof.
  split; [reflexivity|]. split; [reflexivity|].
  destruct (fraud_rules_first_match_wins (quiet noon) threeWithdrawals alice withdrawal 1
              eq_refl eq_refl) as (r & evs & Hrun & _ & _ & Hsp & _).
  exists r, evs. split; [exact Hrun|].
  apply Hsp; vm_compute; try reflexivity; try lia; intros; discriminate.
Defined.

(** C1 (as amended). For a user with exactly three non-deleted withdrawals in
    the last hour whose amounts, added as the code adds them (as doubles, one
    after the other from 0), reach 5,000, fewer than five records in that hour
    in all, and a readable history, the evaluation of a fourth withdrawal of any
    amount that is not 10,000 or more returns [isFlagged = true] with reason
    [suspicious_pattern]. *)
Theorem fourth_withdrawal_suspicious_pattern env db userId amount :
  countError env = None -> findError env = None ->
  length (recentWithdrawals db userId (now env)) = 3%nat ->
  (5000 <=? fold_left (fun sum tx => (sum + Transaction.amount tx)%float)
                      (recentWithdrawals db userId (now env)) 0%float)%float = true ->
  (recentCount db userId (now env) < 5)%nat ->
  (10000 <=? amount)%float = false ->
  exists evs,
    run (checkFraudRules env userId withdrawal amount) db
    = (Ok (mkFraudCheck true (Some suspicious_pattern)), db, evs).
Proof.
  intros Hc Hf Hlen Htot Hn Ha.
  destruct (run_checkFraudRules_evaluate env db userId withdrawal amount Hc Hf) as (evs & Hrun).
  exists evs. rewrite Hrun. unfold evaluate. rewrite Hlen.
  destruct (Nat.leb_spec 5 (recentCount db userId (now env))) as [H|_]; [lia|].
  rewrite Ha. unfold totalAmount. rewrite Htot. reflexivity.
Qed.

Lemma fourth_withdrawal_suspicious_pattern_witness :
  exists evs,
    run (checkFraudRules (quiet noon) alice withdrawal 250) threeWithdrawals
    = (Ok (mkFraudCheck true (Some suspicious_pattern)), threeWithdrawals, evs).
Proof.
  apply (fourth_withdrawal_suspicious_pattern (quiet noon) threeWithdrawals alice 250);
    vm_compute; try reflexivity; try lia; intros; discriminate.
Defined.

(** C1 fails as stated: after three withdrawals totalling 5,000 in the hour,
    a fourth withdrawal of 10,000 is reported as [large_amount]. *)
Lemma fourth_withdrawal_of_10000_is_large_amount :
  length (recentWithdrawals threeWithdrawals alice noon) = 3%nat /\
  totalAmount (recentWithdrawals threeWithdrawals alice noon) = 5000%float /\
  (0 <? 10000)%float = true /\
  fst (fst (run (checkFraudRules (quiet noon) alice withdrawal 10000) threeWithdrawals))
  = Ok (mkFraudCheck true (Some large_amount)) /\
  fst (fst (run (checkFraudRules (quiet noon) alice withdrawal 10000) threeWithdrawals))
  <> Ok (mkFraudCheck true (Some suspicious_pattern)).
Proof.
  split; [reflexivity|]. split; [reflexivity|]. split; [reflexivity|].
  split; [reflexivity|]. vm_compute. discriminate.
Qed.

(** Likewise when the hour holds two more records of the user: rule 1 answers. *)
Example fourth_withdrawal_after_five_records_is_high_frequency :
  length (recentWithdrawals threeWithdrawalsTwoDeposits alice noon) = 3%nat /\
  fst (fst (run (checkFraudRules (quiet noon) alice withdrawal 250)
                threeWithdrawalsTwoDeposits))
  = Ok (mkFraudCheck true (Some high_frequency)).
Proof. split; reflexivity. Qed.

(** And the total is the one of the doubles: three withdrawals of 4728.49,
    145.44 and 126.07, 5,000 in decimal, add up to 4999.999999999999, and a
    fourth withdrawal is not flagged. *)
Example fourth_withdrawal_after_decimal_5000_not_flagged :
  length (recentWithdrawals decimalWithdrawals alice noon) = 3%nat /\
  totalAmount (recentWithdrawals decimalWithdrawals alice noon) = 4999.999999999999%float /\
  (5000 <=? totalAmount (recentWithdrawals decimalWithdrawals alice noon))%float = false /\
  fst (fst (run (checkFraudRules (quiet noon) alice withdrawal 250) decimalWithdrawals))
  = Ok notFlagged.
Proof. repeat split; reflexivity. Qed.

(** A failed evaluation is logged and answers "not flagged". *)
Lemma checkFraudRules_fails_open env userId kind amount db :
  evaluationFails env db userId kind amount ->
  exists e evs,
    run (checkFraudRules env userId kind amount) db
    = (Ok notFlagged, db, LoggedError e :: evs).
Proof.
  unfold run. intros [[e Hc] | (Hc & [e Hf] & -> & Hn & Ha)].
  - exists e, [QueriedTransactions].
    rewrite (checkFraudRules_count_rejects env userId kind amount _ e Hc). reflexivity.
  - exists e, [QueriedTransactions; QueriedTransactions].
    rewrite (checkFraudRules_find_rejects env userId amount (mkSt db None []) e Hc Hf Hn Ha).
    reflexivity.
Qed.

(** A deposit whose verdict carries no reason is rolled back at the save of
    its record. *)
Lemma POST_deposit_unflagged env user body db w fc evs0 :
  run (checkFraudRules env user deposit (Body.amount body)) db = (Ok fc, db, evs0) ->
  flagReason fc = None ->
  validateTransaction body = None -> (0.01 <=? Body.amount body)%float = true ->
  wallets db !! user = Some w -> Wallet.validate w = true ->
  run (POST_deposit env user body) db
  = (Ok (Status 500 (ExnMessage (ValidationError "flagReason"))), db,
     Aborted :: SavedWallet user :: QueriedWallet user :: evs0).
Proof.
  intros Hrun Hnone Hval Hmin Hw Hvw.
  destruct (accepted_amount body Hval) as (Hpos & Hnn & Hmax & Hcur & Hdesc).
  apply run_in_session in Hrun.
  assert (Hv : Wallet.validate
                 (Wallet.with_balances
                    (credit (currencyOf body) (Body.amount body) (Wallet.balances w)) w) = true)
    by (apply validate_credit; assumption).
  unfold POST_deposit. rewrite (route_accepted _ _ _ _ Hval).
  unfold_handler. simpl. rewrite Hrun. simpl. rewrite Hw. simpl. rewrite Hv. simpl.
  unfold Transaction.validate, new_Transaction. simpl. rewrite Hmin. simpl.
  apply String.eqb_neq in Hcur. rewrite Hcur.
  assert (Hlen : match Body.description body with
                 | Some s => Nat.ltb 500 (String.length s)
                 | None => false
                 end = false).
  { destruct (Body.description body) as [s|]; [|reflexivity].
    unfold joi_description in Hdesc. apply andb_true_iff in Hdesc as [_ Hlen].
    apply Nat.leb_le in Hlen.
    destruct (Nat.ltb_spec 500 (String.length s)); [lia | reflexivity]. }
  rewrite Hlen, Hnone. reflexivity.
Qed.

(** C5 (a defect of the code). The evaluation itself fails open: it never
    throws and never writes, and when a query it issues is rejected it logs
    the error and returns [isFlagged = false] with [flagReason = null]. But the
    request does not go on to commit: the handler stores that [null] in the new
    record, the record fails the [enum] of [flagReason] at
    [transaction.save], and the request is rolled back. So no deposit,
    withdrawal or transfer whose evaluation failed is answered with success or
    changes the store, and a deposit that is valid in every other respect is
    answered 500 after its wallet was saved inside the session. *)
Theorem failed_evaluation_fails_request env db user :
  (forall kind amount,
     exists r evs, run (checkFraudRules env user kind amount) db = (Ok r, db, evs)) /\
  (forall kind amount,
     evaluationFails env db user kind amount ->
     exists e evs,
       run (checkFraudRules env user kind amount) db
       = (Ok (mkFraudCheck false None), db, LoggedError e :: evs)) /\
  (forall op body,
     evaluationFails env db user (kindOf op) (Body.amount body) ->
     exists resp evs,
       run (serve (mkRequest env op user body)) db = (Ok resp, db, evs) /\ ~ isJson resp) /\
  (forall body w,
     evaluationFails env db user deposit (Body.amount body) ->
     validateTransaction body = None -> (0.01 <=? Body.amount body)%float = true ->
     wallets db !! user = Some w -> Wallet.validate w = true ->
     exists evs,
       run (POST_deposit env user body) db
       = (Ok (Status 500 (ExnMessage (ValidationError "flagReason"))), db,
          Aborted :: SavedWallet user :: QueriedWallet user :: evs)).
Proof.
  split; [|split; [|split]].
  - intros kind amount.
    destruct (checkFraudRules_in_session env user kind amount db) as (r & evs & H & _). eauto.
  - intros kind amount Hfail. apply checkFraudRules_fails_open, Hfail.
  - intros op body Hfail.
    destruct (checkFraudRules_fails_open _ _ _ _ _ Hfail) as (e & evs & Hrun).
    apply (unflagged_changes_nothing (mkRequest env op user body) db _ notFlagged Hrun).
    reflexivity.
  - intros body w Hfail Hval Hmin Hw Hvw.
    destruct (checkFraudRules_fails_open _ _ _ _ _ Hfail) as (e & evs & Hrun).
    eexists.
    apply (POST_deposit_unflagged env user body db w notFlagged _ Hrun eq_refl Hval Hmin Hw Hvw).
Qed.

Lemma failed_evaluation_fails_request_witness :
  evaluationFails (unreachable noon) smallBank alice deposit 50 /\
  exists evs,
    run (POST_deposit (unreachable noon) alice (usd 50)) smallBank
    = (Ok (Status 500 (ExnMessage (ValidationError "flagReason"))), smallBank,
       Aborted :: SavedWallet alice :: QueriedWallet alice :: evs).
Proof.
  assert (Hfail : evaluationFails (unreachable noon) smallBank alice deposit 50).
  { left. eexists. reflexivity. }
  split; [exact Hfail|].
  destruct (failed_evaluation_fails_request (unreachable noon) smallBank alice)
    as (_ & _ & _ & Hdeposit).
  apply (Hdeposit (usd 50) (usdWallet 100) Hfail); reflexivity.
Defined.

(** The failing input, evaluated: the evaluation answers "not flagged"; the
    deposit of 50 is answered 500 and alice still holds 100. *)
Example deposit_with_unreachable_history :
  run (checkFraudRules (unreachable noon) alice deposit 50) smallBank
  = (Ok notFlagged, smallBank,
     [LoggedError (MongoError "unreachable"); QueriedTransactions]) /\
  run (POST_deposit (unreachable noon) alice (usd 50)) smallBank
  = (Ok (Status 500 (ExnMessage (ValidationError "flagReason"))), smallBank,
     [Aborted; SavedWallet alice; QueriedWallet alice;
      LoggedError (MongoError "unreachable"); QueriedTransactions]) /\
  balanceIn (after smallBank (mkRequest (unreachable noon) Deposit alice (usd 50))) alice "USD"
  = 100%float.
Proof. repeat split; reflexivity. Qed.

(** ** Withdrawal *)

Lemma withdrawHandler_rejects env user body db w :
  wallets db !! user = Some w ->
  List.find (hasCurrency (currencyOf body)) (Wallet.balances w) = None
  \/ (balanceOf w (currencyOf body) <? Body.amount body)%float = true ->
  exists evs,
    run (withdrawHandler env user body) db
    = (Ok (Status 400 (Message "Insufficient funds")), db, evs).
Proof.
  intros Hw Hlow.
  destruct (checkFraudRules_in_session env user withdrawal (Body.amount body) db)
    as (fc & evs & _ & Hfc).
  unfold_handler. simpl. rewrite Hfc. simpl. rewrite Hw. simpl.
  rewrite balanceOf_find_ref, find_ref_find in Hlow.
  destruct (find_ref (hasCurrency (currencyOf body)) (Wallet.balances w)) as [[i b]|]; simpl.
  - destruct Hlow as [Hnone|Hlt]; [discriminate|].
    rewrite Hlt. simpl. eexists. reflexivity.
  - eexists. reflexivity.
Qed.

(** C3. A withdrawal whose amount exceeds the balance of the user's wallet in
    the requested currency, or whose currency has no entry in that wallet, is
    answered with status 400 "Insufficient funds"; the store is left as it was:
    no wallet is changed and no transaction record is added, whatever its
    status. The same holds for the route, where a body refused by the
    validation is answered before the handler runs. *)
Theorem withdraw_insufficient_funds env user body db w :
  wallets db !! user = Some w ->
  List.find (hasCurrency (currencyOf body)) (Wallet.balances w) = None
  \/ (balanceOf w (currencyOf body) <? Body.amount body)%float = true ->
  (exists evs,
     run (withdrawHandler env user body) db
     = (Ok (Status 400 (Message "Insufficient funds")), db, evs)) /\
  (validateTransaction body = None ->
   exists evs,
     run (POST_withdraw env user body) db
     = (Ok (Status 400 (Message "Insufficient funds")), db, evs)) /\
  (exists error evs,
     run (POST_withdraw env user body) db = (Ok (Status 400 error), db, evs)) /\
  wallets (after db (mkRequest env Withdraw user body)) = wallets db /\
  transactions (after db (mkRequest env Withdraw user body)) = transactions db.
Proof.
  intros Hw Hlow.
  destruct (withdrawHandler_rejects env user body db w Hw Hlow) as (evs & Hrun).
  assert (Hroute : exists error evs',
             run (POST_withdraw env user body) db = (Ok (Status 400 error), db, evs')).
  { unfold POST_withdraw, route. destruct (validateTransaction body) as [key|].
    - eexists _, _. reflexivity.
    - eexists _, _. exact Hrun. }
  split; [eauto|]. split.
  { intros Hval. unfold POST_withdraw. rewrite (route_accepted _ _ _ _ Hval). eauto. }
  split; [exact Hroute|].
  destruct Hroute as (error & evs' & Hroute).
  unfold after, serve. simpl. rewrite Hroute. auto.
Qed.

Lemma withdraw_insufficient_funds_witness :
  exists evs,
    run (POST_withdraw (quiet noon) bob (usd 6)) smallBank
    = (Ok (Status 400 (Message "Insufficient funds")), smallBank, evs).
Proof.
  destruct (withdraw_insufficient_funds (quiet noon) bob (usd 6) smallBank (usdWallet 5))
    as (_ & Hroute & _).
  - reflexivity.
  - right. reflexivity.
  - apply Hroute. reflexivity.
Defined.

(** ** Transfer *)

Lemma transferHandler_self env user body db :
  Body.toUserId body = Some user ->
  run (transferHandler env user body) db
  = (Ok (Status 400 (Message "Cannot transfer to yourself")), db, []).
Proof.
  intros Hto. unfold_handler. simpl. rewrite Hto. simpl.
  rewrite String.eqb_refl. reflexivity.
Qed.

(** C7 (a defect of the code). The handler compares [toUserId] with the
    user's id as strings, and the wallet is then looked up by the [ObjectId]
    the string is cast to. A [toUserId] that spells the user's own id
    differently, in upper case for one, passes the comparison and finds the
    user's own wallet: a flagged transfer to it that is valid and covered
    commits. Its record has the user as source and as destination; the wallet
    is saved twice, debited and then credited, each time from the balance read
    before, so the credit stands: the store holds the balance plus the amount
    while the answer reports the balance minus the amount. *)
Theorem self_transfer_in_other_spelling_commits env user body db s w b :
  validateTransaction body = None -> (0.01 <=? Body.amount body)%float = true ->
  Body.toUserId body = Some s -> s <> user -> castObjectId s = Some user ->
  wallets db !! user = Some w -> Wallet.validate w = true ->
  List.find (hasCurrency (currencyOf body)) (Wallet.balances w) = Some b ->
  (b_amount b <? Body.amount body)%float = false ->
  flagsRequest env db user transfer (Body.amount body) ->
  exists view db' evs tx,
    run (POST_transfer env user body) db
    = (Ok (Json "Transfer successful" view (b_amount b - Body.amount body)%float), db', evs) /\
    In Committed evs /\
    balanceIn db' user (currencyOf body) = (b_amount b + Body.amount body)%float /\
    transactions db' = transactions db ++ [tx] /\
    Transaction.type tx = transfer /\
    Transaction.fromUserId tx = Some user /\ Transaction.toUserId tx = Some user.
Proof.
  intros Hval Hmin Hto Hne Hcast Hw Hvw Hb Hlt (reason & evs0 & Hrun).
  destruct (find_find_ref _ _ _ Hb) as [i Hi].
  eexists _, _, _, _. split.
  { apply (POST_transfer_commits env user body db s user w w i b _ evs0 Hrun); try assumption.
    discriminate. }
  split; [left; reflexivity|].
  split.
  { unfold balanceIn. simpl. rewrite lookup_insert_eq, balanceOf_preSave, balanceOf_credit, Hb.
    reflexivity. }
  split; [reflexivity|].
  unfold recordOf, recipientOf. simpl. rewrite Hto, Hcast. auto.
Qed.

Lemma self_transfer_in_other_spelling_commits_witness :
  balanceIn busyBank alice "USD" = 100%float /\
  exists view db' evs tx,
    run (POST_transfer (quiet noon) alice (usdTo 30 aliceUpper)) busyBank
    = (Ok (Json "Transfer successful" view (100 - 30)%float), db', evs) /\
    In Committed evs /\
    balanceIn db' alice "USD" = (100 + 30)%float /\
    transactions db' = transactions busyBank ++ [tx] /\
    Transaction.type tx = transfer /\
    Transaction.fromUserId tx = Some alice /\ Transaction.toUserId tx = Some alice.
Proof.
  split; [reflexivity|].
  apply (self_transfer_in_other_spelling_commits (quiet noon) alice (usdTo 30 aliceUpper)
           busyBank aliceUpper (usdWallet 100) (mkBalance "USD" 100));
    try reflexivity; try discriminate.
  exists high_frequency. eexists. reflexivity.
Defined.

(** The failing input, evaluated: alice, holding 100 USD, transfers 30 to her
    own id in upper case; the answer says 70, the store says 130. *)
Example alice_transfers_to_herself :
  run (POST_transfer (quiet noon) alice (usdTo 30 aliceUpper)) busyBank
  = (Ok (Json "Transfer successful" (mkTxView 30 "USD" (Some aliceUpper) completed true) 70),
     after busyBank (mkRequest (quiet noon) Transfer alice (usdTo 30 aliceUpper)),
     [Committed; SavedTransaction; SavedWallet alice; SavedWallet alice;
      QueriedWallet alice; QueriedWallet alice;
      AlertEmail alice "High frequency transactions detected"; QueriedTransactions]) /\
  balanceIn (after busyBank (mkRequest (quiet noon) Transfer alice (usdTo 30 aliceUpper)))
            alice "USD" = 130%float /\
  transactions (after busyBank (mkRequest (quiet noon) Transfer alice (usdTo 30 aliceUpper)))
  = transactions busyBank
    ++ [Transaction.mk (Some alice) (Some alice) transfer 30 "USD" None completed true
                       (Some high_frequency) false None noon noon].
Proof. repeat split; reflexivity. Qed.

Lemma balanceOf_credit_add w c a :
  (0.01 <=? a)%float = true ->
  balanceOf (Wallet.with_balances (credit c a (Wallet.balances w)) w) c
  = (balanceOf w c + a)%float.
Proof.
  intros H. rewrite balanceOf_credit. unfold balanceOf.
  destruct (List.find (hasCurrency c) (Wallet.balances w));
    [reflexivity | symmetry; apply add_zero_l, H].
Qed.

(** C6 (as amended). Every transfer that commits between two distinct users,
    the recipient being the user whose [ObjectId] the [toUserId] is cast to,
    finds both wallets and a source that held at least the amount. The source's
    balance in the currency becomes the double [before - amount], the
    destination's the double [before + amount], an absent entry counting as
    zero: each is the nearest double, not always the exact difference or sum.
    The answer reports the source's new balance, and every other wallet is
    untouched. *)
Theorem transfer_conserves_funds env user body db s receiver message view newBalance db' evs :
  Body.toUserId body = Some s -> castObjectId s = Some receiver -> receiver <> user ->
  run (transferHandler env user body) db = (Ok (Json message view newBalance), db', evs) ->
  let amount := Body.amount body in
  let currency := currencyOf body in
  (exists sw rw, wallets db !! user = Some sw /\ wallets db !! receiver = Some rw) /\
  (exists sw' rw', wallets db' !! user = Some sw' /\ wallets db' !! receiver = Some rw') /\
  (amount <=? balanceIn db user currency)%float = true /\
  balanceIn db' user currency = (balanceIn db user currency - amount)%float /\
  balanceIn db' receiver currency = (balanceIn db receiver currency + amount)%float /\
  newBalance = balanceIn db' user currency /\
  (forall u, u <> user -> u <> receiver -> wallets db' !! u = wallets db !! u).
Proof.
  intros Hto Hcast Hne Hrun amount currency.
  destruct (checkFraudRules_in_session env user transfer (Body.amount body) db)
    as (fc & evs0 & _ & Hfc).
  destruct (handler_cases (mkRequest env Transfer user body) db fc evs0 Hfc)
    as (resp & db1 & evs1 & Hrun1 & Hcase).
  simpl in Hrun1. rewrite Hrun in Hrun1. injection Hrun1 as <- <- <-.
  destruct Hcase as [[_ Hno] | [Happ _]]; [destruct Hno; exact I|].
  destruct Happ as (Hmin & _ & _ & Hop). simpl in Hmin, Hop.
  destruct Hop as (s0 & receiver0 & sw & rw & i & b & Hto0 & _ & Hcast0 & Hsw & Hrw & Hvs & _
                   & Hb & Hlt & Hws & Hresp).
  assert (s0 = s) by congruence. subst s0.
  assert (receiver0 = receiver) by congruence. subst receiver0.
  fold amount currency in Hmin, Hvs, Hb, Hlt, Hws, Hresp.
  assert (Hsw' : wallets db' !! user
                 = Some (Wallet.preSave false (now env)
                           (Wallet.with_balances (subAt i amount (Wallet.balances sw)) sw))).
  { rewrite Hws, lookup_insert_ne by exact Hne. apply lookup_insert_eq. }
  assert (Hrw' : wallets db' !! receiver
                 = Some (Wallet.preSave false (now env)
                           (Wallet.with_balances
                              (credit currency amount (Wallet.balances rw)) rw))).
  { rewrite Hws. apply lookup_insert_eq. }
  assert (Hnew : balanceIn db' user currency = (b_amount b - amount)%float).
  { unfold balanceIn. rewrite Hsw', balanceOf_preSave. apply (balanceOf_debit sw _ _ i b Hb). }
  assert (Hold : balanceIn db user currency = b_amount b).
  { unfold balanceIn. rewrite Hsw, balanceOf_find_ref, Hb. reflexivity. }
  split; [eauto|]. split; [eauto|].
  split.
  { unfold balanceIn. rewrite Hsw. apply (saved_debit_covered sw _ i b _ Hb Hvs Hlt). }
  split; [rewrite Hnew, Hold; reflexivity|].
  split.
  { unfold balanceIn. rewrite Hrw', Hrw, balanceOf_preSave.
    apply balanceOf_credit_add, Hmin. }
  split; [rewrite Hnew; congruence|].
  intros u Hu Hr. rewrite Hws, !lookup_insert_ne by congruence. reflexivity.
Qed.

Lemma transfer_conserves_funds_witness :
  balanceIn (after busyBank (mkRequest (quiet noon) Transfer alice (usdTo 30 bob))) alice "USD"
  = (100 - 30)%float /\
  balanceIn (after busyBank (mkRequest (quiet noon) Transfer alice (usdTo 30 bob))) bob "USD"
  = (5 + 30)%float.
Proof.
  assert (Hrun : run (transferHandler (quiet noon) alice (usdTo 30 bob)) busyBank
                 = (Ok (Json "Transfer successful"
                          (mkTxView 30 "USD" (Some bob) completed true) 70),
                    after busyBank (mkRequest (quiet noon) Transfer alice (usdTo 30 bob)),
                    [Committed; SavedTransaction; SavedWallet bob; SavedWallet alice;
                     QueriedWallet bob; QueriedWallet alice;
                     AlertEmail alice "High frequency transactions detected";
                     QueriedTransactions])) by reflexivity.
  assert (Hne : bob <> alice) by discriminate.
  destruct (transfer_conserves_funds (quiet noon) alice (usdTo 30 bob) busyBank bob bob
              _ _ _ _ _ eq_refl eq_refl Hne Hrun)
    as (_ & _ & _ & Hsource & Hdest & _).
  split; [exact Hsource | exact Hdest].
Defined.

(** C6 fails as stated: alice, holding 0.3 USD, sends 0.1 to bob, who holds
    0.7. The transfer commits. bob's balance becomes 0.7999999999999999, which
    is not 0.7 plus the amount, and the two balances, which summed to 1, now
    sum to 0.9999999999999999, in doubles as well as exactly. *)
Lemma transfer_of_a_tenth_changes_the_sum :
  (0.1 <=? balanceIn centsBank alice "USD")%float = true /\
  (exists newBalance evs,
     run (serve aTenthToBob) centsBank
     = (Ok (Json "Transfer successful" (mkTxView 0.1 "USD" (Some bob) completed true)
              newBalance),
        after centsBank aTenthToBob, evs) /\
     In Committed evs) /\
  balanceIn centsBank alice "USD" = 0.3%float /\
  balanceIn centsBank bob "USD" = 0.7%float /\
  balanceIn (after centsBank aTenthToBob) alice "USD" = 0.19999999999999998%float /\
  balanceIn (after centsBank aTenthToBob) bob "USD" = 0.7999999999999999%float /\
  ~ (valueOf (balanceIn (after centsBank aTenthToBob) bob "USD")
     == valueOf (balanceIn centsBank bob "USD") + valueOf 0.1)%Q /\
  (balanceIn centsBank alice "USD" + balanceIn centsBank bob "USD")%float = 1%float /\
  (balanceIn (after centsBank aTenthToBob) alice "USD"
   + balanceIn (after centsBank aTenthToBob) bob "USD")%float = 0.9999999999999999%float /\
  ~ (valueOf (balanceIn (after centsBank aTenthToBob) alice "USD")
     + valueOf (balanceIn (after centsBank aTenthToBob) bob "USD")
     == valueOf (balanceIn centsBank alice "USD") + valueOf (balanceIn centsBank bob "USD"))%Q.
Proof.
  split; [reflexivity|].
  split; [eexists _, _; split; [reflexivity | left; reflexivity]|].
  repeat (split; [reflexivity|]).
  split; [intros H; apply Qeq_bool_iff in H; vm_compute in H; discriminate|].
  repeat (split; [reflexivity|]).
  intros H. apply Qeq_bool_iff in H. vm_compute in H. discriminate.
Qed.

(** C10. The recipient's wallet is looked up by [userId] alone. A valid,
    covered transfer that commits (the evaluation flags it) to a user whose
    wallet is soft-deleted is therefore not answered with "Recipient wallet not
    found": it commits, the soft-deleted wallet is credited and stays
    soft-deleted, and the log gains the completed record of the transfer from
    the user to the recipient. *)
Theorem transfer_credits_soft_deleted_wallet env user body db s receiver sw rw b :
  validateTransaction body = None -> (0.01 <=? Body.amount body)%float = true ->
  Body.toUserId body = Some s -> s <> user -> castObjectId s = Some receiver ->
  wallets db !! user = Some sw -> Wallet.validate sw = true ->
  wallets db !! receiver = Some rw -> Wallet.validate rw = true ->
  Wallet.isDeleted rw = true ->
  List.find (hasCurrency (currencyOf body)) (Wallet.balances sw) = Some b ->
  (Body.amount body <=? b_amount b)%float = true ->
  flagsRequest env db user transfer (Body.amount body) ->
  exists view newBalance db' evs rw' tx,
    run (POST_transfer env user body) db
    = (Ok (Json "Transfer successful" view newBalance), db', evs) /\
    v_status view = completed /\
    In Committed evs /\
    wallets db' !! receiver = Some rw' /\
    Wallet.isDeleted rw' = true /\
    balanceOf rw' (currencyOf body)
    = (balanceOf rw (currencyOf body) + Body.amount body)%float /\
    transactions db' = transactions db ++ [tx] /\
    Transaction.type tx = transfer /\
    Transaction.status tx = completed /\
    Transaction.fromUserId tx = Some user /\
    Transaction.toUserId tx = Some receiver /\
    Transaction.amount tx = Body.amount body /\
    Transaction.currency tx = currencyOf body.
Proof.
  intros Hval Hmin Hto Hne Hcast Hsw Hvs Hrw Hvr Hdel Hb Hle (reason & evs0 & Hrun).
  destruct (find_find_ref _ _ _ Hb) as [i Hi].
  eexists _, _, _, _, _, _. split.
  { apply (POST_transfer_commits env user body db s receiver sw rw i b _ evs0 Hrun);
      try assumption; [discriminate | apply leb_not_ltb, Hle]. }
  split; [reflexivity|]. split; [left; reflexivity|].
  split; [apply lookup_insert_eq|]. split; [exact Hdel|].
  split; [rewrite balanceOf_preSave; apply balanceOf_credit_add, Hmin|].
  split; [reflexivity|].
  unfold recordOf, recipientOf. simpl. rewrite Hto, Hcast. repeat split.
Qed.

Lemma transfer_credits_soft_deleted_wallet_witness :
  Wallet.isDeleted (closedWallet 7) = true /\
  exists view newBalance db' evs rw' tx,
    run (POST_transfer (quiet noon) alice (usdTo 30 dave)) busyBank
    = (Ok (Json "Transfer successful" view newBalance), db', evs) /\
    v_status view = completed /\
    In Committed evs /\
    wallets db' !! dave = Some rw' /\
    Wallet.isDeleted rw' = true /\
    balanceOf rw' "USD" = (7 + 30)%float /\
    transactions db' = transactions busyBank ++ [tx] /\
    Transaction.type tx = transfer /\
    Transaction.status tx = completed /\
    Transaction.fromUserId tx = Some alice /\
    Transaction.toUserId tx = Some dave /\
    Transaction.amount tx = 30%float /\
    Transaction.currency tx = "USD".
Proof.
  split; [reflexivity|].
  apply (transfer_credits_soft_deleted_wallet (quiet noon) alice (usdTo 30 dave) busyBank
           dave dave (usdWallet 100) (closedWallet 7) (mkBalance "USD" 100));
    try reflexivity; try discriminate.
  exists high_frequency. eexists. reflexivity.
Defined.

(** ** Wallet creation and deposit *)

(** C8 (as amended). A wallet saved for the first time with no balance entry
    is seeded with a single USD entry of amount zero. No deposit creates a
    wallet: a deposit by a user without one leaves the store as it was. A valid
    deposit of at least 0.01 into an existing valid wallet that the evaluation
    flags commits and raises the balance of the requested currency by the
    amount, as a sum of doubles, an absent entry counting as zero: when the
    entry is absent, the credit appends an entry of that currency holding the
    amount. *)
Theorem wallet_seeded_and_credited env user body db w :
  (forall now w0, Wallet.balances w0 = [] ->
                  Wallet.balances (Wallet.preSave true now w0) = [mkBalance "USD" 0]) /\
  (forall now, Wallet.balances (Wallet.preSave true now (Wallet.fresh now))
               = [mkBalance "USD" 0]) /\
  (wallets db !! user = None ->
   after db (mkRequest env Deposit user body) = db /\
   exists resp evs,
     run (POST_deposit env user body) db = (Ok resp, db, evs) /\ ~ isJson resp) /\
  (validateTransaction body = None -> (0.01 <=? Body.amount body)%float = true ->
   wallets db !! user = Some w -> Wallet.validate w = true ->
   flagsRequest env db user deposit (Body.amount body) ->
   exists view newBalance db' evs w',
     run (POST_deposit env user body) db
     = (Ok (Json "Deposit successful" view newBalance), db', evs) /\
     wallets db' !! user = Some w' /\
     balanceOf w' (currencyOf body)
     = (balanceOf w (currencyOf body) + Body.amount body)%float /\
     newBalance = (balanceOf w (currencyOf body) + Body.amount body)%float /\
     (List.find (hasCurrency (currencyOf body)) (Wallet.balances w) = None ->
      Wallet.balances w'
      = Wallet.balances w ++ [mkBalance (currencyOf body) (Body.amount body)])).
Proof.
  split.
  { intros t w0 H0. unfold Wallet.preSave. rewrite H0. reflexivity. }
  split; [reflexivity|].
  split.
  { intros Hnone.
    destruct (serve_outcome (mkRequest env Deposit user body) db)
      as (resp & evs & fc & evs0 & _ & Hrun & [[Hsame Hno] | [Hcommit _]]).
    - split; [exact Hsame|]. exists resp, evs. rewrite Hsame in Hrun. auto.
    - destruct Hcommit as (_ & _ & _ & _ & w0 & Hw0 & _). simpl in Hw0. congruence. }
  intros Hval Hmin Hw Hvw (reason & evs0 & Hrun).
  eexists _, _, _, _, _. split.
  { apply (POST_deposit_commits env user body db w _ evs0 Hrun); try assumption. discriminate. }
  simpl.
  split; [apply lookup_insert_eq|].
  rewrite balanceOf_preSave.
  split; [apply balanceOf_credit_add, Hmin|]. split; [apply balanceOf_credit_add, Hmin|].
  intros Hnone. simpl. unfold credit.
  rewrite find_ref_findIndex. rewrite find_ref_find in Hnone.
  destruct (find_ref _ _) as [[i b]|]; [discriminate | reflexivity].
Qed.

Lemma wallet_seeded_and_credited_witness :
  exists view newBalance db' evs w',
    run (POST_deposit (quiet noon) bob (Body.mk 20000 (Some "EUR") None None)) smallBank
    = (Ok (Json "Deposit successful" view newBalance), db', evs) /\
    wallets db' !! bob = Some w' /\
    Wallet.balances w' = [mkBalance "USD" 5; mkBalance "EUR" 20000].
Proof.
  destruct (wallet_seeded_and_credited (quiet noon) bob (Body.mk 20000 (Some "EUR") None None)
              smallBank (usdWallet 5)) as (_ & _ & _ & Hdeposit).
  destruct Hdeposit as (view & newBalance & db' & evs & w' & Hrun & Hw' & _ & _ & Hpush);
    try reflexivity.
  { exists large_amount. eexists. reflexivity. }
  exists view, newBalance, db', evs, w'.
  split; [exact Hrun|]. split; [exact Hw'|]. apply Hpush. reflexivity.
Defined.

(** C8 fails as stated: a deposit by a user who has no wallet does not create
    one; the handler throws on the missing wallet and answers 500, and the
    store is left as it was. *)
Lemma deposit_without_wallet_creates_none :
  wallets smallBank !! carol = None /\
  validateTransaction (usd 50) = None /\
  run (POST_deposit (quiet noon) carol (usd 50)) smallBank
  = (Ok (Status 500 (ExnMessage (TypeError "wallet.balances"))), smallBank,
     [Aborted; QueriedWallet carol; QueriedTransactions]) /\
  wallets (after smallBank (mkRequest (quiet noon) Deposit carol (usd 50))) !! carol = None.
Proof. repeat split; reflexivity. Qed.

(** ** Non-negative balances *)

(** The guard of a withdrawal or transfer: it is applied only when the source
    holds at least the amount. *)
Lemma applied_only_if_covered db r :
  r_op r = Withdraw \/ r_op r = Transfer ->
  after db r <> db ->
  exists w,
    wallets db !! r_user r = Some w /\
    (Body.amount (r_body r) <=? balanceOf w (currencyOf (r_body r)))%float = true.
Proof.
  intros Hop Hchanged.
  destruct (serve_outcome r db) as (resp & evs & fc & evs0 & _ & _ & [[Hsame _] | [Hcommit _]]);
    [contradiction|].
  destruct Hcommit as (_ & _ & _ & _ & Happ).
  destruct Hop as [E|E]; rewrite E in Happ.
  - destruct Happ as (w & i & b & Hw & Hv & Hb & Hlt & _).
    exists w. split; [exact Hw|]. apply (saved_debit_covered w _ i b _ Hb Hv Hlt).
  - destruct Happ as (s & receiver & sw & rw & i & b & _ & _ & _ & Hsw & _ & Hv & _ & Hb & Hlt & _).
    exists sw. split; [exact Hsw|]. apply (saved_debit_covered sw _ i b _ Hb Hv Hlt).
Qed.

(** One request keeps all entries non-negative: every wallet it saves has
    passed the validator [min: 0] of the amounts. *)
Lemma after_NonNegative db r : NonNegative db -> NonNegative (after db r).
Proof.
  intros Hdb u w Hw.
  destruct (after_wallet db r u) as [Hsame | (w0 & bs & _ & Hafter & Hv & _)].
  - rewrite Hsame in Hw. apply (Hdb u w Hw).
  - rewrite Hafter in Hw. injection Hw as <-.
    apply Wallet_validate_iff in Hv. simpl in Hv |- *.
    apply (Forall_impl _ _ _ Hv). intros b [_ H]. exact H.
Qed.

(** C9. Starting from a store where no wallet entry is negative, after each
    request of any sequence of deposits, withdrawals and transfers no wallet
    entry is negative; a withdrawal or a transfer changes the store only when
    the source held at least the amount in the requested currency. *)
Theorem balances_never_negative db rs :
  NonNegative db ->
  Forall NonNegative (replay db rs) /\
  (forall db0 r, r_op r = Withdraw \/ r_op r = Transfer -> after db0 r <> db0 ->
     exists w, wallets db0 !! r_user r = Some w /\
               (Body.amount (r_body r) <=? balanceOf w (currencyOf (r_body r)))%float = true).
Proof.
  intros Hdb. split; [|intros db0 r; apply applied_only_if_covered].
  revert db Hdb. induction rs as [|r rs IH]; intros db Hdb; simpl.
  - constructor.
  - pose proof (after_NonNegative db r Hdb) as Hafter.
    constructor; [exact Hafter | apply IH, Hafter].
Qed.

Lemma busyBank_NonNegative : NonNegative busyBank.
Proof.
  intros u w. unfold busyBank, smallBank. simpl.
  rewrite !lookup_insert. repeat case_decide; subst.
  - intros [= <-]. repeat constructor.
  - intros [= <-]. repeat constructor.
  - rewrite lookup_singleton. case_decide; [|discriminate].
    intros [= <-]. repeat constructor.
Qed.

Lemma balances_never_negative_witness :
  Forall NonNegative
    (replay busyBank
       [ mkRequest (quiet noon) Deposit alice (usd 50);
         mkRequest (quiet noon) Withdraw bob (usd 6);
         mkRequest (quiet noon) Transfer alice (usdTo 120 bob);
         mkRequest (quiet noon) Withdraw bob (usd 20000);
         mkRequest (quiet noon) Withdraw alice (usd 30.5) ]).
Proof.
  apply (balances_never_negative busyBank _ busyBank_NonNegative).
Defined.

(** ** Daily scan *)

(** C2 (as amended). Over the non-deleted records created in the window
    [yesterday <= createdAt < today], the job counts each record once, for its
    source user when it has one and for its destination user otherwise, and
    reports exactly the users whose count exceeds 20, each once, with that count
    and the reason [excessive_daily_transactions]: a user with 21 counted
    records is reported and a user with 19 is not. The count of a user never
    exceeds the number of records in which the user takes part. *)
Theorem daily_scan_reports_counted_users env db yesterday today :
  findError env = None ->
  let window := scanned db yesterday today in
  exists details evs,
    run (fraudDetectionJob env yesterday today) db
    = (Ok (JobReport (length window) (length details) details), db, evs) /\
    List.NoDup (map su_userId details) /\
    (forall s, In s details <->
               (20 < countedFor (su_userId s) window)%nat /\
               su_transactionCount s = countedFor (su_userId s) window /\
               su_reason s = "excessive_daily_transactions") /\
    (forall u, countedFor u window = 21%nat ->
               In (mkSuspiciousUser u 21 "excessive_daily_transactions") details) /\
    (forall u, countedFor u window = 19%nat -> ~ In u (map su_userId details)) /\
    (forall u, countedFor u window <= recordsOf u window)%nat.
Proof.
  intros Hf window.
  destruct (fraudDetectionJob_report env db yesterday today Hf)
    as (details & evs & Hrun & Hnd & Hin).
  fold window in Hrun, Hin.
  exists details, evs. split; [exact Hrun|]. split; [exact Hnd|]. split; [exact Hin|].
  split; [|split].
  - intros u Hu. apply Hin. simpl. rewrite Hu. repeat split. lia.
  - intros u Hu Hmem. apply in_map_iff in Hmem as (s & <- & Hs).
    apply Hin in Hs as (Hlt & _). lia.
  - intros u. apply countedFor_le_recordsOf.
Qed.

Lemma daily_scan_reports_counted_users_witness :
  exists details evs,
    run (fraudDetectionJob (quiet noon) (noon - 86400000) noon)
        (mkDb ∅ (deposits 21 alice (noon - 5) ++ deposits 19 bob (noon - 5)))
    = (Ok (JobReport 40 (length details) details),
       mkDb ∅ (deposits 21 alice (noon - 5) ++ deposits 19 bob (noon - 5)), evs) /\
    In (mkSuspiciousUser alice 21 "excessive_daily_transactions") details /\
    ~ In bob (map su_userId details).
Proof.
  destruct (daily_scan_reports_counted_users (quiet noon)
              (mkDb ∅ (deposits 21 alice (noon - 5) ++ deposits 19 bob (noon - 5)))
              (noon - 86400000) noon eq_refl)
    as (details & evs & Hrun & _ & _ & H21 & H19 & _).
  exists details, evs. split; [exact Hrun|]. split.
  - apply H21. reflexivity.
  - apply H19. reflexivity.
Defined.

(** C2 fails as stated: bob takes part in 21 records of the window, all of
    them transfers he receives from alice; the report names alice alone. *)
Lemma recipient_of_21_transfers_not_reported :
  recordsOf bob
    (scanned (mkDb ∅ (transfers 21 alice bob (noon - 5))) (noon - 86400000) noon)
  = 21%nat /\
  run (fraudDetectionJob (quiet noon) (noon - 86400000) noon)
      (mkDb ∅ (transfers 21 alice bob (noon - 5)))
  = (Ok (JobReport 21 1 [mkSuspiciousUser alice 21 "excessive_daily_transactions"]),
     mkDb ∅ (transfers 21 alice bob (noon - 5)), [QueriedTransactions]) /\
  ~ In bob (map su_userId [mkSuspiciousUser alice 21 "excessive_daily_transactions"]).
Proof.
  split; [reflexivity|]. split; [reflexivity|].
  simpl. intros [H|[]]. discriminate.
Qed.

(** * Further properties *)

(** ** What one request does *)

(** X1. All or nothing: a deposit, withdrawal or transfer request either
    answers success, and then exactly one record was appended to the log,
    completed and carrying the kind, amount and currency of the request, or
    answers an error, and then wallets and log are exactly as before. *)
Theorem request_all_or_nothing r db :
  exists resp evs,
    run (serve r) db = (Ok resp, after db r, evs) /\
    (isJson resp ->
     exists tx,
       transactions (after db r) = transactions db ++ [tx] /\
       Transaction.status tx = completed /\
       Transaction.type tx = kindOf (r_op r) /\
       Transaction.amount tx = Body.amount (r_body r) /\
       Transaction.currency tx = currencyOf (r_body r)) /\
    (~ isJson resp -> after db r = db).
Proof.
  destruct (serve_outcome r db) as (resp & evs & fc & evs0 & _ & Hrun & Hcase).
  exists resp, evs. split; [exact Hrun|].
  destruct Hcase as [[Hsame Hno] | [Hcommit _]].
  - split; [intros H; destruct (Hno H) | auto].
  - destruct Hcommit as (_ & _ & _ & Hlog & Hop). split.
    + intros _. exists (recordOf r fc). split; [exact Hlog|]. repeat split.
    + intros Hno. exfalso. apply Hno.
      destruct (r_op r).
      * destruct Hop as (w & _ & _ & _ & ->). exact I.
      * destruct Hop as (w & i & b & _ & _ & _ & _ & _ & ->). exact I.
      * destruct Hop as (s & a & sw & rw & i & b & _ & _ & _ & _ & _ & _ & _ & _ & _ & _ & ->).
        exact I.
Qed.

(** X2. The log is append-only: along any sequence of requests, every store
    observed keeps the records it started with, in place and unchanged, and has
    gained at most one record per request served. *)
Theorem log_append_only db rs :
  Forall (fun db' => exists added,
            transactions db' = transactions db ++ added
            /\ (length added <= length rs)%nat)
         (replay db rs).
Proof.
  revert db. induction rs as [|r rs IH]; intros db; simpl; [constructor|].
  assert (Hstep : exists added, transactions (after db r) = transactions db ++ added
                                /\ (length added <= 1)%nat).
  { destruct (serve_outcome r db)
      as (resp & evs & fc & evs0 & _ & _ & [[-> _] | [(_ & _ & _ & Hlog & _) _]]).
    - exists []. rewrite app_nil_r. auto.
    - exists [recordOf r fc]. auto. }
  destruct Hstep as (added & Hadd & Hlen).
  constructor.
  - exists added. split; [exact Hadd | lia].
  - eapply Forall_impl; [apply (IH (after db r))|].
    intros db' (more & Hmore & Hlen'). simpl in Hmore.
    exists (added ++ more). rewrite Hmore, Hadd, <- app_assoc.
    split; [reflexivity|]. rewrite length_app. lia.
Qed.

Lemma recordOf_wellFormed r fc db db' resp :
  commits r fc db db' resp -> wellFormedRecord (recordOf r fc).
Proof.
  intros (Hval & Hmin & Hreason & _ & Hop).
  destruct (validateTransaction_passes _ Hval) as (_ & Hcur & _).
  unfold wellFormedRecord, recordOf. simpl.
  split; [reflexivity|]. split; [exact Hmin|]. split; [exact Hcur|].
  split; [exact Hreason|].
  destruct (r_op r); simpl.
  - split; [reflexivity | discriminate].
  - split; [discriminate | reflexivity].
  - destruct Hop as (s & receiver & sw & rw & i & b & Hto & _ & Hcast & _).
    unfold recipientOf. rewrite Hto, Hcast. split; discriminate.
Qed.

(** X3. The records the handlers write keep the shape of the schema: the
    records that any sequence of requests adds to the log are completed, of at
    least 0.01 in one of the four currencies, carry a flag reason, and a deposit
    has a destination and no source, a withdrawal a source and no destination,
    a transfer both. *)
Theorem written_records_well_formed db rs :
  Forall (fun db' => exists added,
            transactions db' = transactions db ++ added /\ Forall wellFormedRecord added)
         (replay db rs).
Proof.
  revert db. induction rs as [|r rs IH]; intros db; simpl; [constructor|].
  assert (Hstep : exists added, transactions (after db r) = transactions db ++ added
                                /\ Forall wellFormedRecord added).
  { destruct (serve_outcome r db)
      as (resp & evs & fc & evs0 & _ & _ & [[-> _] | [Hcommit _]]).
    - exists []. rewrite app_nil_r. auto.
    - pose proof (recordOf_wellFormed _ _ _ _ _ Hcommit) as Hwf.
      destruct Hcommit as (_ & _ & _ & Hlog & _).
      exists [recordOf r fc]. split; [exact Hlog | constructor; [exact Hwf | constructor]]. }
  destruct Hstep as (added & Hadd & Hwf).
  constructor.
  - exists added. auto.
  - eapply Forall_impl; [apply (IH (after db r))|].
    intros db' (more & Hmore & Hwf'). simpl in Hmore.
    exists (added ++ more). rewrite Hmore, Hadd, <- app_assoc.
    split; [reflexivity | apply Forall_app; auto].
Qed.

(** ** What one request does to one wallet *)

(** X4. The wallet routes never create, remove, close or reopen a wallet:
    after any deposit, withdrawal or transfer request the same users have a
    wallet, and each wallet keeps its [isActive], [isDeleted], [deletedAt] and
    [createdAt]. *)
Theorem wallet_routes_keep_wallets db r u :
  match wallets db !! u, wallets (after db r) !! u with
  | Some w, Some w' =>
      Wallet.isActive w' = Wallet.isActive w /\
      Wallet.isDeleted w' = Wallet.isDeleted w /\
      Wallet.deletedAt w' = Wallet.deletedAt w /\
      Wallet.createdAt w' = Wallet.createdAt w
  | None, None => True
  | _, _ => False
  end.
Proof.
  destruct (after_wallet db r u) as [-> | (w & bs & -> & -> & _)].
  - destruct (wallets db !! u); auto.
  - simpl. auto.
Qed.

(** X5. Every wallet a request saves has passed the schema validators
    (non-empty currency, amount at least zero on every entry): along any
    sequence of requests from a store of valid wallets, all wallets stay valid. *)
Theorem wallets_stay_valid db rs :
  WalletsValid db -> Forall WalletsValid (replay db rs).
Proof.
  revert db. induction rs as [|r rs IH]; intros db Hdb; simpl; [constructor|].
  assert (Hafter : WalletsValid (after db r)).
  { intros u w' Hw'.
    destruct (after_wallet db r u) as [Hsame | (w & bs & _ & Hnew & Hv & _)].
    - rewrite Hsame in Hw'. apply (Hdb u w' Hw').
    - rewrite Hnew in Hw'. injection Hw' as <-. exact Hv. }
  constructor; [exact Hafter | apply IH, Hafter].
Qed.

Lemma busyBank_WalletsValid : WalletsValid busyBank.
Proof.
  intros u w. unfold busyBank, smallBank. simpl.
  rewrite !lookup_insert. repeat case_decide; subst.
  - intros [= <-]. reflexivity.
  - intros [= <-]. reflexivity.
  - rewrite lookup_singleton. case_decide; [|discriminate].
    intros [= <-]. reflexivity.
Qed.

Lemma wallets_stay_valid_witness :
  Forall WalletsValid
    (replay busyBank
       [ mkRequest (quiet noon) Deposit bob (Body.mk 20000 (Some "EUR") None None);
         mkRequest (quiet noon) Transfer alice (usdTo 30 dave) ]).
Proof.
  apply (wallets_stay_valid busyBank _ busyBank_WalletsValid).
Defined.

Lemma find_cons_if {A} (p : A -> bool) x l :
  List.find p (x :: l) = if p x then Some x else List.find p l.
Proof. reflexivity. Qed.

Lemma find_insert_other {A} (p : A -> bool) (l : list A) i x y :
  l !! i = Some x -> p x = false -> p y = false ->
  List.find p (<[ i := y ]> l) = List.find p l.
Proof.
  revert i. induction l as [|z r IH]; intros i Hi Hx Hy; [discriminate|].
  destruct i as [|i]; simpl in *.
  - injection Hi as ->. rewrite !find_cons_if, Hx, Hy. reflexivity.
  - rewrite !find_cons_if, (IH i Hi Hx Hy). reflexivity.
Qed.

Lemma find_app_other {A} (p : A -> bool) (l : list A) y :
  p y = false -> List.find p (l ++ [y]) = List.find p l.
Proof.
  intros Hy. induction l as [|z r IH]; simpl.
  - rewrite find_cons_if, Hy. reflexivity.
  - rewrite !find_cons_if, IH. reflexivity.
Qed.

Lemma hasCurrency_other c c' b : b_currency b = c -> c' <> c -> hasCurrency c' b = false.
Proof. intros <- Hne. unfold hasCurrency. apply String.eqb_neq. congruence. Qed.

Lemma balanceOf_updateAt_other w c c' i b f :
  find_ref (hasCurrency c) (Wallet.balances w) = Some (i, b) -> c' <> c ->
  balanceOf (Wallet.with_balances (updateAt i f (Wallet.balances w)) w) c' = balanceOf w c'.
Proof.
  intros Hb Hne. destruct (find_ref_lookup _ _ _ _ Hb) as [Hi Hp].
  apply hasCurrency_eq in Hp.
  unfold balanceOf. simpl. unfold updateAt. rewrite Hi.
  rewrite (find_insert_other _ _ i b); [reflexivity | exact Hi | |].
  - apply (hasCurrency_other c); [exact Hp | exact Hne].
  - apply (hasCurrency_other c); [exact Hp | exact Hne].
Qed.

Lemma balanceOf_credit_other w c c' a :
  c' <> c ->
  balanceOf (Wallet.with_balances (credit c a (Wallet.balances w)) w) c' = balanceOf w c'.
Proof.
  intros Hne. unfold credit. rewrite find_ref_findIndex.
  destruct (find_ref (hasCurrency c) (Wallet.balances w)) as [[i b]|] eqn:Hb; simpl.
  - apply (balanceOf_updateAt_other w c c' i b _ Hb Hne).
  - unfold balanceOf. simpl. rewrite find_app_other; [reflexivity|].
    apply (hasCurrency_other c); [reflexivity | exact Hne].
Qed.

(** X6. A request touches only the currency it names and only the wallets it
    names: the balance of any user in any other currency, and every balance of
    a user who is neither the requester nor the user whose [ObjectId] the
    [toUserId] of the transfer is cast to, is the same after the request as
    before. *)
Theorem other_balances_untouched db r u c :
  c <> currencyOf (r_body r)
  \/ (u <> r_user r /\ (r_op r = Transfer -> recipientOf (r_body r) <> Some u)) ->
  balanceIn (after db r) u c = balanceIn db u c.
Proof.
  intros Hother. unfold balanceIn.
  destruct (serve_outcome r db)
    as (resp & evs & fc & evs0 & _ & _ & [[-> _] | [Hcommit _]]); [reflexivity|].
  destruct Hcommit as (_ & _ & _ & _ & Hop).
  destruct (r_op r).
  - destruct Hop as (w & Hw & _ & -> & _).
    rewrite lookup_insert. case_decide; [subst u|reflexivity].
    rewrite Hw, balanceOf_preSave.
    destruct Hother as [Hc | [Hu _]]; [|congruence].
    apply balanceOf_credit_other, Hc.
  - destruct Hop as (w & i & b & Hw & _ & Hb & _ & -> & _).
    rewrite lookup_insert. case_decide; [subst u|reflexivity].
    rewrite Hw, balanceOf_preSave.
    destruct Hother as [Hc | [Hu _]]; [|congruence].
    apply (balanceOf_updateAt_other w _ c i b _ Hb Hc).
  - destruct Hop as (s & receiver & sw & rw & i & b & Hto & _ & Hcast & Hsw & Hrw & _ & _ & Hb & _
                     & -> & _).
    rewrite lookup_insert. case_decide; [subst u|].
    { rewrite Hrw, balanceOf_preSave.
      destruct Hother as [Hc | [_ Hu]].
      - apply balanceOf_credit_other, Hc.
      - destruct (Hu eq_refl). unfold recipientOf. rewrite Hto. exact Hcast. }
    rewrite lookup_insert. case_decide; [subst u|reflexivity].
    rewrite Hsw, balanceOf_preSave.
    destruct Hother as [Hc | [Hu _]]; [|congruence].
    apply (balanceOf_updateAt_other sw _ c i b _ Hb Hc).
Qed.

Lemma other_balances_untouched_witness :
  balanceIn (after busyBank (mkRequest (quiet noon) Transfer alice (usdTo 30 bob))) dave "USD"
  = balanceIn busyBank dave "USD".
Proof.
  apply other_balances_untouched. right. split; [discriminate|]. intros _. discriminate.
Defined.

(** ** One entry per currency *)

Lemma currencies_updateAt (bs : list Balance) i f :
  map b_currency (updateAt i f bs) = map b_currency bs.
Proof.
  unfold updateAt. destruct (bs !! i) as [b|] eqn:Hi; [|reflexivity].
  revert i Hi. induction bs as [|z r IH]; intros i Hi; [discriminate|].
  destruct i as [|i]; simpl in *.
  - injection Hi as ->. reflexivity.
  - f_equal. apply IH, Hi.
Qed.

Lemma find_ref_None_currency c (bs : list Balance) :
  find_ref (hasCurrency c) bs = None -> ~ In c (map b_currency bs).
Proof.
  induction bs as [|z r IH]; simpl; [tauto|].
  unfold find_ref. fold (find_ref (A := Balance)).
  destruct (hasCurrency c z) eqn:Hz; [discriminate|].
  destruct (find_ref (hasCurrency c) r) as [[i y]|]; [discriminate|].
  intros _ [H|H]; [|apply IH; auto].
  unfold hasCurrency in Hz. apply String.eqb_neq in Hz. congruence.
Qed.

Lemma currencies_credit c a (bs : list Balance) :
  List.NoDup (map b_currency bs) -> List.NoDup (map b_currency (credit c a bs)).
Proof.
  intros Hnd. unfold credit. rewrite find_ref_findIndex.
  destruct (find_ref (hasCurrency c) bs) as [[i b]|] eqn:Hb; simpl.
  - unfold addAt. rewrite currencies_updateAt. exact Hnd.
  - rewrite map_app. simpl. apply NoDup_ListNoDup, NoDup_app. repeat split.
    + apply NoDup_ListNoDup, Hnd.
    + intros x Hx Hc. apply list_elem_of_In in Hx. apply list_elem_of_In in Hc.
      destruct Hc as [<-|[]]. apply (find_ref_None_currency _ _ Hb Hx).
    + apply NoDup_singleton.
Qed.

(** X7. A wallet never gains a second entry for a currency: a credit adds to
    the entry of the currency when there is one and appends one only when
    there is none, so along any sequence of requests from wallets with one
    entry per currency, every wallet keeps one entry per currency. *)
Theorem currencies_stay_distinct db rs :
  CurrenciesDistinct db -> Forall CurrenciesDistinct (replay db rs).
Proof.
  revert db. induction rs as [|r rs IH]; intros db Hdb; simpl; [constructor|].
  assert (Hafter : CurrenciesDistinct (after db r)).
  { intros u w' Hw'.
    destruct (after_wallet db r u) as [Hsame | (w & bs & Hw & Hnew & _ & _ & _ & Hbs)].
    - rewrite Hsame in Hw'. apply (Hdb u w' Hw').
    - rewrite Hnew in Hw'. injection Hw' as <-. simpl.
      destruct Hbs as [-> | (i & b & _ & _ & ->)].
      + apply currencies_credit, (Hdb u w Hw).
      + unfold subAt. rewrite currencies_updateAt. apply (Hdb u w Hw). }
  constructor; [exact Hafter | apply IH, Hafter].
Qed.

Lemma busyBank_CurrenciesDistinct : CurrenciesDistinct busyBank.
Proof.
  intros u w. unfold busyBank, smallBank. simpl.
  rewrite !lookup_insert. repeat case_decide; subst.
  - intros [= <-]. simpl. repeat constructor. simpl. tauto.
  - intros [= <-]. simpl. repeat constructor. simpl. tauto.
  - rewrite lookup_singleton. case_decide; [|discriminate].
    intros [= <-]. simpl. repeat constructor. simpl. tauto.
Qed.

Lemma currencies_stay_distinct_witness :
  Forall CurrenciesDistinct
    (replay busyBank
       [ mkRequest (quiet noon) Deposit bob (Body.mk 20000 (Some "EUR") None None);
         mkRequest (quiet noon) Deposit bob (Body.mk 30000 (Some "EUR") None None);
         mkRequest (quiet noon) Transfer bob (Body.mk 10000 (Some "EUR") None (Some alice)) ]).
Proof.
  apply (currencies_stay_distinct busyBank _ busyBank_CurrenciesDistinct).
Defined.

(** ** The answer and the store agree *)

(** X8. The [newBalance] of a success answer is the balance the store now
    holds for the requesting user in the currency of the request, unless the
    request is a transfer whose [toUserId] is cast to the requester's own
    [ObjectId]. *)
Theorem newBalance_is_stored_balance r db message view newBalance db' evs :
  (r_op r = Transfer -> recipientOf (r_body r) <> Some (r_user r)) ->
  run (serve r) db = (Ok (Json message view newBalance), db', evs) ->
  v_currency view = currencyOf (r_body r) /\
  newBalance = balanceIn db' (r_user r) (currencyOf (r_body r)).
Proof.
  intros Hother Hrun.
  destruct (serve_outcome r db) as (resp & evs' & fc & evs0 & _ & Hrun' & Hcase).
  rewrite Hrun in Hrun'. injection Hrun' as <- -> <-.
  destruct Hcase as [[_ Hno] | [Hcommit _]]; [destruct Hno; exact I|].
  destruct Hcommit as (_ & _ & _ & _ & Hop). unfold balanceIn.
  destruct (r_op r).
  - destruct Hop as (w & Hw & _ & -> & [= -> -> ->]). simpl.
    rewrite lookup_insert_eq, balanceOf_preSave. split; reflexivity.
  - destruct Hop as (w & i & b & Hw & _ & Hb & _ & -> & [= -> -> ->]). simpl.
    rewrite lookup_insert_eq, balanceOf_preSave. split; [reflexivity|].
    rewrite (balanceOf_debit w _ _ i b Hb). reflexivity.
  - destruct Hop as (s & receiver & sw & rw & i & b & Hto & _ & Hcast & Hsw & _ & _ & _ & Hb & _
                     & -> & [= -> -> ->]). simpl.
    assert (Hne : receiver <> r_user r).
    { intros ->. apply (Hother eq_refl). unfold recipientOf. rewrite Hto. exact Hcast. }
    rewrite lookup_insert_ne by exact Hne.
    rewrite lookup_insert_eq, balanceOf_preSave. split; [reflexivity|].
    rewrite (balanceOf_debit sw _ _ i b Hb). reflexivity.
Qed.

Lemma newBalance_is_stored_balance_witness :
  70%float
  = balanceIn (after busyBank (mkRequest (quiet noon) Transfer alice (usdTo 30 bob))) alice "USD".
Proof.
  assert (Hrun : run (serve (mkRequest (quiet noon) Transfer alice (usdTo 30 bob))) busyBank
                 = (Ok (Json "Transfer successful"
                          (mkTxView 30 "USD" (Some bob) completed true) 70),
                    after busyBank (mkRequest (quiet noon) Transfer alice (usdTo 30 bob)),
                    [Committed; SavedTransaction; SavedWallet bob; SavedWallet alice;
                     QueriedWallet bob; QueriedWallet alice;
                     AlertEmail alice "High frequency transactions detected";
                     QueriedTransactions])) by reflexivity.
  refine (proj2 (newBalance_is_stored_balance _ _ _ _ _ _ _ _ Hrun)).
  intros _ H. vm_compute in H. discriminate H.
Defined.

(** ** More on the fraud rules *)

(** X9. An alert is sent exactly when the evaluation flags: whatever the
    history and whether or not its queries can be served, the evaluation sends
    one alert, to the evaluated user, when it returns a flag, and none when it
    does not; and it returns a reason exactly when it flags. *)
Theorem alert_sent_iff_flagged env user kind amount db :
  exists r evs,
    run (checkFraudRules env user kind amount) db = (Ok r, db, evs) /\
    length (List.filter isAlert evs) = (if isFlagged r then 1 else 0)%nat /\
    (forall u a, In (AlertEmail u a) evs -> u = user) /\
    (isFlagged r = true <-> flagReason r <> None).
Proof.
  destruct (checkFraudRules_in_session env user kind amount db) as (r & evs & Hrun & _).
  exists r, evs. split; [exact Hrun|].
  destruct (checkFraudRules_verdict _ _ _ _ _ _ _ Hrun) as (Hr & Hlen & Hto).
  split; [exact Hlen|]. split; [exact Hto|].
  destruct Hr as [[reason ->] | ->]; simpl; split; intros H; congruence.
Qed.

Lemma filter_app_one {A} (f : A -> bool) l x :
  f x = false -> List.filter f (l ++ [x]) = List.filter f l.
Proof.
  intros Hx. rewrite List.filter_app. rewrite filter_cons_if, Hx.
  apply app_nil_r.
Qed.

Lemma recentWithdrawalsFilter_recent userId t tx :
  recentTransactionsFilter userId t tx = false -> recentWithdrawalsFilter userId t tx = false.
Proof.
  unfold recentTransactionsFilter, recentWithdrawalsFilter.
  destruct (opt_string_eqb (Transaction.fromUserId tx) userId),
           (opt_string_eqb (Transaction.toUserId tx) userId),
           (TxType_eqb (Transaction.type tx) withdrawal),
           (_ <=? _)%Z, (Transaction.isDeleted tx); simpl; congruence.
Qed.

(** X10. The evaluation looks only at the user's own, recent, non-deleted
    records: adding to the history a record that is soft-deleted, or older
    than one hour, or in which the user takes no part, changes neither the
    verdict nor the alerts. *)
Theorem verdict_ignores_irrelevant_records env db user kind amount tx :
  Transaction.isDeleted tx = true
  \/ (Transaction.createdAt tx < now env - 3600000)%Z
  \/ ~ participant user tx ->
  let db' := mkDb (wallets db) (transactions db ++ [tx]) in
  fst (fst (run (checkFraudRules env user kind amount) db'))
  = fst (fst (run (checkFraudRules env user kind amount) db))
  /\ snd (run (checkFraudRules env user kind amount) db')
     = snd (run (checkFraudRules env user kind amount) db).
Proof.
  intros Hirr db'.
  assert (H1 : recentTransactionsFilter user (now env - 3600000) tx = false).
  { destruct (recentTransactionsFilter user (now env - 3600000) tx) eqn:E; [|reflexivity].
    apply recentTransactionsFilter_spec in E as (Hp & Ht & Hd).
    destruct Hirr as [H|[H|H]]; [congruence | lia | contradiction]. }
  pose proof (recentWithdrawalsFilter_recent _ _ _ H1) as H2.
  subst db'. unfold run. unfold_fraud. cbn.
  change FRAUD_RULES.SUSPICIOUS_PATTERN_TIME_WINDOW with 3600000%Z.
  destruct (countError env) as [e|]; cbn; [split; reflexivity|].
  rewrite (filter_app_one _ _ _ H1).
  case_if; cbn; [split; reflexivity|].
  case_if; cbn; [split; reflexivity|].
  case_if; cbn; [|split; reflexivity].
  destruct (findError env) as [e|]; cbn; [split; reflexivity|].
  rewrite (filter_app_one _ _ _ H2).
  case_if; cbn; split; reflexivity.
Qed.

Lemma verdict_ignores_irrelevant_records_witness :
  fst (fst (run (checkFraudRules (quiet noon) alice withdrawal 250)
                (mkDb (wallets threeWithdrawals)
                      (transactions threeWithdrawals
                       ++ [record (Some alice) None withdrawal 9000 (noon - 3600001)]))))
  = Ok (mkFraudCheck true (Some suspicious_pattern)).
Proof.
  destruct (verdict_ignores_irrelevant_records (quiet noon) threeWithdrawals alice
              withdrawal 250 (record (Some alice) None withdrawal 9000 (noon - 3600001)))
    as [Hv _].
  - right. left. reflexivity.
  - rewrite Hv. reflexivity.
Defined.

(** X11. The verdict is recorded: when a request commits and the history can
    be read, the record it appends carries the flag and the reason that the
    rules give on the history before the request, and the answer carries the
    same flag. *)
Theorem verdict_is_recorded r db message view newBalance db' evs :
  run (serve r) db = (Ok (Json message view newBalance), db', evs) ->
  countError (r_env r) = None -> findError (r_env r) = None ->
  let fc := evaluate (recentCount db (r_user r) (now (r_env r)))
                     (recentWithdrawals db (r_user r) (now (r_env r)))
                     (kindOf (r_op r)) (Body.amount (r_body r)) in
  exists tx,
    transactions db' = transactions db ++ [tx] /\
    Transaction.isFlagged tx = isFlagged fc /\
    Transaction.flagReason tx = flagReason fc /\
    v_isFlagged view = isFlagged fc.
Proof.
  intros Hrun Hc Hf fc.
  destruct (checkFraudRules_evaluate (r_env r) (r_user r) (kindOf (r_op r))
              (Body.amount (r_body r)) (mkSt db (Some db) []) Hc Hf) as (evs0 & Hfc).
  simpl in Hfc. fold fc in Hfc. rewrite app_nil_r in Hfc.
  destruct (serve_cases r db fc _ Hfc) as (resp & db1 & evs1 & Hrun1 & Hcase).
  rewrite Hrun in Hrun1. injection Hrun1 as <- <- <-.
  destruct Hcase as [[_ Hno] | [Hcommit _]]; [destruct Hno; exact I|].
  destruct Hcommit as (_ & _ & _ & Hlog & Hop).
  exists (recordOf r fc). split; [exact Hlog|]. split; [reflexivity|]. split; [reflexivity|].
  destruct (r_op r).
  - destruct Hop as (w & _ & _ & _ & [= _ -> _]). reflexivity.
  - destruct Hop as (w & i & b & _ & _ & _ & _ & _ & [= _ -> _]). reflexivity.
  - destruct Hop as (s & a & sw & rw & i & b & _ & _ & _ & _ & _ & _ & _ & _ & _ & _
                     & [= _ -> _]).
    reflexivity.
Qed.

Lemma verdict_is_recorded_witness :
  exists tx,
    transactions (after smallBank (mkRequest (quiet noon) Deposit alice (usd 10000)))
    = transactions smallBank ++ [tx] /\
    Transaction.isFlagged tx = true /\
    Transaction.flagReason tx = Some large_amount.
Proof.
  assert (Hrun : exists evs,
             run (serve (mkRequest (quiet noon) Deposit alice (usd 10000))) smallBank
             = (Ok (Json "Deposit successful" (mkTxView 10000 "USD" None completed true)
                      10100),
                after smallBank (mkRequest (quiet noon) Deposit alice (usd 10000)), evs))
    by (eexists; reflexivity).
  destruct Hrun as [evs Hrun].
  destruct (verdict_is_recorded _ _ _ _ _ _ _ Hrun eq_refl eq_refl)
    as (tx & Hlog & Hflag & Hreason & _).
  exists tx. auto.
Defined.

(** ** Only flagged requests commit *)

Lemma filter_isAlert_pre pre evs :
  Forall (fun e => isAlert e = false) pre ->
  List.filter isAlert (pre ++ evs) = List.filter isAlert evs.
Proof.
  intros Hpre. rewrite List.filter_app.
  induction Hpre as [|e pre He _ IH]; [reflexivity|].
  rewrite filter_cons_if, He. exact IH.
Qed.

(** X25. A request commits only when the evaluation flags it: a record whose
    [flagReason] is [null] does not pass the [enum] of the schema. So every
    success answer says [isFlagged = true], the record appended carries the
    flag and a reason, and one alert was sent, to the requesting user. *)
Theorem commits_only_when_flagged r db message view newBalance db' evs :
  run (serve r) db = (Ok (Json message view newBalance), db', evs) ->
  flagsRequest (r_env r) db (r_user r) (kindOf (r_op r)) (Body.amount (r_body r)) /\
  v_isFlagged view = true /\
  (exists tx reason,
     transactions db' = transactions db ++ [tx] /\
     Transaction.isFlagged tx = true /\ Transaction.flagReason tx = Some reason) /\
  length (List.filter isAlert evs) = 1%nat /\
  (forall u a, In (AlertEmail u a) evs -> u = r_user r).
Proof.
  intros Hrun.
  destruct (serve_outcome r db) as (resp & evs' & fc & evs0 & Hrun0 & Hrun' & Hcase).
  rewrite Hrun in Hrun'. injection Hrun' as <- -> <-.
  destruct Hcase as [[_ Hno] | [Hcommit (pre & -> & Hpre)]]; [destruct Hno; exact I|].
  destruct Hcommit as (_ & _ & Hreason & Hlog & Hop).
  destruct (checkFraudRules_verdict _ _ _ _ _ _ _ Hrun0) as (Hfc & Hlen & Hto).
  destruct Hfc as [[reason ->] | ->]; [|destruct Hreason; reflexivity].
  split; [exists reason, evs0; exact Hrun0|].
  split.
  { destruct (r_op r).
    - destruct Hop as (w & _ & _ & _ & [= _ -> _]). reflexivity.
    - destruct Hop as (w & i & b & _ & _ & _ & _ & _ & [= _ -> _]). reflexivity.
    - destruct Hop as (s & a & sw & rw & i & b & _ & _ & _ & _ & _ & _ & _ & _ & _ & _
                       & [= _ -> _]).
      reflexivity. }
  split; [exists (recordOf r (flagged reason)), reason; auto|].
  split; [rewrite (filter_isAlert_pre _ _ Hpre); exact Hlen|].
  intros u a Hin. apply in_app_or in Hin as [Hin | Hin]; [|apply (Hto u a Hin)].
  rewrite List.Forall_forall in Hpre. specialize (Hpre _ Hin). discriminate.
Qed.

Lemma commits_only_when_flagged_witness :
  flagsRequest (quiet noon) smallBank bob deposit 20000.
Proof.
  assert (Hrun : exists evs,
             run (serve (mkRequest (quiet noon) Deposit bob (usd 20000))) smallBank
             = (Ok (Json "Deposit successful" (mkTxView 20000 "USD" None completed true)
                      20005),
                after smallBank (mkRequest (quiet noon) Deposit bob (usd 20000)), evs))
    by (eexists; reflexivity).
  destruct Hrun as [evs Hrun].
  apply (commits_only_when_flagged _ _ _ _ _ _ _ Hrun).
Defined.

(** X26. A request that the evaluation does not flag changes nothing: it is
    never answered with success, and wallets and log are exactly as before,
    whatever the request. *)
Theorem unflagged_request_changes_nothing r db :
  ~ flagsRequest (r_env r) db (r_user r) (kindOf (r_op r)) (Body.amount (r_body r)) ->
  after db r = db /\
  exists resp evs, run (serve r) db = (Ok resp, db, evs) /\ ~ isJson resp.
Proof.
  intros Hnot.
  destruct (serve_outcome r db) as (resp & evs & fc & evs0 & Hrun0 & Hrun & Hcase).
  destruct Hcase as [[Hsame Hno] | [Hcommit _]].
  - split; [exact Hsame|]. exists resp, evs. rewrite Hsame in Hrun. auto.
  - destruct Hcommit as (_ & _ & Hreason & _).
    destruct (checkFraudRules_verdict _ _ _ _ _ _ _ Hrun0) as ([[reason ->] | ->] & _).
    + destruct Hnot. exists reason, evs0. exact Hrun0.
    + destruct Hreason. reflexivity.
Qed.

Lemma unflagged_request_changes_nothing_witness :
  after smallBank (mkRequest (quiet noon) Deposit alice (usd 50)) = smallBank.
Proof.
  apply (unflagged_request_changes_nothing (mkRequest (quiet noon) Deposit alice (usd 50))).
  intros (reason & evs & H). vm_compute in H. discriminate H.
Defined.

(** ** Rejections and roll-back *)

(** X12. A deposit below the schema minimum of 0.01 is rolled back as a
    whole: the credited wallet is saved inside the session, the record then
    fails its validator, the transaction is aborted, the answer is a 500, and
    the store is exactly as before: the saved credit is not kept. *)
Theorem deposit_below_minimum_rolls_back env user body db w :
  wallets db !! user = Some w ->
  Wallet.validate
    (Wallet.with_balances
       (credit (currencyOf body) (Body.amount body) (Wallet.balances w)) w) = true ->
  (0.01 <=? Body.amount body)%float = false ->
  exists evs,
    run (depositHandler env user body) db
    = (Ok (Status 500 (ExnMessage (ValidationError "amount"))), db,
       Aborted :: SavedWallet user :: QueriedWallet user :: evs).
Proof.
  intros Hw Hv Hlt.
  destruct (checkFraudRules_in_session env user deposit (Body.amount body) db)
    as (fc & evs & _ & Hfc).
  exists evs. unfold_handler. simpl. rewrite Hfc. simpl. rewrite Hw. simpl. rewrite Hv. simpl.
  unfold Transaction.validate, new_Transaction. simpl.
  rewrite Hlt. reflexivity.
Qed.

Lemma deposit_below_minimum_rolls_back_witness :
  exists evs,
    run (depositHandler (quiet noon) alice (usd 0.006)) busyBank
    = (Ok (Status 500 (ExnMessage (ValidationError "amount"))), busyBank,
       Aborted :: SavedWallet alice :: QueriedWallet alice :: evs).
Proof.
  apply (deposit_below_minimum_rolls_back (quiet noon) alice (usd 0.006) busyBank
           (usdWallet 100)); reflexivity.
Defined.

(** X13. A transfer without a [toUserId], or to an [ObjectId] that has no
    wallet, is answered 404 "Recipient wallet not found" and changes nothing;
    the check comes after the fraud evaluation and before the sender's balance
    is looked at, so it is the answer even when the sender has no funds or no
    wallet. A [toUserId] that is no [ObjectId] makes the query throw: the
    answer is a 500, and nothing changes. *)
Theorem transfer_without_recipient_wallet env user body db :
  (match Body.toUserId body with
   | Some s => s <> user /\ exists receiver,
                 castObjectId s = Some receiver /\ wallets db !! receiver = None
   | None => True
   end ->
   exists evs,
     run (transferHandler env user body) db
     = (Ok (Status 404 (Message "Recipient wallet not found")), db, evs)) /\
  (forall s, Body.toUserId body = Some s -> s <> user -> castObjectId s = None ->
   exists evs,
     run (transferHandler env user body) db
     = (Ok (Status 500 (ExnMessage (CastError "userId"))), db, evs)).
Proof.
  destruct (checkFraudRules_in_session env user transfer (Body.amount body) db)
    as (fc & evs & _ & Hfc).
  split.
  - intros Hto. unfold_handler. simpl.
    destruct (Body.toUserId body) as [s|]; simpl.
    + destruct Hto as (Hne & receiver & Hcast & Hrw).
      apply String.eqb_neq in Hne. rewrite Hne. simpl.
      rewrite Hfc. simpl. rewrite Hcast. simpl. rewrite Hrw. simpl. eexists. reflexivity.
    + rewrite Hfc. simpl. eexists. reflexivity.
  - intros s Hto Hne Hcast. unfold_handler. simpl. rewrite Hto. simpl.
    apply String.eqb_neq in Hne. rewrite Hne. simpl.
    rewrite Hfc. simpl. rewrite Hcast. simpl. eexists. reflexivity.
Qed.

Lemma transfer_without_recipient_wallet_witness :
  (exists evs,
     run (transferHandler (quiet noon) alice (usdTo 10 carol)) smallBank
     = (Ok (Status 404 (Message "Recipient wallet not found")), smallBank, evs)) /\
  (exists evs,
     run (transferHandler (quiet noon) alice (usdTo 10 "bob")) smallBank
     = (Ok (Status 500 (ExnMessage (CastError "userId"))), smallBank, evs)).
Proof.
  split.
  - apply (transfer_without_recipient_wallet (quiet noon) alice (usdTo 10 carol) smallBank).
    split; [discriminate|]. exists carol. split; reflexivity.
  - apply (proj2 (transfer_without_recipient_wallet (quiet noon) alice (usdTo 10 "bob")
                    smallBank) "bob"); [reflexivity | discriminate | reflexivity].
Defined.

(** X14. A transfer between two existing wallets whose amount exceeds the
    sender's balance in the currency, or whose currency the sender has no entry
    for, is answered 400 "Insufficient funds"; neither wallet changes and no
    record is written. *)
Theorem transfer_insufficient_funds env user body db s receiver sw rw :
  Body.toUserId body = Some s -> s <> user -> castObjectId s = Some receiver ->
  wallets db !! user = Some sw -> wallets db !! receiver = Some rw ->
  List.find (hasCurrency (currencyOf body)) (Wallet.balances sw) = None
  \/ (balanceOf sw (currencyOf body) <? Body.amount body)%float = true ->
  exists evs,
    run (transferHandler env user body) db
    = (Ok (Status 400 (Message "Insufficient funds")), db, evs).
Proof.
  intros Hto Hne Hcast Hsw Hrw Hlow.
  destruct (checkFraudRules_in_session env user transfer (Body.amount body) db)
    as (fc & evs & _ & Hfc).
  unfold_handler. simpl. rewrite Hto. simpl.
  apply String.eqb_neq in Hne. rewrite Hne. simpl.
  rewrite Hfc. simpl. rewrite Hcast. simpl. rewrite Hrw, Hsw. simpl.
  rewrite balanceOf_find_ref, find_ref_find in Hlow.
  destruct (find_ref (hasCurrency (currencyOf body)) (Wallet.balances sw)) as [[i b]|]; simpl.
  - destruct Hlow as [Hnone|Hlt]; [discriminate|].
    rewrite Hlt. simpl. eexists. reflexivity.
  - eexists. reflexivity.
Qed.

Lemma transfer_insufficient_funds_witness :
  exists evs,
    run (transferHandler (quiet noon) bob (usdTo 6 alice)) smallBank
    = (Ok (Status 400 (Message "Insufficient funds")), smallBank, evs).
Proof.
  apply (transfer_insufficient_funds (quiet noon) bob (usdTo 6 alice) smallBank alice alice
           (usdWallet 5) (usdWallet 100)); try reflexivity; try discriminate.
  right. reflexivity.
Defined.

(** X27. A transfer whose [toUserId] is the string of the requesting user's
    own id is answered 400 "Cannot transfer to yourself" before anything else
    happens: no fraud evaluation, no wallet read, no write, and the store is as
    it was; the same through the route when the body is accepted. *)
Theorem self_transfer_rejected env user body db :
  Body.toUserId body = Some user ->
  run (transferHandler env user body) db
  = (Ok (Status 400 (Message "Cannot transfer to yourself")), db, []) /\
  (validateTransaction body = None ->
   run (POST_transfer env user body) db
   = (Ok (Status 400 (Message "Cannot transfer to yourself")), db, [])) /\
  after db (mkRequest env Transfer user body) = db.
Proof.
  intros Hto. pose proof (transferHandler_self env user body db Hto) as Hrun.
  split; [exact Hrun|]. split.
  - intros Hval. unfold POST_transfer. rewrite (route_accepted _ _ _ _ Hval). exact Hrun.
  - unfold after, serve, POST_transfer, route. simpl.
    destruct (validateTransaction body); [reflexivity|]. rewrite Hrun. reflexivity.
Qed.

Lemma self_transfer_rejected_witness :
  run (POST_transfer (quiet noon) alice (usdTo 10 alice)) smallBank
  = (Ok (Status 400 (Message "Cannot transfer to yourself")), smallBank, []).
Proof.
  apply (self_transfer_rejected (quiet noon) alice (usdTo 10 alice) smallBank eq_refl).
  reflexivity.
Defined.

(** ** The balance route *)








(** ** Paged lists *)

Lemma insertNewest_perm tx l : insertNewest tx l ≡ₚ tx :: l.
Proof.
  induction l as [|y r IH]; simpl; [reflexivity|].
  destruct (_ <=? _)%Z; [reflexivity|].
  rewrite IH. apply Permutation_swap.
Qed.

Lemma sortNewestFirst_perm l : sortNewestFirst l ≡ₚ l.
Proof.
  induction l as [|x r IH]; simpl; [reflexivity|].
  rewrite insertNewest_perm, IH. reflexivity.
Qed.

Lemma insertNewest_sorted tx l : newestFirst l -> newestFirst (insertNewest tx l).
Proof.
  unfold newestFirst. induction l as [|y r IH]; simpl; intros Hl.
  - constructor; constructor.
  - apply StronglySorted_inv in Hl as [Hr Hy].
    destruct (Z.leb_spec (Transaction.createdAt y) (Transaction.createdAt tx)) as [Hle|Hgt].
    + constructor; [constructor; assumption|].
      constructor; [exact Hle|].
      eapply Forall_impl; [exact Hy|]. simpl. intros z Hz. lia.
    + constructor; [apply IH, Hr|].
      rewrite (insertNewest_perm tx r). constructor; [lia | exact Hy].
Qed.

Lemma sortNewestFirst_sorted l : newestFirst (sortNewestFirst l).
Proof.
  induction l as [|x r IH]; simpl; [constructor|].
  apply insertNewest_sorted, IH.
Qed.

Lemma newestFirst_page n k l : newestFirst l -> newestFirst (firstn n (skipn k l)).
Proof.
  unfold newestFirst. intros Hl.
  rewrite <- (take_drop k l) in Hl. apply StronglySorted_app_1_r in Hl.
  rewrite <- (take_drop n (drop k l)) in Hl. apply StronglySorted_app_1_l in Hl.
  exact Hl.
Qed.

Lemma In_page {A} n k (l : list A) x : In x (firstn n (skipn k l)) -> In x l.
Proof.
  intros H. apply list_elem_of_In. apply list_elem_of_In in H.
  apply (subseteq_take n) in H. apply (subseteq_drop k) in H. exact H.
Qed.

Lemma pagesUpTo_take n limit l : pagesUpTo n limit l = firstn (n * limit) l.
Proof.
  unfold pagesUpTo. induction n as [|n IH]; [reflexivity|].
  rewrite seq_S, map_app, concat_app, IH. simpl.
  rewrite app_nil_r, Nat.sub_0_r, take_take_drop. f_equal. lia.
Qed.

Lemma ceilDiv_covers total limit :
  (1 <= limit -> 0 <= ceilDiv total limit /\ Z.of_nat total <= ceilDiv total limit * limit)%Z.
Proof.
  intros Hl. unfold ceilDiv.
  pose proof (Z.div_mod (- Z.of_nat total) limit ltac:(lia)) as Hdm.
  pose proof (Z.mod_pos_bound (- Z.of_nat total) limit ltac:(lia)) as Hub.
  nia.
Qed.

Lemma limitCount_positive limit : (1 <= limit)%Z -> limitCount limit = Z.to_nat limit.
Proof.
  intros Hl. unfold limitCount. destruct (Z.ltb_spec limit 0); [lia | reflexivity].
Qed.

(** What [listPage] answers when the history can be read and the skip is not
    negative. *)
Lemma listPage_run env query page limit db :
  countError env = None -> findError env = None ->
  (0 <= (page - 1) * limit)%Z ->
  let matches := List.filter query (transactions db) in
  run (listPage env query page limit) db
  = (Ok (ListJson (firstn (limitCount limit)
                     (skipn (Z.to_nat ((page - 1) * limit)) (sortNewestFirst matches)))
                  (mkPagination page limit (length matches) (ceilDiv (length matches) limit))),
     db, [QueriedTransactions; QueriedTransactions]).
Proof.
  intros Hc Hf Hskip matches.
  unfold run, listPage, try_catch, bind, Transaction_find, Transaction_countDocuments,
    emit, throw, ret.
  destruct (Z.ltb_spec ((page - 1) * limit) 0) as [Hneg|_]; [lia|].
  rewrite Hc, Hf. reflexivity.
Qed.

(** A negative skip is refused by the store, whatever the history. *)
Lemma listPage_negative_skip env query page limit db :
  ((page - 1) * limit < 0)%Z ->
  run (listPage env query page limit) db
  = (Ok (ListStatus 500 (ExnMessage (MongoError "skip"))), db, [QueriedTransactions]).
Proof.
  intros Hskip.
  unfold run, listPage, try_catch, bind, Transaction_find, Transaction_countDocuments,
    emit, throw, ret.
  destruct (Z.ltb_spec ((page - 1) * limit) 0) as [_|Hpos]; [reflexivity | lia].
Qed.

Lemma historyQuery_spec user type tx :
  historyQuery user type tx = true <->
  participant user tx /\ Transaction.isDeleted tx = false /\
  (forall t, type = Some t -> t <> "" -> TxType_name (Transaction.type tx) = t).
Proof.
  unfold historyQuery, participant, opt_string_eqb.
  rewrite !andb_true_iff, orb_true_iff, negb_true_iff.
  assert (Hty : match type with
                | Some t => if String.eqb t "" then true
                            else String.eqb (TxType_name (Transaction.type tx)) t
                | None => true
                end = true
                <-> (forall t, type = Some t -> t <> "" ->
                               TxType_name (Transaction.type tx) = t)).
  { destruct type as [t|]; [|split; [intros _ t; discriminate | reflexivity]].
    destruct (String.eqb_spec t "") as [->|Hne].
    - split; [intros _ t [= <-] H; destruct H; reflexivity | reflexivity].
    - rewrite String.eqb_eq. split.
      + intros H t' [= <-] _. exact H.
      + intros H. apply (H t eq_refl Hne). }
  rewrite Hty.
  destruct (Transaction.fromUserId tx) as [f|], (Transaction.toUserId tx) as [t|];
    rewrite ?String.eqb_eq; intuition congruence.
Qed.

(** X19. The history route shows a user only their own records. For a page
    and a limit of at least 1 whose product is a 32-bit integer, when the
    history can be read: every record
    listed is in the log, has the user as source or destination, is not
    soft-deleted and has the requested type; at most [limit] records are
    listed, newest first; the reported total is the number of all such records,
    and [pages] pages of [limit] records are enough to hold them. The store is
    not touched. *)
Theorem history_lists_own_records env user q db :
  countError env = None -> findError env = None ->
  (1 <= parseIntOr 1 (q_page q))%Z -> (1 <= parseIntOr 10 (q_limit q))%Z ->
  (parseIntOr 1 (q_page q) * parseIntOr 10 (q_limit q) <= 2147483647)%Z ->
  exists txs pg evs,
    run (historyHandler env user q) db = (Ok (ListJson txs pg), db, evs) /\
    (forall tx, In tx txs ->
       In tx (transactions db) /\ participant user tx /\ Transaction.isDeleted tx = false /\
       (forall t, q_type q = Some t -> t <> "" -> TxType_name (Transaction.type tx) = t)) /\
    (Z.of_nat (length txs) <= p_limit pg)%Z /\
    newestFirst txs /\
    p_total pg = length (List.filter (historyQuery user (q_type q)) (transactions db)) /\
    p_page pg = parseIntOr 1 (q_page q) /\ p_limit pg = parseIntOr 10 (q_limit q) /\
    (0 <= p_pages pg)%Z /\
    (Z.of_nat (p_total pg) <= p_pages pg * p_limit pg)%Z.
Proof.
  intros Hc Hf Hpage Hlimit _. unfold historyHandler.
  eexists _, _, _. split; [apply (listPage_run env _ _ _ db Hc Hf); nia|]. simpl.
  split; [|split; [|split; [|split; [|split; [|split; [|split]]]]]].
  - intros tx Hin. apply In_page in Hin.
    apply (Permutation_in _ (sortNewestFirst_perm _)) in Hin.
    apply List.filter_In in Hin as [Hin Hq].
    apply historyQuery_spec in Hq. tauto.
  - rewrite (limitCount_positive _ Hlimit).
    pose proof (firstn_le_length (Z.to_nat (parseIntOr 10 (q_limit q)))
                  (skipn (Z.to_nat ((parseIntOr 1 (q_page q) - 1) * parseIntOr 10 (q_limit q)))
                     (sortNewestFirst
                        (List.filter (historyQuery user (q_type q)) (transactions db))))).
    lia.
  - apply newestFirst_page, sortNewestFirst_sorted.
  - reflexivity.
  - reflexivity.
  - reflexivity.
  - apply ceilDiv_covers, Hlimit.
  - apply ceilDiv_covers, Hlimit.
Qed.

Lemma history_lists_own_records_witness :
  listed (run (historyHandler (quiet noon) alice (mkPageQuery None (Some 3%Z) None)) mixedLog)
  = [ record (Some bob) (Some alice) transfer 1 400;
      Transaction.mk None (Some alice) deposit 20000 "USD" None completed true
                     (Some large_amount) false None 300%Z 300%Z;
      record (Some alice) None withdrawal 5 200 ].
Proof.
  assert (Hpage : (1 <= parseIntOr 1 (q_page (mkPageQuery None (Some 3%Z) None)))%Z)
    by (vm_compute; discriminate).
  assert (Hlimit : (1 <= parseIntOr 10 (q_limit (mkPageQuery None (Some 3%Z) None)))%Z)
    by (vm_compute; discriminate).
  assert (Hbound : (parseIntOr 1 (q_page (mkPageQuery None (Some 3%Z) None))
                    * parseIntOr 10 (q_limit (mkPageQuery None (Some 3%Z) None))
                    <= 2147483647)%Z)
    by (vm_compute; discriminate).
  destruct (history_lists_own_records (quiet noon) alice (mkPageQuery None (Some 3%Z) None)
              mixedLog eq_refl eq_refl Hpage Hlimit Hbound) as (txs & pg & evs & Hrun & _).
  rewrite Hrun. vm_compute in Hrun. injection Hrun as <- _ _. reflexivity.
Defined.

(** X20. Paging through the history loses and repeats nothing: for a limit
    of at least 1 that is a 32-bit integer, on a fixed store whose matching records have distinct
    creation times (so that the order newest-first is determined), the pages
    [1 .. pages] of the history route, one after the other, list every record
    of the user exactly once, newest first. *)
Theorem history_pages_cover env user q db :
  countError env = None -> findError env = None ->
  let matches := List.filter (historyQuery user (q_type q)) (transactions db) in
  let limit := parseIntOr 10 (q_limit q) in
  let pages := ceilDiv (length matches) limit in
  (1 <= limit <= 2147483647)%Z ->
  List.NoDup (map Transaction.createdAt matches) ->
  let all := concat (map (fun page =>
                            listed (run (historyHandler env user
                                           (mkPageQuery (Some (Z.of_nat page)) (q_limit q)
                                                        (q_type q))) db))
                         (seq 1 (Z.to_nat pages))) in
  all ≡ₚ matches /\ newestFirst all.
Proof.
  intros Hc Hf matches limit pages [Hlimit _] _ all.
  assert (Hall : all = pagesUpTo (Z.to_nat pages) (Z.to_nat limit) (sortNewestFirst matches)).
  { unfold all, pagesUpTo. f_equal. apply map_ext_in. intros page Hin.
    apply in_seq in Hin. unfold historyHandler. cbn [q_page q_limit q_type].
    assert (Hp : parseIntOr 1 (Some (Z.of_nat page)) = Z.of_nat page).
    { unfold parseIntOr. destruct (Z.eqb_spec (Z.of_nat page) 0); [lia | reflexivity]. }
    rewrite Hp. fold limit.
    rewrite (listPage_run env _ _ _ db Hc Hf) by nia. cbn [listed].
    fold matches. rewrite (limitCount_positive _ Hlimit).
    rewrite Z2Nat.inj_mul by lia. repeat f_equal. lia. }
  assert (Hwhole : all = sortNewestFirst matches).
  { rewrite Hall, pagesUpTo_take. apply firstn_all2.
    rewrite (Permutation_length (sortNewestFirst_perm matches)).
    destruct (ceilDiv_covers (length matches) limit Hlimit) as [Hnn Hcov].
    fold pages in Hnn, Hcov. nia. }
  rewrite Hwhole. split; [apply sortNewestFirst_perm | apply sortNewestFirst_sorted].
Qed.

Lemma history_pages_cover_witness :
  concat (map (fun page =>
                 listed (run (historyHandler (quiet noon) alice
                                (mkPageQuery (Some (Z.of_nat page)) (Some 2%Z) None)) mixedLog))
              (seq 1 3))
  ≡ₚ List.filter (historyQuery alice None) (transactions mixedLog).
Proof.
  apply (history_pages_cover (quiet noon) alice (mkPageQuery None (Some 2%Z) None) mixedLog
           eq_refl eq_refl).
  - vm_compute. split; discriminate.
  - vm_compute. repeat constructor; simpl; intuition discriminate.
Defined.

(** X28. Page and limit are whatever [parseInt] reads, sign included. A
    negative skip, [(page - 1) * limit < 0], is refused by the store: the answer
    is a 500 and nothing is listed. A negative limit (a 32-bit integer) on the
    first page lists at most [-limit] of the user's records, 101 at the most,
    and reports a number of pages that is zero or negative. The store is not
    touched. *)
Theorem history_negative_page_or_limit env user q db :
  let page := parseIntOr 1 (q_page q) in
  let limit := parseIntOr 10 (q_limit q) in
  (((page - 1) * limit < 0)%Z ->
   run (historyHandler env user q) db
   = (Ok (ListStatus 500 (ExnMessage (MongoError "skip"))), db, [QueriedTransactions])) /\
  (countError env = None -> findError env = None -> page = 1%Z ->
   (- 2147483647 <= limit < 0)%Z ->
   exists txs pages evs,
     run (historyHandler env user q) db
     = (Ok (ListJson txs (mkPagination 1 limit
                            (length (List.filter (historyQuery user (q_type q))
                                       (transactions db))) pages)), db, evs) /\
     (Z.of_nat (length txs) <= - limit)%Z /\ (length txs <= 101)%nat /\
     (forall tx, In tx txs -> In tx (transactions db) /\ participant user tx) /\
     (pages <= 0)%Z).
Proof.
  intros page limit. split.
  - intros Hskip. apply listPage_negative_skip, Hskip.
  - intros Hc Hf Hpage [_ Hlimit]. unfold historyHandler. fold page limit.
    rewrite Hpage in *.
    eexists _, _, _. split; [apply (listPage_run env _ _ _ db Hc Hf); lia|].
    split; [|split; [|split]].
    + match goal with |- context [firstn ?n ?l] => pose proof (firstn_le_length n l) as H end.
      unfold limitCount in *. destruct (Z.ltb_spec limit 0); lia.
    + match goal with |- context [firstn ?n ?l] => pose proof (firstn_le_length n l) as H end.
      unfold limitCount in *. destruct (Z.ltb_spec limit 0); lia.
    + intros tx Hin. apply In_page in Hin.
      apply (Permutation_in _ (sortNewestFirst_perm _)) in Hin.
      apply List.filter_In in Hin as [Hin Hq].
      apply historyQuery_spec in Hq. tauto.
    + unfold ceilDiv.
      match goal with
      | |- (- (- Z.of_nat ?n / _) <= 0)%Z =>
          assert (Heq : (- Z.of_nat n / limit = Z.of_nat n / - limit)%Z)
      end.
      { rewrite <- (Z.div_opp_opp (Z.of_nat _) (- limit)) by lia.
        rewrite Z.opp_involutive. reflexivity. }
      rewrite Heq.
      match goal with
      | |- (- (?a / ?b) <= 0)%Z => pose proof (Z.div_pos a b ltac:(lia) ltac:(lia))
      end.
      lia.
Qed.

Lemma history_negative_page_or_limit_witness :
  run (historyHandler (quiet noon) alice (mkPageQuery (Some (-1)%Z) None None)) mixedLog
  = (Ok (ListStatus 500 (ExnMessage (MongoError "skip"))), mixedLog, [QueriedTransactions]).
Proof.
  apply (history_negative_page_or_limit (quiet noon) alice
           (mkPageQuery (Some (-1)%Z) None None) mixedLog).
  reflexivity.
Defined.

(** The same parameters, evaluated: page -1 is answered 500; limit -2 lists
    two records and reports -2 pages for a total of 5. *)
Example history_with_negative_parameters :
  run (historyHandler (quiet noon) alice (mkPageQuery (Some (-1)%Z) None None)) mixedLog
  = (Ok (ListStatus 500 (ExnMessage (MongoError "skip"))), mixedLog, [QueriedTransactions]) /\
  length (listed (run (historyHandler (quiet noon) alice
                         (mkPageQuery None (Some (-2)%Z) None)) mixedLog)) = 2%nat /\
  (exists txs evs,
     run (historyHandler (quiet noon) alice (mkPageQuery None (Some (-2)%Z) None)) mixedLog
     = (Ok (ListJson txs (mkPagination 1 (-2) 5 (-2))), mixedLog, evs)).
Proof.
  split; [reflexivity|]. split; [reflexivity|]. eexists _, _. reflexivity.
Qed.

Lemma flaggedQuery_one tx l :
  length (List.filter flaggedQuery (l ++ [tx]))
  = (length (List.filter flaggedQuery l) + (if flaggedQuery tx then 1 else 0))%nat.
Proof.
  rewrite List.filter_app, length_app, filter_cons_if.
  destruct (flaggedQuery tx); reflexivity.
Qed.

(** X21. Every flagged success shows up in the admin's flagged list: the
    list holds only flagged, non-deleted records, newest first, and after a
    request that commits its total is one more when the answer says
    [isFlagged = true] and unchanged when it says [false]. (The total is part
    of every answer to a page the store serves: skip and limit 32-bit integers,
    the skip not negative; a negative skip is answered 500.) *)
Theorem flagged_list_tracks_flagged_commits r db message view newBalance db' evs env q :
  run (serve r) db = (Ok (Json message view newBalance), db', evs) ->
  countError env = None -> findError env = None ->
  ((0 <= (parseIntOr 1 (q_page q) - 1) * parseIntOr 10 (q_limit q) <= 2147483647)%Z ->
   (- 2147483647 <= parseIntOr 10 (q_limit q) <= 2147483647)%Z ->
   listedTotal (run (flaggedHandler env q) db')
   = (listedTotal (run (flaggedHandler env q) db) + (if v_isFlagged view then 1 else 0))%nat) /\
  (((parseIntOr 1 (q_page q) - 1) * parseIntOr 10 (q_limit q) < 0)%Z ->
   run (flaggedHandler env q) db'
   = (Ok (ListStatus 500 (ExnMessage (MongoError "skip"))), db', [QueriedTransactions])) /\
  (forall tx, In tx (listed (run (flaggedHandler env q) db')) ->
     In tx (transactions db') /\ Transaction.isFlagged tx = true
     /\ Transaction.isDeleted tx = false) /\
  newestFirst (listed (run (flaggedHandler env q) db')).
Proof.
  intros Hrun Hc Hf.
  unfold flaggedHandler.
  split; [|split].
  - intros [Hskip _] _. rewrite !(listPage_run env _ _ _ _ Hc Hf Hskip). simpl.
    destruct (serve_outcome r db) as (resp & evs' & fc & evs0 & _ & Hrun' & Hcase).
    rewrite Hrun in Hrun'. injection Hrun' as <- -> <-.
    destruct Hcase as [[_ Hno] | [Hcommit _]]; [destruct Hno; exact I|].
    destruct Hcommit as (_ & _ & _ & -> & Hop).
    rewrite flaggedQuery_one. f_equal.
    assert (Hview : v_isFlagged view = isFlagged fc).
    { destruct (r_op r).
      - destruct Hop as (w & _ & _ & _ & [= _ -> _]). reflexivity.
      - destruct Hop as (w & i & b & _ & _ & _ & _ & _ & [= _ -> _]). reflexivity.
      - destruct Hop as (s & a & sw & rw & i & b & _ & _ & _ & _ & _ & _ & _ & _ & _ & _
                         & [= _ -> _]).
        reflexivity. }
    rewrite Hview. unfold flaggedQuery, recordOf. simpl.
    destruct (isFlagged fc); reflexivity.
  - intros Hskip. apply listPage_negative_skip, Hskip.
  - destruct (Z.lt_ge_cases ((parseIntOr 1 (q_page q) - 1) * parseIntOr 10 (q_limit q)) 0)
      as [Hneg|Hskip].
    + rewrite (listPage_negative_skip env _ _ _ _ Hneg). simpl.
      split; [intros tx []| constructor].
    + rewrite (listPage_run env _ _ _ _ Hc Hf Hskip). simpl. split.
      * intros tx Hin. apply In_page in Hin.
        apply (Permutation_in _ (sortNewestFirst_perm _)) in Hin.
        apply List.filter_In in Hin as [Hin Hq].
        unfold flaggedQuery in Hq. apply andb_true_iff in Hq as [Hfl Hd].
        apply negb_true_iff in Hd. auto.
      * apply newestFirst_page, sortNewestFirst_sorted.
Qed.

Lemma flagged_list_tracks_flagged_commits_witness :
  listedTotal (run (flaggedHandler (quiet noon) (mkPageQuery None None None))
                   (after mixedLog (mkRequest (quiet noon) Deposit alice (usd 10000))))
  = 2%nat.
Proof.
  assert (Hrun : exists evs,
             run (serve (mkRequest (quiet noon) Deposit alice (usd 10000))) mixedLog
             = (Ok (Json "Deposit successful" (mkTxView 10000 "USD" None completed true)
                      10100),
                after mixedLog (mkRequest (quiet noon) Deposit alice (usd 10000)), evs))
    by (eexists; reflexivity).
  destruct Hrun as [evs Hrun].
  destruct (flagged_list_tracks_flagged_commits _ _ _ _ _ _ _ (quiet noon)
              (mkPageQuery None None None) Hrun eq_refl eq_refl) as (Htotal & _).
  rewrite Htotal; [reflexivity | vm_compute; split; discriminate ..].
Defined.

(** ** Requests feed the rules *)

Lemma totalAmount_app l tx :
  totalAmount (l ++ [tx]) = (totalAmount l + Transaction.amount tx)%float.
Proof. unfold totalAmount. rewrite fold_left_app. reflexivity. Qed.

(** X22. Every committed request counts towards the rules of the next
    hour. For any evaluation time within one hour of the request: the
    requester's count of recent records is one more, and so is that of the user
    a transfer is cast to; after a withdrawal the requester's recent
    withdrawals have the new record appended and their total is the former
    total plus the amount, as a sum of doubles, while deposits and transfers
    leave the recent withdrawals as they were. *)
Theorem commit_counts_towards_rules r db message view newBalance db' evs t :
  run (serve r) db = (Ok (Json message view newBalance), db', evs) ->
  (t - 3600000 <= now (r_env r))%Z ->
  recentCount db' (r_user r) t = S (recentCount db (r_user r) t) /\
  (forall receiver, r_op r = Transfer -> recipientOf (r_body r) = Some receiver ->
     recentCount db' receiver t = S (recentCount db receiver t)) /\
  (r_op r = Withdraw ->
     length (recentWithdrawals db' (r_user r) t)
     = S (length (recentWithdrawals db (r_user r) t)) /\
     totalAmount (recentWithdrawals db' (r_user r) t)
     = (totalAmount (recentWithdrawals db (r_user r) t) + Body.amount (r_body r))%float) /\
  (r_op r <> Withdraw ->
     recentWithdrawals db' (r_user r) t = recentWithdrawals db (r_user r) t).
Proof.
  intros Hrun Ht.
  destruct (serve_outcome r db) as (resp & evs' & fc & evs0 & _ & Hrun' & Hcase).
  rewrite Hrun in Hrun'. injection Hrun' as <- -> <-.
  destruct Hcase as [[_ Hno] | [Hcommit _]]; [destruct Hno; exact I|].
  destruct Hcommit as (_ & _ & _ & Hlog & Hop).
  unfold recentCount, recentWithdrawals. rewrite Hlog, !List.filter_app, !filter_cons_if.
  change FRAUD_RULES.SUSPICIOUS_PATTERN_TIME_WINDOW with 3600000%Z.
  apply Z.leb_le in Ht.
  destruct r as [env op user body]. simpl in *.
  unfold recentTransactionsFilter, recentWithdrawalsFilter, recordOf, opt_string_eqb.
  simpl. rewrite Ht.
  split; [|split; [|split]].
  - destruct op; simpl; rewrite (String.eqb_refl user); simpl;
      rewrite ?orb_true_r, length_app; simpl; lia.
  - intros receiver -> Hto. simpl. rewrite Hto. simpl.
    rewrite List.filter_app, filter_cons_if. simpl.
    rewrite Ht, (String.eqb_refl receiver), orb_true_r. simpl.
    rewrite length_app. simpl. lia.
  - intros ->. simpl. rewrite (String.eqb_refl user). simpl.
    split; [rewrite length_app; simpl; lia|].
    rewrite totalAmount_app. reflexivity.
  - intros Hop'. destruct op; try congruence; simpl.
    + apply app_nil_r.
    + rewrite (String.eqb_refl user). simpl. apply app_nil_r.
Qed.

Lemma commit_counts_towards_rules_witness :
  recentCount (after busyBank (mkRequest (quiet noon) Transfer alice (usdTo 30 bob)))
              bob (noon + 1000)
  = 1%nat.
Proof.
  assert (Hrun : exists evs,
             run (serve (mkRequest (quiet noon) Transfer alice (usdTo 30 bob))) busyBank
             = (Ok (Json "Transfer successful"
                      (mkTxView 30 "USD" (Some bob) completed true) 70),
                after busyBank (mkRequest (quiet noon) Transfer alice (usdTo 30 bob)), evs))
    by (eexists; reflexivity).
  destruct Hrun as [evs Hrun].
  assert (Ht : (noon + 1000 - 3600000 <= now (quiet noon))%Z) by (vm_compute; discriminate).
  destruct (commit_counts_towards_rules _ _ _ _ _ _ _ (noon + 1000)%Z Hrun Ht)
    as (_ & Hreceiver & _).
  rewrite (Hreceiver bob eq_refl eq_refl). reflexivity.
Defined.

(** ** More on the daily job *)

Lemma obj_set_sum o k v :
  (list_sum (map snd (obj_set o k v)) + readCount o k = list_sum (map snd o) + v)%nat.
Proof.
  unfold readCount. induction o as [|[k' v'] r IH]; simpl.
  - lia.
  - destruct (String.eqb k' k); simpl; lia.
Qed.

Lemma countOne_sum o tx :
  (list_sum (map snd (countOne o tx)) <= list_sum (map snd o) + 1)%nat.
Proof.
  unfold countOne. destruct (countedUser tx) as [u|]; [|lia].
  pose proof (obj_set_sum o u
                (match obj_get o u with Some c => c | None => 0 end + 1)) as H.
  unfold readCount in H. lia.
Qed.

Lemma fold_countOne_sum txs o :
  (list_sum (map snd (fold_left countOne txs o)) <= list_sum (map snd o) + length txs)%nat.
Proof.
  revert o. induction txs as [|tx txs IH]; intros o; simpl; [lia|].
  specialize (IH (countOne o tx)). pose proof (countOne_sum o tx). lia.
Qed.

Lemma flagExcessive_sum o : (21 * length (flagExcessive o) <= list_sum (map snd o))%nat.
Proof.
  induction o as [|[k c] r IH]; simpl; [lia|].
  rewrite length_app. destruct (Nat.ltb_spec 20 c); simpl; lia.
Qed.

(** X23. The daily job is read-only and never throws. It fails only when the
    query to the log is rejected, and then logs the error and returns it;
    otherwise it reports the number of records in the window, and the number of
    users it reports, times 21, is at most that number. *)
Theorem daily_job_is_safe_and_bounded env db yesterday today :
  exists result evs,
    run (fraudDetectionJob env yesterday today) db = (Ok result, db, evs) /\
    match result with
    | JobReport scannedTransactions suspiciousUsers details =>
        findError env = None /\
        scannedTransactions = length (scanned db yesterday today) /\
        suspiciousUsers = length details /\
        (21 * suspiciousUsers <= scannedTransactions)%nat
    | JobError e => findError env = Some e /\ In (LoggedError e) evs
    end.
Proof.
  unfold run, fraudDetectionJob, try_catch, bind, Transaction_find, emit, throw, ret.
  destruct (findError env) as [e|] eqn:Hf; simpl.
  - eexists _, _. split; [reflexivity|]. simpl. auto.
  - eexists _, _. split; [reflexivity|]. simpl.
    fold (scanned db yesterday today).
    repeat split.
    pose proof (flagExcessive_sum (fold_left countOne (scanned db yesterday today) [])).
    pose proof (fold_countOne_sum (scanned db yesterday today) []).
    simpl in *. lia.
Qed.

(** ** Validation of the request body *)

(** X24. What the validation lets through: an accepted body has a positive
    amount, its currency (USD when absent) is one of USD, EUR, BTC and ETH, its
    description, if any, is non-empty and at most 500 characters long, and its
    recipient, if any, is non-empty. A body whose amount is zero or negative is
    refused on [amount], before the handler runs: the answer is a 400 and the
    store is untouched. *)
Theorem validation_lets_through body :
  (validateTransaction body = None ->
   (0 <? Body.amount body)%float = true /\
   In (currencyOf body) ["USD"; "EUR"; "BTC"; "ETH"] /\
   (forall d, Body.description body = Some d -> d <> "" /\ (String.length d <= 500)%nat) /\
   (forall u, Body.toUserId body = Some u -> u <> "")) /\
  ((Body.amount body <=? 0)%float = true ->
   validateTransaction body = Some "amount" /\
   forall handler env user db,
     run (route handler env user body) db = (Ok (Status 400 (JoiMessage "amount")), db, [])).
Proof.
  split.
  - intros Hval.
    destruct (validateTransaction_passes body Hval) as (Hamt & Hcur & Hdesc & Hto).
    split; [apply joi_amount_positive, Hamt|]. split; [exact Hcur|]. split.
    + intros d Hd. rewrite Hd in Hdesc. simpl in Hdesc.
      apply andb_true_iff in Hdesc as [Hne Hlen].
      apply negb_true_iff, String.eqb_neq in Hne. apply Nat.leb_le in Hlen. auto.
    + intros u Hu. rewrite Hu in Hto. simpl in Hto.
      apply negb_true_iff, String.eqb_neq in Hto. exact Hto.
  - intros Hle.
    assert (Hv : validateTransaction body = Some "amount").
    { unfold validateTransaction.
      destruct (joi_amount (Body.amount body)) eqn:E; [|reflexivity].
      apply joi_amount_positive in E. apply leb_not_ltb in Hle. congruence. }
    split; [exact Hv|]. intros handler env user db.
    apply route_refused, Hv.
Qed.

Lemma validation_lets_through_witness :
  validateTransaction (usd 50) = None /\ (0 <? Body.amount (usd 50))%float = true /\
  validateTransaction (usd 0) = Some "amount".
Proof.
  destruct (validation_lets_through (usd 50)) as [Hok _].
  destruct (validation_lets_through (usd 0)) as [_ Hbad].
  split; [reflexivity|]. split.
  - apply Hok. reflexivity.
  - apply Hbad. reflexivity.
Defined.
